(** * BOM platform backend: classification engine, LLM adapters and the
      workflow pipeline

    A shallow embedding of
      - [services/workflow_service_backup.py]  (class [WorkflowService]),
      - [services/translation_service.py]      (class [TranslationService]),
      - [services/gemini_agent_service.py] and
        [services/gemini_agent_service_backup.py] (class [GeminiAgentService]),
      - [main_backup.py]                       (the upload endpoint),
    together with the properties the specification states about them.

    Python values decoded from JSON are an inductive type; a Python [dict] is
    an association list in insertion order (keys are unique, as [json.loads]
    and item assignment keep them); a raised exception is the [Raise] branch
    of [result]; code that touches the store threads a [world] through an
    exception-and-state monad in which the effects made before a [raise]
    stay.  What the document parser, the gateway, the file system and the
    database answer during a run is an argument of the run, and the
    theorems hold for every such answer. *)

From Stdlib Require Import ZArith String Ascii List Bool Lia.
From stdpp Require Import base option list sorting gmap strings.

Local Open Scope Z_scope.
#[local] Set Warnings "-register-all".

(** ** Python values *)

Module Py.

(** A Python [float]: not-a-number, an infinity, or the finite dyadic
    rational [m * 2^e]. *)
Inductive pyfloat : Type :=
| FNaN
| FInf (negative : bool)
| FFin (m e : Z).

(** The values [json.loads] builds.  A [str] holds the UTF-8 bytes of its
    text. *)
Inductive pyval : Type :=
| PNone
| PBool (b : bool)
| PInt (z : Z)
| PFloat (f : pyfloat)
| PStr (s : string)
| PList (l : list pyval)
| PDict (d : list (string * pyval)).

Inductive exc_type : Type :=
| AttributeError | TypeError | KeyError | IndexError | ValueError
| JSONDecodeError | RuntimeError | RequestException | OSError
| DatabaseError | OtherException.

(** An exception object: its class and [str(e)]. *)
Record exn : Type := Exn { exc_class : exc_type; exc_str : string }.

Inductive result (A : Type) : Type :=
| Ok (a : A)
| Raise (e : exn).
Arguments Ok {A} a.
Arguments Raise {A} e.

(** Sequencing stops at the first [raise]; written [x ← c; k]. *)
#[export] Instance result_ret : MRet result := fun _ a => Ok a.
#[export] Instance result_bind : MBind result := fun _ _ k r =>
  match r with
  | Ok a => k a
  | Raise e => Raise e
  end.

(** [try: body  except Exception: handler] for a body without side effects. *)
Definition try_except {A} (body : result A) (handler : exn -> result A) : result A :=
  match body with
  | Ok a => Ok a
  | Raise e => handler e
  end.

(** [type(v).__name__] *)
Definition type_name (v : pyval) : string :=
  match v with
  | PNone => "NoneType"
  | PBool _ => "bool"
  | PInt _ => "int"
  | PFloat _ => "float"
  | PStr _ => "str"
  | PList _ => "list"
  | PDict _ => "dict"
  end.

(** [bool(f)]: a float is falsy when it is zero. *)
Definition float_truthy (f : pyfloat) : bool :=
  match f with
  | FFin m _ => negb (m =? 0)
  | _ => true
  end.

(** [bool(v)] *)
Definition truthy (v : pyval) : bool :=
  match v with
  | PNone => false
  | PBool b => b
  | PInt z => negb (z =? 0)
  | PFloat f => float_truthy f
  | PStr s => negb (String.eqb s "")
  | PList l => match l with [] => false | _ => true end
  | PDict d => match d with [] => false | _ => true end
  end.

(** [isinstance(v, list)] *)
Definition is_list (v : pyval) : bool :=
  match v with PList _ => true | _ => false end.

(** Values with a [__hash__]: everything but [list] and [dict]. *)
Definition hashable (v : pyval) : bool :=
  match v with
  | PList _ | PDict _ => false
  | _ => true
  end.

(** [m1 * 2^e1 == m2 * 2^e2], compared after scaling to the smaller exponent. *)
Definition dyadic_eqb (m1 e1 m2 e2 : Z) : bool :=
  let e := Z.min e1 e2 in
  (m1 * 2 ^ (e1 - e) =? m2 * 2 ^ (e2 - e)).

Definition float_eqb (f g : pyfloat) : bool :=
  match f, g with
  | FFin m1 e1, FFin m2 e2 => dyadic_eqb m1 e1 m2 e2
  | FInf a, FInf b => Bool.eqb a b
  | _, _ => false
  end.

(** The number a [bool], [int] or [float] stands for, as a float. *)
Definition as_number (v : pyval) : option pyfloat :=
  match v with
  | PBool b => Some (FFin (if b then 1 else 0) 0)
  | PInt z => Some (FFin z 0)
  | PFloat f => Some f
  | _ => None
  end.

(** [v == w] on hashable values: numbers compare by value across [bool],
    [int] and [float], and a NaN equals nothing; [None] equals only [None];
    a [str] only the same [str].  A [list] or [dict] operand gives [false]:
    the uses below compare against hashable values only, and no hashable
    value equals a list or a dict. *)
Definition py_eqb (v w : pyval) : bool :=
  match v, w with
  | PNone, PNone => true
  | PStr s, PStr t => String.eqb s t
  | _, _ =>
      match as_number v, as_number w with
      | Some f, Some g => float_eqb f g
      | _, _ => false
      end
  end.

(** ** dict *)

Definition pydict : Type := list (string * pyval).

(** [d.get(k)] as an option: [None] when the key is absent. *)
Fixpoint dict_lookup (d : pydict) (k : string) : option pyval :=
  match d with
  | [] => None
  | (k', v) :: d' => if String.eqb k' k then Some v else dict_lookup d' k
  end.

(** [d.get(k)]: Python's [None] when the key is absent. *)
Definition dict_get (d : pydict) (k : string) : pyval :=
  match dict_lookup d k with
  | Some v => v
  | None => PNone
  end.

(** [d.get(k, default)] *)
Definition dict_get_default (d : pydict) (k : string) (dflt : pyval) : pyval :=
  match dict_lookup d k with
  | Some v => v
  | None => dflt
  end.

(** [d[k] = v]: overwrite in place, or append a new key at the end. *)
Fixpoint dict_set (d : pydict) (k : string) (v : pyval) : pydict :=
  match d with
  | [] => [(k, v)]
  | (k', v') :: d' =>
      if String.eqb k' k then (k', v) :: d' else (k', v') :: dict_set d' k v
  end.

(** [d.update(other)] *)
Definition dict_update (d other : pydict) : pydict :=
  fold_left (fun acc kv => dict_set acc (fst kv) (snd kv)) other d.

(** [v.get(k)] on an arbitrary value: only a [dict] has the method. *)
Definition py_get (v : pyval) (k : string) : result pyval :=
  match v with
  | PDict d => Ok (dict_get d k)
  | _ => Raise (Exn AttributeError
                  ("'" +:+ type_name v +:+ "' object has no attribute 'get'"))
  end.

(** [v[k]] with a [str] subscript. *)
Definition py_getitem_str (v : pyval) (k : string) : result pyval :=
  match v with
  | PDict d =>
      match dict_lookup d k with
      | Some x => Ok x
      | None => Raise (Exn KeyError ("'" +:+ k +:+ "'"))
      end
  | PList _ => Raise (Exn TypeError "list indices must be integers or slices, not str")
  | PStr _ => Raise (Exn TypeError "string indices must be integers, not 'str'")
  | _ => Raise (Exn TypeError ("'" +:+ type_name v +:+ "' object is not subscriptable"))
  end.

(** [v[0]].  The first character of a [str] is its first byte here; what
    the callers do next with it, a subscript by a [str], raises on any
    [str]. *)
Definition py_getitem_0 (v : pyval) : result pyval :=
  match v with
  | PList (x :: _) => Ok x
  | PList [] => Raise (Exn IndexError "list index out of range")
  | PStr (String c _) => Ok (PStr (String c EmptyString))
  | PStr EmptyString => Raise (Exn IndexError "string index out of range")
  | PDict _ => Raise (Exn KeyError "0")
  | _ => Raise (Exn TypeError ("'" +:+ type_name v +:+ "' object is not subscriptable"))
  end.

(** ** set *)

(** A Python [set] of hashable values, as the list of its elements. *)
Definition pyset : Type := list pyval.

(** [v in s] for a set [s]: hashing an unhashable [v] raises.  Python finds
    an element that is the same object as [v] or is [==] to it.  A value
    here carries no object identity; every hashable value but a NaN is [==]
    to itself, so for these the lookup is [==] with an element, which is
    what is defined.  A NaN is [==] to nothing and Python finds it only as
    the very object that was stored: the definition answers [False] for it,
    which is right for a NaN that is another object than the stored one and
    wrong for the stored object itself.  The theorems that rest on a lookup
    failing are therefore stated for values that are not NaN. *)
Definition set_contains (s : pyset) (v : pyval) : result bool :=
  if hashable v then Ok (existsb (py_eqb v) s)
  else Raise (Exn TypeError ("unhashable type: '" +:+ type_name v +:+ "'")).

(** [s.add(v)] *)
Definition set_add (s : pyset) (v : pyval) : result pyset :=
  b ← set_contains s v;
  Ok (if b : bool then s else s ++ [v]).

(** [v in l] for a list [l] of [str] literals: [==] against each. *)
Definition in_str_list (v : pyval) (l : list string) : bool :=
  existsb (fun s => py_eqb v (PStr s)) l.

End Py.

Import Py.

(** ** The Python runtime the code calls into *)

(** Library functions of the interpreter that the repository uses but does
    not define.  They are an interface: every theorem below holds for any
    implementation of it. *)
Class Runtime : Type := {
  (** [json.loads(s)]; [None] when it raises [json.JSONDecodeError]. *)
  json_loads : string -> option pyval;
  (** [re.search(r'```json\s*(.*?)\s*```', text, re.DOTALL)]: the text of
      group 1 of the first match, [None] when nothing matches. *)
  re_search_json_fence : string -> option string;
  (** [s.lower()] *)
  str_lower : string -> string
}.

(** [s.startswith(sub)] *)
Fixpoint str_startswith (s sub : string) : bool :=
  match sub, s with
  | EmptyString, _ => true
  | String a sub', String b s' => Ascii.eqb a b && str_startswith s' sub'
  | String _ _, EmptyString => false
  end.

(** [sub in s] for two [str]. *)
Fixpoint str_contains (s sub : string) : bool :=
  str_startswith s sub ||
  match s with
  | EmptyString => false
  | String _ s' => str_contains s' sub
  end.

(** [k in v] with a [str] on the left: a key of a [dict], an element of a
    [list], a substring of a [str]; other values are not containers. *)
Definition py_contains_str (v : pyval) (k : string) : result bool :=
  match v with
  | PDict d => Ok (bool_decide (is_Some (dict_lookup d k)))
  | PList l => Ok (existsb (fun x => py_eqb (PStr k) x) l)
  | PStr s => Ok (str_contains s k)
  | _ => Raise (Exn TypeError
                  ("argument of type '" +:+ type_name v +:+ "' is not iterable"))
  end.

(** [for x in v]: the elements the loop visits. *)
Definition py_iter (v : pyval) : result (list pyval) :=
  match v with
  | PList l => Ok l
  | PDict d => Ok (map (fun kv => PStr (fst kv)) d)
  | PStr s => Ok (map (fun c => PStr (String c EmptyString)) (list_ascii_of_string s))
  | _ => Raise (Exn TypeError ("'" +:+ type_name v +:+ "' object is not iterable"))
  end.

(** [str.strip] is library code as well. *)
Class StripRuntime : Type := {
  (** [s.strip()] *)
  str_strip : string -> string
}.

(** [v.strip()]: only a [str] has the method. *)
Definition py_strip `{StripRuntime} (v : pyval) : result string :=
  match v with
  | PStr s => Ok (str_strip s)
  | _ => Raise (Exn AttributeError
                  ("'" +:+ type_name v +:+ "' object has no attribute 'strip'"))
  end.

(** [v[k] = x] with a [str] subscript: only a [dict] takes it. *)
Definition py_setitem_str (v : pyval) (k : string) (x : pyval) : result pyval :=
  match v with
  | PDict d => Ok (PDict (dict_set d k x))
  | PList _ => Raise (Exn TypeError "list indices must be integers or slices, not str")
  | _ => Raise (Exn TypeError
                  ("'" +:+ type_name v +:+ "' object does not support item assignment"))
  end.

(** The float [0.8]: the double nearest to it, [3602879701896397 * 2^-52]. *)
Definition float_0_8 : pyval := PFloat (FFin 3602879701896397 (-52)).

(** ** The LLM gateway, as [requests] shows it *)

Module Gateway.

(** What a [requests.Response] offers to the callers. *)
Record response : Type := Response {
  status_code : Z;
  (** [response.text] *)
  text : string;
  (** [response.json()]; [None] when the body is not JSON and it raises. *)
  json : option pyval;
  (** [str] of the [HTTPError] that [raise_for_status] builds for it. *)
  http_error : string
}.

(** One round trip [requests.post(url, headers=..., data=...)]: it raises a
    [RequestException] or returns a response. *)
Inductive post_outcome : Type :=
| PostRaises (msg : string)
| PostReturns (r : response).

(** [response.raise_for_status()] *)
Definition raise_for_status (r : response) : result unit :=
  if (400 <=? status_code r) && (status_code r <? 600)
  then Raise (Exn RequestException (http_error r))
  else Ok tt.

(** [_call_api]: the same in [TranslationService] and [GeminiAgentService];
    the payload only goes into the request. *)
Definition _call_api (o : post_outcome) : result response :=
  let body : result response :=
    match o with
    | PostRaises msg => Raise (Exn RequestException msg)
    | PostReturns r => _ ← raise_for_status r; Ok r
    end in
  match body with
  | Ok r => Ok r
  | Raise e =>
      match exc_class e with
      | RequestException => Raise (Exn RuntimeError ("API call failed: " +:+ exc_str e))
      | _ => Raise e
      end
  end.

(** [response.json()] *)
Definition response_json (r : response) : result pyval :=
  match json r with
  | Some v => Ok v
  | None => Raise (Exn JSONDecodeError "Expecting value: line 1 column 1 (char 0)")
  end.

(** [raw_data['choices'][0]['message']['content']] *)
Definition first_choice_content (raw_data : pyval) : result pyval :=
  choices ← py_getitem_str raw_data "choices";
  choice ← py_getitem_0 choices;
  message ← py_getitem_str choice "message";
  py_getitem_str message "content".

(** ['choices' not in response.json() or not response.json()['choices']] *)
Definition choices_missing (r : response) : result bool :=
  raw_data ← response_json r;
  has_choices ← py_contains_str raw_data "choices";
  if negb has_choices then Ok true
  else
    raw_data ← response_json r;
    choices ← py_getitem_str raw_data "choices";
    Ok (negb (truthy choices)).

(** [response.json()['choices'][0]['message']['content']] *)
Definition response_content (r : response) : result pyval :=
  raw_data ← response_json r;
  first_choice_content raw_data.

End Gateway.

(** ** services/translation_service.py *)

Module TranslationService.
Import Gateway.

(** [translate_to_english(text)], given the outcome [o] of its one request. *)
Definition translate_to_english (text : pyval) (o : post_outcome) : result pyval :=
  try_except
    (response ← _call_api o;
     raw_data ← response_json response;
     extracted_text ← first_choice_content raw_data;
     Ok extracted_text)
    (fun _ => Ok text).

End TranslationService.

(** ** services/gemini_agent_service.py *)

Module GeminiAgentService.
Import Gateway.

Section WithRuntime.
Context `{Runtime}.

(** [_extract_json_from_markdown(text)]: [re.search] wants a [str]. *)
Definition _extract_json_from_markdown (text : pyval) : result string :=
  match text with
  | PStr s =>
      match re_search_json_fence s with
      | Some group1 => Ok group1
      | None => Ok s
      end
  | _ => Raise (Exn TypeError "expected string or bytes-like object")
  end.

(** [json.loads(s)] *)
Definition py_json_loads (s : string) : result pyval :=
  match json_loads s with
  | Some v => Ok v
  | None => Raise (Exn JSONDecodeError "Expecting value: line 1 column 1 (char 0)")
  end.

(** [extract_all_items(document_content)], given the outcome [o] of its one
    request.  The two handlers, [except json.JSONDecodeError] and
    [except Exception], both return [[]]. *)
Definition extract_all_items (o : post_outcome) : result pyval :=
  try_except
    (response ← _call_api o;
     raw_data ← response_json response;
     has_choices ← py_contains_str raw_data "choices";
     no_choices ← (if negb has_choices then Ok true
                   else choices ← py_getitem_str raw_data "choices";
                        Ok (negb (truthy choices)));
     if no_choices : bool then Ok (PList [])
     else
       extracted_text ← first_choice_content raw_data;
       json_string ← _extract_json_from_markdown extracted_text;
       parsed_data ← py_json_loads json_string;
       if is_list parsed_data then Ok parsed_data else Ok (PList []))
    (fun e =>
       match exc_class e with
       | JSONDecodeError => Ok (PList [])
       | _ => Ok (PList [])
       end).

End WithRuntime.
Section OtherOperations.
Context `{Runtime} `{StripRuntime}.

(** [check_for_match(text_to_search, item_name, part_number)], given the
    outcome [o] of its one request. *)
Definition check_for_match (o : post_outcome) : result bool :=
  try_except
    (response ← _call_api o;
     missing ← choices_missing response;
     if missing : bool then Ok false
     else
       extracted_text ← response_content response;
       stripped ← py_strip extracted_text;
       Ok (String.eqb (str_lower stripped) "true"))
    (fun _ => Ok false).

(** [{'qty': '', 'uom': ''}] *)
Definition blank_details : pyval := PDict [("qty", PStr ""); ("uom", PStr "")].

(** [extract_details(document_content, item_name)], given the outcome [o]
    of its one request. *)
Definition extract_details (o : post_outcome) : result pyval :=
  try_except
    (response ← _call_api o;
     missing ← choices_missing response;
     if missing : bool then Ok blank_details
     else
       extracted_text ← response_content response;
       json_string ← _extract_json_from_markdown extracted_text;
       py_json_loads json_string)
    (fun e =>
       match exc_class e with
       | JSONDecodeError => Ok blank_details
       | _ => Ok blank_details
       end).

(** [standardize_item_master(csv_content)], given the outcome [o] of its
    one request. *)
Definition standardize_item_master (o : post_outcome) : result pyval :=
  try_except
    (response ← _call_api o;
     missing ← choices_missing response;
     if missing : bool then Ok (PList [])
     else
       extracted_text ← response_content response;
       json_string ← _extract_json_from_markdown extracted_text;
       standardized_data ← py_json_loads json_string;
       if is_list standardized_data then Ok standardized_data else Ok (PList []))
    (fun e =>
       match exc_class e with
       | JSONDecodeError => Ok (PList [])
       | _ => Ok (PList [])
       end).

(** [find_best_match(extracted_item, kb_items)], given the outcome [o] of
    its one request.  The prompt is built before the [try]: its four
    [extracted_item.get(...)] are not guarded.  [None] is [PNone]. *)
Definition find_best_match (extracted_item : pyval) (o : post_outcome) : result pyval :=
  _ ← py_get extracted_item "part_number";
  _ ← py_get extracted_item "material_name";
  _ ← py_get extracted_item "description";
  _ ← py_get extracted_item "vendor_name";
  try_except
    (response ← _call_api o;
     extracted_text ← response_content response;
     json_string ← _extract_json_from_markdown extracted_text;
     match_data ← py_json_loads json_string;
     if truthy match_data then
       match_data ← py_setitem_str match_data "confidence_score" float_0_8;
       Ok match_data
     else Ok PNone)
    (fun e =>
       match exc_class e with
       | JSONDecodeError => Ok PNone
       | _ => Ok PNone
       end).

End OtherOperations.
End GeminiAgentService.

(** ** services/gemini_agent_service_backup.py *)

Module GeminiAgentServiceBackup.

(** One call [self.model.generate_content(...)]: it raises, or returns a
    response whose [.text] is a string or raises in its turn. *)
Inductive generate_outcome : Type :=
| GenerateRaises (e : exn)
| GenerateReturns (text : result string).

Section WithRuntime.
Context `{Runtime}.

(** [extract_all_items(document_content)] of the earlier agent, given the
    outcome [o] of its one call to the model. *)
Definition extract_all_items (o : generate_outcome) : result pyval :=
  try_except
    (response_text ← match o with
                     | GenerateRaises e => Raise e
                     | GenerateReturns t => t
                     end;
     raw_data ← GeminiAgentService.py_json_loads response_text;
     if is_list raw_data then Ok raw_data else Ok (PList []))
    (fun _ => Ok (PList [])).

End WithRuntime.
(** [response.text] of the outcome of [generate_content]. *)
Definition generated_text (o : generate_outcome) : result string :=
  match o with
  | GenerateRaises e => Raise e
  | GenerateReturns t => t
  end.

Section OtherOperations.
Context `{Runtime} `{StripRuntime}.

(** [check_for_match] of the earlier agent. *)
Definition check_for_match (o : generate_outcome) : result bool :=
  try_except
    (response_text ← generated_text o;
     Ok (String.eqb (str_lower (str_strip response_text)) "true"))
    (fun _ => Ok false).

(** [extract_details] of the earlier agent. *)
Definition extract_details (o : generate_outcome) : result pyval :=
  try_except
    (response_text ← generated_text o;
     GeminiAgentService.py_json_loads response_text)
    (fun _ => Ok GeminiAgentService.blank_details).

(** [standardize_item_master] of the earlier agent. *)
Definition standardize_item_master (o : generate_outcome) : result pyval :=
  try_except
    (response_text ← generated_text o;
     standardized_data ← GeminiAgentService.py_json_loads response_text;
     if is_list standardized_data then Ok standardized_data else Ok (PList []))
    (fun _ => Ok (PList [])).

End OtherOperations.
End GeminiAgentServiceBackup.

(** ** The store and the effects of the orchestrator *)

Module Store.

(** A row of the [workflows] table. *)
Record workflow : Type := Workflow {
  wf_status : string;
  wf_progress : Z;
  wf_stage : string;
  wf_message : string;
  wf_comparison_mode : string;
  wf_wi_path : string;
  wf_item_path : option string
}.

(** One call [WorkflowModel.update_workflow_status(workflow_id, status,
    progress=..., stage=..., message=...)]; an argument left out is [None]. *)
Record status_write : Type := StatusWrite {
  sw_workflow : string;
  sw_status : string;
  sw_progress : option Z;
  sw_stage : option string;
  sw_message : option string
}.

(** The summary dict of [_generate_summary]. *)
Record summary : Type := Summary {
  total_materials : nat;
  successful_matches : nat;
  knowledge_base_matches : nat;
  comparison_mode : string
}.

(** [{'matches': results, 'summary': summary}] *)
Record results_artifact : Type := ResultsArtifact {
  matches : list pyval;
  artifact_summary : summary
}.

(** What a results file holds: the whole JSON text of an artifact, or what
    a write that failed part-way has left, a text that is not JSON and for
    which [json.load] raises [JSONDecodeError] with the message
    [decode_error]. *)
Inductive results_file : Type :=
| Written (artifact : results_artifact)
| Unreadable (decode_error : string).

(** How writing a file, [with open(path, 'w') as f:] and the writes to
    [f], can fail: [open] raises and the file is as it was; or [open] has
    emptied the file and a write raises part-way, and [remains] tells what
    it has left in the file; or the whole content is written and closing the
    file raises. *)
Inductive write_failure : Type :=
| OpenFails (e : exn)
| WriteFails (e : exn) (remains : string)
| CloseFails (e : exn).

(** A row of the pending-approvals table; the payload is the item whose
    [json.dumps] text the row holds. *)
Record pending_approval : Type := PendingApproval {
  pa_workflow : string;
  pa_item_payload : pyval;
  pa_status : string
}.

(** A task handed to the thread pool:
    [_process_workflow_async(workflow_id, wi_path, item_path, comparison_mode)]. *)
Record task : Type := Task {
  task_workflow : string;
  task_wi_path : string;
  task_item_path : option string;
  task_comparison_mode : string
}.

(** What the orchestrator does to the outside, in the order it does it. *)
Inductive event : Type :=
| EvStatus (sw : status_write)
| EvExtractText
| EvParseItemMaster
| EvTranslate
| EvExtractItems
| EvWriteResultsFile
| EvInsertResultsRow
| EvAddPending
| EvMakedirs
| EvWriteUpload
| EvCreateWorkflow
| EvSubmit.

Record world : Type := World {
  (** table [workflows], by workflow id *)
  workflows : gmap string workflow;
  (** the files [results/<workflow_id>.json], by workflow id: the ids are
      the ones that [upload_documents] draws with [uuid4], and for a text
      without a slash the path of the file determines the id *)
  results_files : gmap string results_file;
  (** table [workflow_results] *)
  workflow_results : list (string * results_artifact);
  (** table of pending approvals *)
  pending_approvals : list pending_approval;
  (** the files that [start_workflow] has written, by the text of their path *)
  uploaded_files : gmap string string;
  (** the calls of [executor.submit], in order; each starts its task on a
      pool thread *)
  submitted : list task;
  (** every effect so far, oldest first *)
  trace : list event
}.

Definition log_event (ev : event) (w : world) : world :=
  World (workflows w) (results_files w) (workflow_results w) (pending_approvals w)
        (uploaded_files w) (submitted w) (trace w ++ [ev]).

Definition set_workflows (m : gmap string workflow) (w : world) : world :=
  World m (results_files w) (workflow_results w) (pending_approvals w)
        (uploaded_files w) (submitted w) (trace w).

Definition set_results_files (m : gmap string results_file) (w : world) : world :=
  World (workflows w) m (workflow_results w) (pending_approvals w)
        (uploaded_files w) (submitted w) (trace w).

Definition set_workflow_results (l : list (string * results_artifact)) (w : world) : world :=
  World (workflows w) (results_files w) l (pending_approvals w)
        (uploaded_files w) (submitted w) (trace w).

Definition set_pending_approvals (l : list pending_approval) (w : world) : world :=
  World (workflows w) (results_files w) (workflow_results w) l
        (uploaded_files w) (submitted w) (trace w).

Definition set_uploaded_files (m : gmap string string) (w : world) : world :=
  World (workflows w) (results_files w) (workflow_results w) (pending_approvals w)
        m (submitted w) (trace w).

Definition set_submitted (l : list task) (w : world) : world :=
  World (workflows w) (results_files w) (workflow_results w) (pending_approvals w)
        (uploaded_files w) l (trace w).

(** A computation on the store that may raise: the world it leaves is the
    one at the point of the [raise]. *)
Definition M (A : Type) : Type := world -> result A * world.

#[export] Instance M_ret : MRet M := fun _ a w => (Ok a, w).
#[export] Instance M_bind : MBind M := fun _ _ k m w =>
  match m w with
  | (Ok a, w') => k a w'
  | (Raise e, w') => (Raise e, w')
  end.

(** A computation without effects on the store. *)
Definition pure {A} (r : result A) : M A := fun w => (r, w).

(** A call to an outside collaborator: the call is recorded, its outcome
    is the environment's. *)
Definition call {A} (ev : event) (outcome : result A) : M A :=
  fun w => (outcome, log_event ev w).

(** An effect that the environment lets succeed or fail; it changes the
    world only when it succeeds. *)
Definition attempt (ev : event) (failure : option exn) (effect : world -> world) : M unit :=
  fun w =>
    match failure with
    | Some e => (Raise e, log_event ev w)
    | None => (Ok tt, effect (log_event ev w))
    end.

(** Writing a file: [open(path, 'w')] empties the file before anything is
    written, so a write that fails after the [open] does not leave the file
    as it was.  [whole] puts the whole content in place, [part] what a
    failed write leaves. *)
Definition write_file (ev : event) (failure : option write_failure)
    (whole : world -> world) (part : string -> world -> world) : M unit :=
  fun w =>
    match failure with
    | None => (Ok tt, whole (log_event ev w))
    | Some (OpenFails e) => (Raise e, log_event ev w)
    | Some (WriteFails e remains) => (Raise e, part remains (log_event ev w))
    | Some (CloseFails e) => (Raise e, whole (log_event ev w))
    end.

(** [try: body  except Exception as e: handler(e)] *)
Definition try_except_M {A} (body : M A) (handler : exn -> M A) : M A :=
  fun w =>
    match body w with
    | (Ok a, w') => (Ok a, w')
    | (Raise e, w') => handler e w'
    end.

(** Modelled from the spec: [WorkflowModel.update_workflow_status], whose
    module [models] is not among the sources.  The spec makes the workflow
    row a record "mutated exclusively by the Orchestrator" through
    single-row writes and gives the write no failure mode: the row of the
    workflow takes the status and each field that is passed, and keeps the
    fields that are left out. *)
Definition apply_status_write (sw : status_write) (row : workflow) : workflow :=
  Workflow (sw_status sw)
           (default (wf_progress row) (sw_progress sw))
           (default (wf_stage row) (sw_stage sw))
           (default (wf_message row) (sw_message sw))
           (wf_comparison_mode row) (wf_wi_path row) (wf_item_path row).

Definition update_workflow_status (workflow_id status : string)
    (progress : option Z) (stage message : option string) : M unit :=
  fun w =>
    let sw := StatusWrite workflow_id status progress stage message in
    (Ok tt, set_workflows (alter (apply_status_write sw) workflow_id (workflows w))
                          (log_event (EvStatus sw) w)).

(** Modelled from the spec: [WorkflowModel.create_workflow]; the spec has a
    workflow "created on submission" with a status among queued,
    processing, completed and error and a progress from 0 to 100. *)
Definition new_workflow (comparison_mode wi_path : string) (item_path : option string)
  : workflow :=
  Workflow "queued" 0 "" "" comparison_mode wi_path item_path.

(** Modelled from the spec: [PendingApprovalModel.add_pending_item]; a
    pending approval is created with status pending. *)
Definition new_pending (workflow_id : string) (payload : pyval) : pending_approval :=
  PendingApproval workflow_id payload "pending".

End Store.

(** ** services/workflow_service_backup.py *)

Module WorkflowService.
Import Gateway Store.

(** *** The classification engine *)

(** [item.get('qty') is not None and item.get('qty') != ''] *)
Definition qty_present (qty : pyval) : bool :=
  match qty with
  | PNone => false
  | _ => negb (py_eqb qty (PStr ""))
  end.

(** [x and (x in s)], read as a condition: a falsy [x] is the value of the
    conjunction and the membership test does not run. *)
Definition and_in_set (x : pyval) (s : pyset) : result bool :=
  if truthy x then set_contains s x else Ok false.

Definition default_fields : pydict :=
  [("qa_classification_label", PStr "5");
   ("qa_confidence_level", PStr "low");
   ("reasoning", PStr "No match found");
   ("action_path", PStr "🔴 Human Intervention Required")].

Definition rule1_fields : pydict :=
  [("qa_classification_label", PStr "1");
   ("qa_confidence_level", PStr "high");
   ("reasoning", PStr "Match to BOM & Item Master Data");
   ("action_path", PStr "🟢 Auto-Register")].

Definition rule4_fields : pydict :=
  [("qa_classification_label", PStr "4");
   ("qa_confidence_level", PStr "low");
   ("reasoning", PStr "Check for text match in master data");
   ("action_path", PStr "🔴 Human Intervention Required")].

(** [_apply_classification_logic(item, item_master_items_pn_set,
    item_master_items_name_set)].  The item is updated in place and
    returned; the four default assignments are one [update] here. *)
Definition _apply_classification_logic
    (item : pyval) (item_master_items_pn_set item_master_items_name_set : pyset)
  : result pyval :=
  part_number ← py_get item "part_number";
  pn_match ← and_in_set part_number item_master_items_pn_set;
  material_name ← py_get item "material_name";
  name_match ← and_in_set material_name item_master_items_name_set;
  qty ← py_get item "qty";
  match item with
  | PDict d =>
      let d := dict_update d default_fields in
      if pn_match && qty_present qty then
        Ok (PDict (dict_update d rule1_fields))
      else if negb pn_match && name_match then
        Ok (PDict (dict_update d rule4_fields))
      else
        Ok (PDict d)
  | _ => Raise (Exn TypeError
                  ("'" +:+ type_name item +:+ "' object does not support item assignment"))
  end.

(** [{row[key] for row in item_master_items if row.get(key)}], built row by
    row from the set [acc]. *)
Fixpoint set_of_field (key : string) (rows : list pyval) (acc : pyset) : result pyset :=
  match rows with
  | [] => Ok acc
  | row :: rows' =>
      v ← py_get row key;
      if truthy v then
        x ← py_getitem_str row key;
        acc' ← set_add acc x;
        set_of_field key rows' acc'
      else set_of_field key rows' acc
  end.

(** The loop of [_extract_and_classify_items] over the raw items. *)
Fixpoint classify_all (raw_items : list pyval) (pn_set name_set : pyset)
  : result (list pyval) :=
  match raw_items with
  | [] => Ok []
  | item :: rest =>
      classified_item ← _apply_classification_logic item pn_set name_set;
      classified_items ← classify_all rest pn_set name_set;
      Ok (classified_item :: classified_items)
  end.

Section WithRuntime.
Context `{Runtime}.

(** [_extract_and_classify_items(wi_content, item_master_items)], given the
    outcome [o] of the agent's request. *)
Definition _extract_and_classify_items (o : post_outcome) (item_master_items : pyval)
  : result (list pyval) :=
  raw_items ← GeminiAgentService.extract_all_items o;
  rows ← py_iter item_master_items;
  item_master_items_pn_set ← set_of_field "part_number" rows [];
  rows ← py_iter item_master_items;
  item_master_items_name_set ← set_of_field "material_name" rows [];
  items ← py_iter raw_items;
  classify_all items item_master_items_pn_set item_master_items_name_set.


(** *** The summary *)

(** [v.lower()]: only a [str] has the method. *)
Definition py_lower (v : pyval) : result string :=
  match v with
  | PStr s => Ok (str_lower s)
  | _ => Raise (Exn AttributeError
                  ("'" +:+ type_name v +:+ "' object has no attribute 'lower'"))
  end.

(** [isinstance(item, dict) and item.get('qa_confidence_level') in
    ['high', 'medium']] *)
Definition is_successful_match (item : pyval) : bool :=
  match item with
  | PDict d => in_str_list (dict_get d "qa_confidence_level") ["high"; "medium"]
  | _ => false
  end.

(** [isinstance(item, dict) and 'knowledge_base' in
    item.get('reasoning', '').lower()] *)
Definition is_knowledge_base_match (item : pyval) : result bool :=
  match item with
  | PDict d =>
      lowered ← py_lower (dict_get_default d "reasoning" (PStr ""));
      Ok (str_contains lowered "knowledge_base")
  | _ => Ok false
  end.

(** [sum(1 for item in items if cond(item))] *)
Fixpoint sum_1_if (cond : pyval -> result bool) (items : list pyval) : result nat :=
  match items with
  | [] => Ok 0%nat
  | item :: rest =>
      c ← cond item;
      n ← sum_1_if cond rest;
      Ok (if c : bool then S n else n)
  end.

(** [_generate_summary(items, comparison_mode)] *)
Definition _generate_summary (items : pyval) (comparison_mode : string) : result summary :=
  match items with
  | PList items =>
      let total_materials := length items in
      successful_matches ← sum_1_if (fun item => Ok (is_successful_match item)) items;
      knowledge_base_matches ← sum_1_if is_knowledge_base_match items;
      Ok (Summary total_materials successful_matches knowledge_base_matches comparison_mode)
  | _ => Ok (Summary 0 0 0 comparison_mode)
  end.

End WithRuntime.

(** *** Persisting *)

(** What the outside does during one run of the pipeline: the answers of
    the document parser and of the gateway, and whether each write to the
    file system or the database goes through. *)
Record run_env : Type := RunEnv {
  (** [doc_parser.extract_text(wi_path)] *)
  env_extract_text : result pyval;
  (** [doc_parser.parse_item_master(item_path)], first and second call *)
  env_parse_item_master_1 : result pyval;
  env_parse_item_master_2 : result pyval;
  (** the request of [translate_to_english] *)
  env_translate : post_outcome;
  (** the request of [extract_all_items] *)
  env_extract_items : post_outcome;
  (** [open(results_file, 'w')], [json.dump] and the closing of the file;
      what a failed dump has left is told by the message of the
      [JSONDecodeError] that [json.load] raises on it *)
  env_write_results_file : option write_failure;
  (** the [INSERT INTO workflow_results] and its commit *)
  env_insert_results_row : option exn;
  (** [add_pending_item] for the match at a position of the list *)
  env_add_pending : nat -> option exn
}.

(** [_save_workflow_results(workflow_id, results, summary)]: the file is
    written first, then the row is inserted. *)
Definition _save_workflow_results (env : run_env) (workflow_id : string)
    (results : list pyval) (summary : summary) : M unit :=
  let artifact := ResultsArtifact results summary in
  _ ← write_file EvWriteResultsFile (env_write_results_file env)
        (fun w => set_results_files
                    (<[workflow_id := Written artifact]> (results_files w)) w)
        (fun decode_error w =>
           set_results_files
             (<[workflow_id := Unreadable decode_error]> (results_files w)) w);
  attempt EvInsertResultsRow (env_insert_results_row env)
        (fun w => set_workflow_results (workflow_results w ++ [(workflow_id, artifact)]) w).

(** [isinstance(match, dict) and match.get('qa_confidence_level') in
    ['low', 'high', 'medium']] *)
Definition needs_approval (item : pyval) : bool :=
  match item with
  | PDict d => in_str_list (dict_get d "qa_confidence_level") ["low"; "high"; "medium"]
  | _ => false
  end.

(** The loop of [_create_pending_approvals], from position [k] of the list. *)
Fixpoint create_pending_from (env : run_env) (workflow_id : string)
    (matches : list pyval) (k : nat) : M unit :=
  match matches with
  | [] => mret tt
  | item :: rest =>
      _ ← (if needs_approval item
           then attempt EvAddPending (env_add_pending env k)
                  (fun w => set_pending_approvals
                              (pending_approvals w ++ [new_pending workflow_id item]) w)
           else mret tt);
      create_pending_from env workflow_id rest (S k)
  end.

(** [_create_pending_approvals(workflow_id, matches)] *)
Definition _create_pending_approvals (env : run_env) (workflow_id : string)
    (matches : list pyval) : M unit :=
  create_pending_from env workflow_id matches 0.

(** *** The background pipeline *)

Section WithRuntime.
Context `{Runtime}.

(** [self.doc_parser.parse_item_master(item_path) if item_path else []] *)
Definition parse_item_master_if (item_path : option string) (outcome : result pyval)
  : M pyval :=
  match item_path with
  | Some p => if negb (String.eqb p "") then call EvParseItemMaster outcome
              else mret (PList [])
  | None => mret (PList [])
  end.

(** The [try] block of [_process_workflow_async]; the [logging] calls leave
    no mark on the store. *)
Definition pipeline (env : run_env) (workflow_id wi_path : string)
    (item_path : option string) (comparison_mode : string) : M unit :=
  _ ← update_workflow_status workflow_id "processing" (Some 10)
        (Some "extracting") (Some "Extracting data from documents");
  wi_content ← call EvExtractText (env_extract_text env);
  item_master_items ← parse_item_master_if item_path (env_parse_item_master_1 env);
  _ ← update_workflow_status workflow_id "processing" (Some 30)
        (Some "translating") (Some "Translating document to English");
  translated_wi_content ←
    call EvTranslate
      (TranslationService.translate_to_english wi_content (env_translate env));
  _ ← update_workflow_status workflow_id "processing" (Some 50)
        (Some "classifying") (Some "Classifying and matching items with Gemini");
  item_master_items ← parse_item_master_if item_path (env_parse_item_master_2 env);
  extracted_items ←
    call EvExtractItems
      (_extract_and_classify_items (env_extract_items env) item_master_items);
  summary ← pure (_generate_summary (PList extracted_items) comparison_mode);
  _ ← _save_workflow_results env workflow_id extracted_items summary;
  _ ← _create_pending_approvals env workflow_id extracted_items;
  update_workflow_status workflow_id "completed" (Some 100)
    (Some "completed") (Some "Processing completed successfully").

(** The [except Exception as e] handler of [_process_workflow_async]. *)
Definition on_failure (workflow_id : string) (e : exn) : M unit :=
  update_workflow_status workflow_id "error" None None
    (Some ("Processing failed: " +:+ exc_str e)).

(** [_process_workflow_async(workflow_id, wi_path, item_path,
    comparison_mode)]: the task returns nothing; what is left is the world. *)
Definition _process_workflow_async (env : run_env) (workflow_id wi_path : string)
    (item_path : option string) (comparison_mode : string) (w : world) : world :=
  snd (try_except_M (pipeline env workflow_id wi_path item_path comparison_mode)
                    (on_failure workflow_id) w).

End WithRuntime.

(** *** Starting a workflow *)

(** An [UploadFile]: its name and its bytes. *)
Record upload_file : Type := UploadFile {
  filename : string;
  file : string
}.

(** Whether each step of [start_workflow] on the file system and on the
    database goes through. *)
Record start_env : Type := StartEnv {
  (** [os.makedirs(workflow_dir, exist_ok=True)] *)
  env_makedirs : option exn;
  (** [open(wi_path, "wb")] and [shutil.copyfileobj]; what a failed copy has
      left is the bytes in the file *)
  env_write_wi : option write_failure;
  (** the same for the item master *)
  env_write_item_master : option write_failure;
  (** [WorkflowModel.create_workflow] *)
  env_create_workflow : option exn
}.

(** [s.endswith('/')] *)
Fixpoint ends_with_slash (s : string) : bool :=
  match s with
  | EmptyString => false
  | String c EmptyString => Ascii.eqb c "/"
  | String _ s' => ends_with_slash s'
  end.

(** [os.path.join(a, b)] on POSIX. *)
Definition path_join (a b : string) : string :=
  if str_startswith b "/" then b
  else if String.eqb a "" then b
  else if ends_with_slash a then a +:+ b
  else a +:+ "/" +:+ b.

(** [self.upload_dir] *)
Definition upload_dir : string := "uploads".

(** [start_workflow(workflow_id, wi_document, item_master, comparison_mode)];
    an [UploadFile] is truthy, so [if item_master] asks whether one was
    given.  The world that is returned is what the steps of [start_workflow]
    itself leave.  [executor.submit] hands the task to a pool thread, which
    runs it concurrently from then on: [submitted] records the call, and
    what a later request finds in the store is this world after some or all
    of the steps of the task.  The uploads are kept by the text of their
    paths; two texts that name one file, as [wi.pdf] and [./wi.pdf] do, are
    two keys, so what is said of the content at a path is said for file
    names without a slash. *)
Definition start_workflow (env : start_env) (workflow_id : string)
    (wi_document : upload_file) (item_master : option upload_file)
    (comparison_mode : string) : M bool :=
  try_except_M
    (let workflow_dir := path_join upload_dir workflow_id in
     _ ← attempt EvMakedirs (env_makedirs env) (fun w => w);
     let wi_path := path_join workflow_dir (filename wi_document) in
     _ ← write_file EvWriteUpload (env_write_wi env)
           (fun w => set_uploaded_files (<[wi_path := file wi_document]> (uploaded_files w)) w)
           (fun remains w =>
              set_uploaded_files (<[wi_path := remains]> (uploaded_files w)) w);
     item_path ← match item_master with
                 | Some im =>
                     let item_path := path_join workflow_dir (filename im) in
                     _ ← write_file EvWriteUpload (env_write_item_master env)
                           (fun w => set_uploaded_files
                                       (<[item_path := file im]> (uploaded_files w)) w)
                           (fun remains w =>
                              set_uploaded_files
                                (<[item_path := remains]> (uploaded_files w)) w);
                     mret (Some item_path)
                 | None => mret None
                 end;
     _ ← attempt EvCreateWorkflow (env_create_workflow env)
           (fun w => set_workflows
                       (<[workflow_id := new_workflow comparison_mode wi_path item_path]>
                          (workflows w)) w);
     _ ← attempt EvSubmit None
           (fun w => set_submitted
                       (submitted w ++ [Task workflow_id wi_path item_path comparison_mode]) w);
     mret true)
    (fun e => pure (Raise (Exn OtherException ("Failed to start workflow: " +:+ exc_str e)))).

(** *** Reading back *)

(** [get_workflow_status(workflow_id)].
    Modelled from the spec: [WorkflowModel.get_workflow], of the module
    [models] that is not among the sources, gives the row of the workflow,
    or [None] when there is none. *)
Definition get_workflow_status (workflow_id : string) (w : world) : result workflow :=
  match workflows w !! workflow_id with
  | Some row => Ok row
  | None => Raise (Exn ValueError "Workflow not found")
  end.

(** [get_workflow_results(workflow_id)]: what [json.load] reads from a
    results file that was written whole is what [json.dump] wrote there; on
    a file that a failed write has left it raises. *)
Definition get_workflow_results (workflow_id : string) (w : world)
  : result results_artifact :=
  match results_files w !! workflow_id with
  | Some (Written artifact) => Ok artifact
  | Some (Unreadable decode_error) => Raise (Exn JSONDecodeError decode_error)
  | None => Raise (Exn ValueError "Results not found")
  end.

End WorkflowService.

(** ** main_backup.py *)

Module Api.
Import Store WorkflowService.

(** What the endpoint answers: the JSON body of a 200, or a raised
    [HTTPException]. *)
Inductive http_reply : Type :=
| JSONResponse (success : bool) (workflow_id message : string)
| HTTPException (status_code : Z) (detail : string).

(** [upload_documents(wi_document, item_master, comparison_mode)]; [uuid] is
    what [str(uuid.uuid4())] gives when it is reached.  An [HTTPException]
    raised in the [try] block is raised again as it is; any other exception
    becomes a 500. *)
Definition upload_documents (env : start_env) (uuid : string)
    (wi_document item_master : option upload_file) (comparison_mode : string)
    (w : world) : http_reply * world :=
  match wi_document with
  | None => (HTTPException 400 "WI document is required", w)
  | Some wi =>
      if String.eqb comparison_mode "full" && negb (bool_decide (is_Some item_master))
      then (HTTPException 400 "Item Master is required for full comparison mode", w)
      else
        let workflow_id := uuid in
        match start_workflow env workflow_id wi item_master comparison_mode w with
        | (Ok _, w') =>
            (JSONResponse true workflow_id "Processing started successfully", w')
        | (Raise e, w') =>
            (HTTPException 500 ("Failed to start workflow: " +:+ exc_str e), w')
        end
  end.

(** What a reading endpoint answers: the JSON body of a 200, or a raised
    [HTTPException]. *)
Inductive read_reply (A : Type) : Type :=
| Content (content : A)
| HTTPError (status_code : Z) (detail : string).
Arguments Content {A} content.
Arguments HTTPError {A} status_code detail.

(** [get_workflow_status(workflow_id)] of the API: any exception becomes a
    404. *)
Definition get_workflow_status (workflow_id : string) (w : world) : read_reply workflow :=
  match WorkflowService.get_workflow_status workflow_id w with
  | Ok status => Content status
  | Raise e => HTTPError 404 ("Workflow not found: " +:+ exc_str e)
  end.

(** [get_workflow_results(workflow_id)] of the API: any exception becomes
    a 404. *)
Definition get_workflow_results (workflow_id : string) (w : world)
  : read_reply results_artifact :=
  match WorkflowService.get_workflow_results workflow_id w with
  | Ok results => Content results
  | Raise e => HTTPError 404 ("Results not found: " +:+ exc_str e)
  end.

End Api.

(** ** A runtime to run the definitions on examples *)

Module Examples.
Import Store WorkflowService.

(** [c.lower()] for an ASCII letter. *)
Definition ascii_lower (c : ascii) : ascii :=
  let n := nat_of_ascii c in
  if (65 <=? n)%nat && (n <=? 90)%nat then ascii_of_nat (n + 32) else c.

Fixpoint ascii_str_lower (s : string) : string :=
  match s with
  | EmptyString => EmptyString
  | String c s' => String (ascii_lower c) (ascii_str_lower s')
  end.

(** It lowers ASCII letters, finds no Markdown fence, and parses the three
    JSON texts of the examples. *)
#[export] Instance example_runtime : Runtime := {
  json_loads s :=
    if String.eqb s "[]" then Some (PList [])
    else if String.eqb s "{}" then Some (PDict [])
    else if String.eqb s "[{}]" then Some (PList [PDict []])
    else None;
  re_search_json_fence _ := None;
  str_lower := ascii_str_lower
}.

(** An item master of one row, and its two sets. *)
Definition master_rows : list pyval :=
  [PDict [("material_name", PStr "Glue"); ("part_number", PStr "PN-100")]].
Definition master_pn_set : pyset := [PStr "PN-100"].
Definition master_name_set : pyset := [PStr "Glue"].

(** Items as the agent may return them. *)
Definition item_pn_qty : pydict :=
  [("part_number", PStr "PN-100"); ("qty", PStr "5")].
Definition item_pn_qty_names : pydict :=
  [("part_number", PStr "PN-100"); ("qty", PStr "5");
   ("material_name", PList [PStr "Glue"; PStr "Adhesive"])].
Definition item_name_only : pydict :=
  [("material_name", PStr "Glue")].
Definition item_name_pns : pydict :=
  [("part_number", PList [PStr "PN-7"; PStr "PN-8"]); ("material_name", PStr "Glue")].
Definition item_unknown : pydict :=
  [("material_name", PStr "Tape")].
Definition item_unknown_pns : pydict :=
  [("part_number", PList [PStr "PN-7"; PStr "PN-8"]); ("material_name", PStr "Tape")].
Definition item_pn_name : pydict :=
  [("part_number", PStr "PN-100"); ("material_name", PStr "Glue"); ("qty", PStr "")].

(** An item after Rule 1. *)
Definition item_registered : pyval :=
  PDict [("part_number", PStr "PN-100"); ("qty", PStr "5");
         ("qa_classification_label", PStr "1");
         ("qa_confidence_level", PStr "high");
         ("reasoning", PStr "Match to BOM & Item Master Data");
         ("action_path", PStr "🟢 Auto-Register")].

(** Answers of the gateway: a chat completion with a content, and a
    request that does not get through. *)
Definition chat_completion (content : pyval) : pyval :=
  PDict [("choices", PList [PDict [("message", PDict [("content", content)])]])].
Definition answered (raw : pyval) : Gateway.post_outcome :=
  Gateway.PostReturns (Gateway.Response 200 "" (Some raw) "").
Definition gateway_down : Gateway.post_outcome :=
  Gateway.PostRaises "connection refused".

(** A run in which everything goes through, and one in which the insert of
    the results row fails after the results file has been written. *)
Definition env_all_fine : run_env :=
  RunEnv (Ok (PStr "work instruction")) (Ok (PList [])) (Ok (PList []))
         (answered (chat_completion (PStr "work instruction")))
         (answered (chat_completion (PStr "[{}]")))
         None None (fun _ => None).
Definition env_database_locked : run_env :=
  RunEnv (Ok (PStr "work instruction")) (Ok (PList [])) (Ok (PList []))
         (answered (chat_completion (PStr "work instruction")))
         (answered (chat_completion (PStr "[{}]")))
         None (Some (Exn DatabaseError "database is locked")) (fun _ => None).

(** A store with one queued workflow. *)
Definition world_queued : world :=
  World {["wf-1" := new_workflow "kb_only" "uploads/wf-1/wi.pdf" None]}
        ∅ [] [] ∅ [] [].

(** The [try] block and the whole task on that workflow when the database
    is locked. *)
Definition locked_run : result unit * world :=
  pipeline env_database_locked "wf-1" "uploads/wf-1/wi.pdf" None "kb_only" world_queued.
Definition locked_final : world :=
  _process_workflow_async env_database_locked "wf-1" "uploads/wf-1/wi.pdf" None
    "kb_only" world_queued.

(** [s.strip()] for the ASCII space. *)
Fixpoint drop_spaces (l : list ascii) : list ascii :=
  match l with
  | c :: l' => if Ascii.eqb c " " then drop_spaces l' else l
  | [] => []
  end.

Definition ascii_str_strip (s : string) : string :=
  string_of_list_ascii
    (rev (drop_spaces (rev (drop_spaces (list_ascii_of_string s))))).

#[export] Instance example_strip_runtime : StripRuntime := {
  str_strip := ascii_str_strip
}.

(** A text between double quotes, as JSON writes it. *)
Definition json_quoted (s : string) : string :=
  String "034" (s +:+ String "034" EmptyString).

(** A candidate of the knowledge base and the JSON text of it. *)
Definition kb_item : pydict := [("part_number", PStr "PN-100")].
Definition kb_item_text : string :=
  "{" +:+ json_quoted "part_number" +:+ ": " +:+ json_quoted "PN-100" +:+ "}".

(** A runtime that parses the candidate, the empty object and [true]. *)
Definition agent_runtime : Runtime := {|
  json_loads s :=
    if String.eqb s kb_item_text then Some (PDict kb_item)
    else if String.eqb s "{}" then Some (PDict [])
    else if String.eqb s "true" then Some (PBool true)
    else None;
  re_search_json_fence _ := None;
  str_lower := ascii_str_lower
|}.

(** An item after the default rule, the empty item classified. *)
Definition item_defaulted : pyval :=
  PDict [("qa_classification_label", PStr "5");
         ("qa_confidence_level", PStr "low");
         ("reasoning", PStr "No match found");
         ("action_path", PStr "🔴 Human Intervention Required")].

(** Two uploads with the same file name, and one with an absolute name. *)
Definition wi_upload : upload_file := UploadFile "wi.pdf" "%PDF-1.7".
Definition master_upload : upload_file := UploadFile "wi.pdf" "part_number,material_name".
Definition rooted_upload : upload_file := UploadFile "/tmp/wi.pdf" "%PDF-1.7".

(** A file system and a database that take every step, and a disk that is
    full. *)
Definition disk_all_fine : start_env := StartEnv None None None None.
Definition disk_full : start_env :=
  StartEnv None (Some (WriteFails (Exn OSError "No space left on device") "%PDF")) None None.

Definition fine_final : world :=
  _process_workflow_async env_all_fine "wf-1" "uploads/wf-1/wi.pdf" None
    "kb_only" world_queued.

(** A run in which the disk fills up while the results are dumped, and a
    store in which the queued workflow has results from an earlier run. *)
Definition env_disk_fills : run_env :=
  RunEnv (Ok (PStr "work instruction")) (Ok (PList [])) (Ok (PList []))
         (answered (chat_completion (PStr "work instruction")))
         (answered (chat_completion (PStr "[{}]")))
         (Some (WriteFails (Exn OSError "No space left on device")
                  "Expecting value: line 1 column 1 (char 0)"))
         None (fun _ => None).
Definition world_with_results : world :=
  World {["wf-1" := new_workflow "kb_only" "uploads/wf-1/wi.pdf" None]}
        {["wf-1" := Written (ResultsArtifact [item_defaulted] (Summary 1 0 0 "kb_only"))]}
        [] [] ∅ [] [].

(** An item master with another file name than the work instruction. *)
Definition master_csv : upload_file := UploadFile "master.csv" "part_number,material_name".

(** The row of that workflow after the run. *)
Definition row_completed : workflow :=
  Workflow "completed" 100 "completed" "Processing completed successfully"
           "kb_only" "uploads/wf-1/wi.pdf" None.

End Examples.

(** ** The vocabulary of the specification *)

Module Spec.
Import Store WorkflowService.

(** [v] is a member of the set [s]. *)
Definition member (v : pyval) (s : pyset) : Prop :=
  exists e, e ∈ s /\ py_eqb v e = true.

(** The part-number set and the name set of the item master [rows], as
    [_extract_and_classify_items] builds them. *)
Definition item_master_sets (rows : list pyval) (pn_set name_set : pyset) : Prop :=
  set_of_field "part_number" rows [] = Ok pn_set /\
  set_of_field "material_name" rows [] = Ok name_set.

(** A field that can be looked up in a set: anything but a non-empty list
    or object. *)
Definition lookup_safe (v : pyval) : Prop :=
  truthy v = true -> hashable v = true.

(** The quantity field is present and non-empty. *)
Definition has_quantity (d : pydict) : Prop :=
  exists q, dict_lookup d "qty" = Some q /\ q <> PNone /\ q <> PStr "".

(** The part number is absent or not in the part-number set. *)
Definition part_number_unmatched (d : pydict) (pn_set : pyset) : Prop :=
  dict_lookup d "part_number" = None \/
  exists pn, dict_lookup d "part_number" = Some pn /\ ~ member pn pn_set.

(** Rule 1 and Rule 4 as the specification words them. *)
Definition rule1 (d : pydict) (pn_set : pyset) : Prop :=
  (exists pn, dict_lookup d "part_number" = Some pn /\ member pn pn_set) /\
  has_quantity d.

Definition rule4 (d : pydict) (pn_set name_set : pyset) : Prop :=
  part_number_unmatched d pn_set /\
  exists name, dict_lookup d "material_name" = Some name /\ member name name_set.

Definition classification_keys : list string :=
  ["qa_classification_label"; "qa_confidence_level"; "reasoning"; "action_path"].

(** [out] is the item [d] enriched with the four classification fields:
    they have the given values and every other key is as it was. *)
Definition enriched (d : pydict) (out : pyval)
    (label confidence reasoning action : string) : Prop :=
  exists d', out = PDict d' /\
    dict_lookup d' "qa_classification_label" = Some (PStr label) /\
    dict_lookup d' "qa_confidence_level" = Some (PStr confidence) /\
    dict_lookup d' "reasoning" = Some (PStr reasoning) /\
    dict_lookup d' "action_path" = Some (PStr action) /\
    forall k, k ∉ classification_keys -> dict_lookup d' k = dict_lookup d k.

(** An item that came out of the classification engine. *)
Definition rule_classified (item : pyval) : Prop :=
  exists raw pn_set name_set, _apply_classification_logic raw pn_set name_set = Ok item.

(** The string value of a field of an item. *)
Definition field_is (item : pyval) (key value : string) : bool :=
  match item with
  | PDict d => match dict_lookup d key with
               | Some (PStr s) => String.eqb s value
               | _ => false
               end
  | _ => false
  end.

(** The item's confidence is "high" or "medium". *)
Definition confident (item : pyval) : bool :=
  field_is item "qa_confidence_level" "high" || field_is item "qa_confidence_level" "medium".

(** The item's confidence is "low", "medium" or "high". *)
Definition has_confidence (item : pyval) : bool :=
  field_is item "qa_confidence_level" "low" || field_is item "qa_confidence_level" "medium"
  || field_is item "qa_confidence_level" "high".

(** The item's reasoning is a text. *)
Definition has_text_reasoning (item : pyval) : Prop :=
  exists d s, item = PDict d /\ dict_lookup d "reasoning" = Some (PStr s).

Section WithRuntime.
Context `{Runtime}.

(** The item's reasoning contains "knowledge_base", whatever the case of
    its letters. *)
Definition mentions_knowledge_base (item : pyval) : bool :=
  match item with
  | PDict d => match dict_lookup d "reasoning" with
               | Some (PStr s) => str_contains (str_lower s) "knowledge_base"
               | _ => false
               end
  | _ => false
  end.

End WithRuntime.

(** The number of items with a property. *)
Definition count (p : pyval -> bool) (items : list pyval) : nat :=
  length (filter (fun item => p item = true) items).

(** *** The gateway's answers *)

(** The upstream call fails: the request raises, or the response carries
    an error status. *)
Definition upstream_fails (o : Gateway.post_outcome) : Prop :=
  match o with
  | Gateway.PostRaises _ => True
  | Gateway.PostReturns r => 400 <= Gateway.status_code r < 600
  end.

(** The JSON value [raw] has the shape of a chat completion, with [content]
    at [choices[0].message.content]. *)
Inductive has_content : pyval -> pyval -> Prop :=
| HasContent d choice rest message content :
    dict_lookup d "choices" = Some (PList (PDict choice :: rest)) ->
    dict_lookup choice "message" = Some (PDict message) ->
    dict_lookup message "content" = Some content ->
    has_content (PDict d) content.

(** The response of a call that went through cannot be parsed: its body is
    not JSON, or lacks the expected structure. *)
Definition unparseable (o : Gateway.post_outcome) : Prop :=
  match o with
  | Gateway.PostRaises _ => False
  | Gateway.PostReturns r =>
      match Gateway.json r with
      | None => True
      | Some raw => ~ exists content, has_content raw content
      end
  end.

Section Answers.
Context `{Runtime}.

(** The JSON text inside an answer: what the Markdown fence holds, or the
    whole answer when there is no fence. *)
Definition json_text (answer : string) : string :=
  match re_search_json_fence answer with
  | Some inner => inner
  | None => answer
  end.

(** The gateway answers with the JSON array [items]: the call goes through,
    the body is a chat completion whose content is a text, and that text
    parses to the array. *)
Definition answers_array (o : Gateway.post_outcome) (items : list pyval) : Prop :=
  exists r raw answer,
    o = Gateway.PostReturns r /\
    ~ upstream_fails o /\
    Gateway.json r = Some raw /\
    has_content raw (PStr answer) /\
    json_loads (json_text answer) = Some (PList items).

(** The same for the earlier agent, which reads the text of the model's
    response as JSON. *)
Definition generates_array (o : GeminiAgentServiceBackup.generate_outcome)
    (items : list pyval) : Prop :=
  exists answer,
    o = GeminiAgentServiceBackup.GenerateReturns (Ok answer) /\
    json_loads answer = Some (PList items).

End Answers.

(** *** Runs of the pipeline *)

(** The status writes among the events, oldest first. *)
Definition status_writes (events : list Store.event) : list Store.status_write :=
  omap (fun ev => match ev with Store.EvStatus sw => Some sw | _ => None end) events.

(** The progress values among the status writes. *)
Definition progress_written (writes : list Store.status_write) : list Z :=
  omap Store.sw_progress writes.

(** The status and the progress that the last of the writes leaves. *)
Definition last_status (writes : list Store.status_write) : option string :=
  Store.sw_status <$> last writes.

Definition last_progress (writes : list Store.status_write) : option Z :=
  last (progress_written writes).

(** The four writes of a run that goes through, and the write of one that
    fails with [e]. *)
Definition write_extracting (workflow_id : string) : Store.status_write :=
  Store.StatusWrite workflow_id "processing" (Some 10) (Some "extracting")
    (Some "Extracting data from documents").
Definition write_translating (workflow_id : string) : Store.status_write :=
  Store.StatusWrite workflow_id "processing" (Some 30) (Some "translating")
    (Some "Translating document to English").
Definition write_classifying (workflow_id : string) : Store.status_write :=
  Store.StatusWrite workflow_id "processing" (Some 50) (Some "classifying")
    (Some "Classifying and matching items with Gemini").
Definition write_completed (workflow_id : string) : Store.status_write :=
  Store.StatusWrite workflow_id "completed" (Some 100) (Some "completed")
    (Some "Processing completed successfully").
Definition write_error (workflow_id : string) (e : exn) : Store.status_write :=
  Store.StatusWrite workflow_id "error" None None
    (Some ("Processing failed: " +:+ exc_str e)).

(** The table of workflows after the writes [writes] to the row of
    [workflow_id]. *)
Definition after_writes (workflow_id : string) (writes : list Store.status_write)
    (table : gmap string Store.workflow) : gmap string Store.workflow :=
  foldl (fun t sw => alter (Store.apply_status_write sw) workflow_id t) table writes.

(** A step that writes no status: it leaves the table of workflows and the
    status writes of the trace as they are. *)
Definition quiet (w w' : Store.world) : Prop :=
  Store.workflows w' = Store.workflows w /\
  status_writes (Store.trace w') = status_writes (Store.trace w).

(** Every run of [m] relates the world before to the world after by [R]. *)
Definition preserves (R : Store.world -> Store.world -> Prop) {A} (m : Store.M A) : Prop :=
  forall w, R w (snd (m w)).

(** The sequence is non-decreasing: every value is at most each later one. *)
Definition non_decreasing (l : list Z) : Prop := StronglySorted Z.le l.

(** One of the five status writes of the pipeline for the workflow. *)
Definition pipeline_write (workflow_id : string) (sw : Store.status_write) : Prop :=
  sw = write_extracting workflow_id \/ sw = write_translating workflow_id \/
  sw = write_classifying workflow_id \/ sw = write_completed workflow_id \/
  exists e, sw = write_error workflow_id e.

(** What an observer who has seen the status writes [seen] of a run finds:
    the progress values never go down; the last one is 100 exactly when the
    status has become "completed"; and they are all below 100 while the
    status is "processing" or once it is "error". *)
Definition progress_consistent (seen : list Store.status_write) : Prop :=
  non_decreasing (progress_written seen) /\
  (last_progress seen = Some 100 <-> last_status seen = Some "completed") /\
  (last_status seen = Some "processing" \/ last_status seen = Some "error" ->
   Forall (fun p => p < 100) (progress_written seen)).

(** An event other than a status write. *)
Definition not_status (ev : Store.event) : Prop :=
  match ev with
  | Store.EvStatus _ => False
  | _ => True
  end.

(** Between [w] and [w'] the run wrote the statuses [writes] to the row of
    [workflow_id], and nothing else to the table of workflows. *)
Definition wrote (workflow_id : string) (writes : list Store.status_write)
    (w w' : Store.world) : Prop :=
  status_writes (Store.trace w') = status_writes (Store.trace w) ++ writes /\
  Store.workflows w' = after_writes workflow_id writes (Store.workflows w).

(** *** Further vocabulary *)

(** The value is a dict. *)
Definition is_dict_value (v : pyval) : bool :=
  match v with
  | PDict _ => true
  | _ => false
  end.

(** A row of the item master that the set comprehension can take: a dict
    whose field is not a non-empty list or object. *)
Definition usable_row (key : string) (row : pyval) : Prop :=
  exists d, row = PDict d /\ lookup_safe (dict_get d key).

(** The item carries the default classification. *)
Definition unmatched (item : pyval) : Prop :=
  field_is item "qa_classification_label" "5" = true /\
  field_is item "qa_confidence_level" "low" = true /\
  field_is item "reasoning" "No match found" = true.

(** An item whose reasoning [_generate_summary] can lower: anything that
    is not a dict, or a dict whose reasoning is a text or is missing. *)
Definition reasoning_readable (item : pyval) : Prop :=
  forall d, item = PDict d ->
    exists s, dict_get_default d "reasoning" (PStr "") = PStr s.

(** The item master of a stage: what the parser answers when there is a
    path, the empty list when there is none. *)
Definition item_master_answer (item_path : option string) (outcome : result pyval)
  : result pyval :=
  match item_path with
  | Some p => if negb (String.eqb p "") then outcome else Ok (PList [])
  | None => Ok (PList [])
  end.

(** A step that stores nothing: the results files, the result rows and the
    pending approvals are as before. *)
Definition same_artifacts (w w' : Store.world) : Prop :=
  Store.results_files w' = Store.results_files w /\
  Store.workflow_results w' = Store.workflow_results w /\
  Store.pending_approvals w' = Store.pending_approvals w.

(** The row of a workflow whose run went through. *)
Definition completed_row (row : Store.workflow) : Prop :=
  Store.wf_status row = "completed" /\ Store.wf_progress row = 100 /\
  Store.wf_stage row = "completed" /\
  Store.wf_message row = "Processing completed successfully".

(** What a run of the workflow [workflow_id] may change between [w] and
    [w']: its own row and its own results file, and the tables grow by
    records of this workflow only; the rows of the table of workflows are
    the same ones, the uploads and the queue of tasks are untouched, and
    the trace is extended. *)
Definition run_frame (workflow_id : string) (w w' : Store.world) : Prop :=
  (forall other, other <> workflow_id ->
     Store.workflows w' !! other = Store.workflows w !! other /\
     Store.results_files w' !! other = Store.results_files w !! other) /\
  dom (Store.workflows w') = dom (Store.workflows w) /\
  (exists added, Store.pending_approvals w' = Store.pending_approvals w ++ added /\
                 Forall (fun pa => Store.pa_workflow pa = workflow_id) added) /\
  (exists added, Store.workflow_results w' = Store.workflow_results w ++ added /\
                 Forall (fun row => fst row = workflow_id) added) /\
  Store.uploaded_files w' = Store.uploaded_files w /\
  Store.submitted w' = Store.submitted w /\
  Store.trace w `prefix_of` Store.trace w'.

(** The file system and the database take every step of [start_workflow]
    for the given uploads. *)
Definition start_goes_through (env : WorkflowService.start_env)
    (item_master : option WorkflowService.upload_file) : Prop :=
  WorkflowService.env_makedirs env = None /\
  WorkflowService.env_write_wi env = None /\
  (is_Some item_master -> WorkflowService.env_write_item_master env = None) /\
  WorkflowService.env_create_workflow env = None.

(** Where [start_workflow] stores an upload of the workflow. *)
Definition stored_path (workflow_id : string) (f : WorkflowService.upload_file) : string :=
  WorkflowService.path_join
    (WorkflowService.path_join WorkflowService.upload_dir workflow_id)
    (WorkflowService.filename f).

(** The uploads after [start_workflow] has stored the two documents. *)
Definition stored_uploads (workflow_id : string)
    (wi : WorkflowService.upload_file) (item_master : option WorkflowService.upload_file)
    (files : gmap string string) : gmap string string :=
  match item_master with
  | Some im =>
      <[stored_path workflow_id im := WorkflowService.file im]>
        (<[stored_path workflow_id wi := WorkflowService.file wi]> files)
  | None => <[stored_path workflow_id wi := WorkflowService.file wi]> files
  end.

(** A file name without a slash: the name of an entry of the directory it
    is joined to. *)
Definition slash_free (s : string) : Prop := str_contains s "/" = false.

Section TextAnswers.
Context `{Runtime}.

(** The gateway answers with the text [answer]: the call goes through and
    the body is a chat completion whose content is that text. *)
Definition answers_text (o : Gateway.post_outcome) (answer : string) : Prop :=
  exists r raw,
    o = Gateway.PostReturns r /\
    ~ upstream_fails o /\
    Gateway.json r = Some raw /\
    has_content raw (PStr answer).

(** The gateway answers with a text that parses to the JSON value [v]. *)
Definition answers_json (o : Gateway.post_outcome) (v : pyval) : Prop :=
  exists answer, answers_text o answer /\ json_loads (json_text answer) = Some v.

End TextAnswers.

End Spec.

(** * Properties *)

Import Py Gateway Store WorkflowService Spec.

(** ** Python values *)

Section PyFacts.

Lemma dict_lookup_set_eq (d : pydict) k v :
  dict_lookup (dict_set d k v) k = Some v.
Proof.
  induction d as [|[k' v'] d IH]; simpl.
  - by rewrite String.eqb_refl.
  - destruct (String.eqb k' k) eqn:E; simpl; rewrite E; [done | apply IH].
Qed.

Lemma dict_lookup_set_ne (d : pydict) k k' v :
  k <> k' -> dict_lookup (dict_set d k v) k' = dict_lookup d k'.
Proof.
  intros Hne. induction d as [|[k0 v0] d IH]; simpl.
  - apply String.eqb_neq in Hne. by rewrite Hne.
  - destruct (String.eqb k0 k) eqn:E; simpl.
    + apply String.eqb_eq in E. subst k0.
      apply String.eqb_neq in Hne. by rewrite Hne.
    + by rewrite IH.
Qed.

Lemma dict_get_truthy_lookup (d : pydict) k :
  truthy (dict_get d k) = true -> dict_lookup d k = Some (dict_get d k).
Proof. unfold dict_get. destruct (dict_lookup d k); [done | discriminate]. Qed.

Lemma as_number_truthy v f : as_number v = Some f -> truthy v = float_truthy f.
Proof.
  destruct v as [|b|z|g|s|l|d]; simpl; intros [= <-]; try done.
  by destruct b.
Qed.

Lemma dyadic_eqb_zero m1 e1 m2 e2 :
  dyadic_eqb m1 e1 m2 e2 = true -> (m1 =? 0) = (m2 =? 0).
Proof.
  unfold dyadic_eqb. intros Heq%Z.eqb_eq.
  assert (0 < 2 ^ (e1 - Z.min e1 e2)) by (apply Z.pow_pos_nonneg; lia).
  assert (0 < 2 ^ (e2 - Z.min e1 e2)) by (apply Z.pow_pos_nonneg; lia).
  destruct (Z.eqb_spec m1 0) as [->|Hm1], (Z.eqb_spec m2 0) as [->|Hm2]; try done; nia.
Qed.

Lemma float_eqb_truthy f g : float_eqb f g = true -> float_truthy f = float_truthy g.
Proof.
  destruct f, g; simpl; try done.
  intros Heq%dyadic_eqb_zero. by rewrite Heq.
Qed.

(** Equal values are both truthy or both falsy. *)
Lemma py_eqb_truthy v w : py_eqb v w = true -> truthy v = truthy w.
Proof.
  intros Heq.
  destruct (as_number v) as [f|] eqn:Ev, (as_number w) as [g|] eqn:Ew.
  - rewrite (as_number_truthy _ _ Ev), (as_number_truthy _ _ Ew).
    apply float_eqb_truthy.
    destruct v, w; by simplify_eq/=.
  - destruct v, w; simpl in *; done.
  - destruct v, w; simpl in *; done.
  - destruct v, w; simpl in *; try done.
    by apply String.eqb_eq in Heq; subst.
Qed.

Lemma py_eqb_hashable v w : py_eqb v w = true -> hashable v = true.
Proof. by destruct v, w. Qed.

Lemma py_eqb_str v s : py_eqb v (PStr s) = true <-> v = PStr s.
Proof.
  split.
  - destruct v as [|b|z|f|t|l|d]; simpl; try done; try (by destruct f).
    by intros ->%String.eqb_eq.
  - intros ->. simpl. apply String.eqb_refl.
Qed.

Lemma existsb_member v (s : pyset) : existsb (py_eqb v) s = true <-> member v s.
Proof.
  rewrite existsb_exists. unfold member.
  split; intros (e & He & Heq); exists e; split; try done; by apply list_elem_of_In.
Qed.

Lemma existsb_not_member v (s : pyset) : ~ member v s -> existsb (py_eqb v) s = false.
Proof.
  intros Hn. destruct (existsb (py_eqb v) s) eqn:E; [|done].
  by apply existsb_member in E.
Qed.

Lemma member_hashable v (s : pyset) : member v s -> hashable v = true.
Proof. intros (e & _ & Heq). by eapply py_eqb_hashable. Qed.

Lemma member_truthy v (s : pyset) :
  Forall (fun e => truthy e = true) s -> member v s -> truthy v = true.
Proof.
  intros Hall (e & He & Heq).
  rewrite (py_eqb_truthy _ _ Heq).
  by eapply (proj1 (Forall_forall _ _) Hall).
Qed.

End PyFacts.

(** ** The classification engine *)

Section Classification.

Ltac dict_lookups :=
  repeat first [ rewrite dict_lookup_set_eq
               | rewrite dict_lookup_set_ne by discriminate ].

Lemma other_key_untouched (d : pydict) (fields : pydict) k :
  Forall (fun kv => fst kv <> k) fields ->
  dict_lookup (dict_update d fields) k = dict_lookup d k.
Proof.
  unfold dict_update. revert d.
  induction fields as [|[k' v'] fields IH]; intros d Hall; simpl; [done|].
  inversion Hall as [|? ? Hk Hrest]; subst. simpl in Hk.
  rewrite IH by done. by apply dict_lookup_set_ne.
Qed.

Lemma not_classification_key k :
  k ∉ classification_keys ->
  forall v1 v2 v3 v4,
    Forall (fun kv : string * pyval => fst kv <> k)
      [("qa_classification_label", v1); ("qa_confidence_level", v2);
       ("reasoning", v3); ("action_path", v4)].
Proof.
  intros Hk v1 v2 v3 v4.
  repeat constructor; simpl; intros <-; apply Hk; unfold classification_keys;
    repeat constructor.
Qed.

Lemma enriched_default (d : pydict) :
  enriched d (PDict (dict_update d default_fields))
    "5" "low" "No match found" "🔴 Human Intervention Required".
Proof.
  exists (dict_update d default_fields). split; [done|].
  repeat split; try (simpl; dict_lookups; done).
  intros k Hk. apply other_key_untouched. by apply not_classification_key.
Qed.

Lemma enriched_rule1 (d : pydict) :
  enriched d (PDict (dict_update (dict_update d default_fields) rule1_fields))
    "1" "high" "Match to BOM & Item Master Data" "🟢 Auto-Register".
Proof.
  exists (dict_update (dict_update d default_fields) rule1_fields). split; [done|].
  repeat split; try (simpl; dict_lookups; done).
  intros k Hk.
  rewrite !other_key_untouched; try done; by apply not_classification_key.
Qed.

Lemma enriched_rule4 (d : pydict) :
  enriched d (PDict (dict_update (dict_update d default_fields) rule4_fields))
    "4" "low" "Check for text match in master data" "🔴 Human Intervention Required".
Proof.
  exists (dict_update (dict_update d default_fields) rule4_fields). split; [done|].
  repeat split; try (simpl; dict_lookups; done).
  intros k Hk.
  rewrite !other_key_untouched; try done; by apply not_classification_key.
Qed.

Lemma and_in_set_safe x (s : pyset) :
  lookup_safe x -> and_in_set x s = Ok (truthy x && existsb (py_eqb x) s).
Proof.
  unfold lookup_safe, and_in_set, set_contains. intros Hsafe.
  destruct (truthy x); [|done]. by rewrite Hsafe.
Qed.

(** The engine on an item whose two looked-up fields can be hashed: it does
    not raise, and the rule that applies is decided by three booleans. *)
Lemma classify_safe (d : pydict) (pn_set name_set : pyset) :
  lookup_safe (dict_get d "part_number") ->
  lookup_safe (dict_get d "material_name") ->
  _apply_classification_logic (PDict d) pn_set name_set =
    let pn := dict_get d "part_number" in
    let name := dict_get d "material_name" in
    let pn_match := truthy pn && existsb (py_eqb pn) pn_set in
    let name_match := truthy name && existsb (py_eqb name) name_set in
    let d0 := dict_update d default_fields in
    Ok (PDict (if pn_match && qty_present (dict_get d "qty")
               then dict_update d0 rule1_fields
               else if negb pn_match && name_match
                    then dict_update d0 rule4_fields
                    else d0)).
Proof.
  intros Hpn Hname. unfold _apply_classification_logic. simpl.
  rewrite (and_in_set_safe _ pn_set Hpn). simpl.
  rewrite (and_in_set_safe _ name_set Hname). simpl.
  by repeat case_match.
Qed.

(** The sets built from an item master hold truthy values only. *)
Lemma set_of_field_truthy key rows (acc s : pyset) :
  Forall (fun e => truthy e = true) acc ->
  set_of_field key rows acc = Ok s ->
  Forall (fun e => truthy e = true) s.
Proof.
  revert acc. induction rows as [|row rows IH]; intros acc Hacc; simpl.
  - by intros [= <-].
  - destruct row as [| | | | | |d]; simpl; try done.
    destruct (truthy (dict_get d key)) eqn:Ht; [|by apply IH].
    rewrite (dict_get_truthy_lookup _ _ Ht). simpl.
    unfold set_add, set_contains.
    destruct (hashable (dict_get d key)); simpl; [|done].
    apply IH. case_match; [done|].
    apply Forall_app. split; [done|]. by constructor.
Qed.

Lemma item_master_sets_truthy rows pn_set name_set :
  item_master_sets rows pn_set name_set ->
  Forall (fun e => truthy e = true) pn_set /\
  Forall (fun e => truthy e = true) name_set.
Proof.
  intros [Hpn Hname]. split; eapply set_of_field_truthy; try eassumption; constructor.
Qed.

(** Whatever the engine returns carries one of the three sets of fields. *)
Lemma classified_cases item :
  rule_classified item ->
  exists d, item = PDict d /\
    dict_lookup d "reasoning" <> None /\
    (exists s, dict_lookup d "reasoning" = Some (PStr s)) /\
    ((dict_lookup d "qa_classification_label" = Some (PStr "1") /\
      dict_lookup d "qa_confidence_level" = Some (PStr "high")) \/
     (dict_lookup d "qa_classification_label" = Some (PStr "4") /\
      dict_lookup d "qa_confidence_level" = Some (PStr "low")) \/
     (dict_lookup d "qa_classification_label" = Some (PStr "5") /\
      dict_lookup d "qa_confidence_level" = Some (PStr "low"))).
Proof.
  intros (raw & pn_set & name_set & Hrun).
  unfold _apply_classification_logic in Hrun.
  destruct raw as [| | | | | |d]; simpl in Hrun; try done.
  destruct (and_in_set (dict_get d "part_number") pn_set) as [pn_match|]; simpl in Hrun; [|done].
  destruct (and_in_set (dict_get d "material_name") name_set) as [name_match|];
    simpl in Hrun; [|done].
  repeat case_match; injection Hrun as <-; eexists; (split; [reflexivity|]).
  - destruct (enriched_rule1 d) as (d' & [= <-] & H1 & H2 & H3 & _).
    rewrite H1, H2, H3. eauto 10.
  - destruct (enriched_rule4 d) as (d' & [= <-] & H1 & H2 & H3 & _).
    rewrite H1, H2, H3. eauto 10.
  - destruct (enriched_default d) as (d' & [= <-] & H1 & H2 & H3 & _).
    rewrite H1, H2, H3. eauto 10.
Qed.

End Classification.

Section ClassificationRules.

Lemma qty_present_iff (d : pydict) :
  qty_present (dict_get d "qty") = true <-> has_quantity d.
Proof.
  unfold has_quantity, dict_get. split.
  - destruct (dict_lookup d "qty") as [q|]; [|done].
    intros Hq. exists q. split; [done|].
    split; intros ->; simpl in Hq; done.
  - intros (q & -> & Hnone & Hempty).
    destruct q; simpl; try done.
    apply negb_true_iff, String.eqb_neq. congruence.
Qed.

Lemma unmatched_no_pn_match (d : pydict) (pn_set : pyset) :
  part_number_unmatched d pn_set ->
  truthy (dict_get d "part_number")
  && existsb (py_eqb (dict_get d "part_number")) pn_set = false.
Proof.
  unfold dict_get. intros [-> | (pn & -> & Hn)]; [done|].
  rewrite (existsb_not_member _ _ Hn). apply andb_false_r.
Qed.

(** C1 (as amended): an item whose part number is in the part-number set
    of the item master and whose quantity is present and non-empty, and
    whose material name is not a non-empty list or object, comes back
    enriched with label "1", confidence "high", reasoning "Match to BOM &
    Item Master Data" and the action path "🟢 Auto-Register", the text with
    its leading green-circle emoji. *)
Theorem rule1_auto_register rows (pn_set name_set : pyset) (d : pydict) pn :
  item_master_sets rows pn_set name_set ->
  dict_lookup d "part_number" = Some pn ->
  member pn pn_set ->
  has_quantity d ->
  lookup_safe (dict_get d "material_name") ->
  exists out,
    _apply_classification_logic (PDict d) pn_set name_set = Ok out /\
    enriched d out "1" "high" "Match to BOM & Item Master Data" "🟢 Auto-Register".
Proof.
  intros Hsets Hpn Hin Hqty Hname.
  destruct (item_master_sets_truthy _ _ _ Hsets) as [Htruthy _].
  assert (Hget : dict_get d "part_number" = pn) by (unfold dict_get; by rewrite Hpn).
  rewrite classify_safe; [|rewrite Hget; intros _; by eapply member_hashable|done].
  simpl. rewrite Hget.
  rewrite (member_truthy _ _ Htruthy Hin).
  rewrite (proj2 (existsb_member _ _) Hin).
  rewrite (proj2 (qty_present_iff d) Hqty). simpl.
  eexists. split; [done|]. apply enriched_rule1.
Qed.

(** C2 (as amended): an item whose part number is absent or not in the
    part-number set (and is neither a non-empty list or object nor a NaN),
    and whose material name is equal to an element of the name set of the
    item master, comes back enriched with label "4", confidence "low",
    reasoning "Check for text match in master data" and the action path
    "🔴 Human Intervention Required", the text with its leading red-circle
    emoji.  A NaN part number is left out: Python finds a NaN in a set by
    the identity of the object, which the values here do not carry. *)
Theorem rule4_needs_review rows (pn_set name_set : pyset) (d : pydict) name :
  item_master_sets rows pn_set name_set ->
  part_number_unmatched d pn_set ->
  lookup_safe (dict_get d "part_number") ->
  dict_get d "part_number" <> PFloat FNaN ->
  dict_lookup d "material_name" = Some name ->
  member name name_set ->
  exists out,
    _apply_classification_logic (PDict d) pn_set name_set = Ok out /\
    enriched d out "4" "low" "Check for text match in master data"
      "🔴 Human Intervention Required".
Proof.
  intros Hsets Hun Hpn _ Hname Hin.
  destruct (item_master_sets_truthy _ _ _ Hsets) as [_ Htruthy].
  assert (Hget : dict_get d "material_name" = name) by (unfold dict_get; by rewrite Hname).
  rewrite classify_safe; [|done|rewrite Hget; intros _; by eapply member_hashable].
  simpl. rewrite (unmatched_no_pn_match _ _ Hun), Hget.
  rewrite (member_truthy _ _ Htruthy Hin).
  rewrite (proj2 (existsb_member _ _) Hin). simpl.
  eexists. split; [done|]. apply enriched_rule4.
Qed.

(** C3 (as amended): an item that matches neither Rule 1 nor Rule 4, and
    whose part number and material name are neither non-empty lists or
    objects nor NaN, comes back enriched with label "5", confidence "low",
    reasoning "No match found" and the action path "🔴 Human Intervention
    Required", the text with its leading red-circle emoji.  NaN fields are
    left out: Python finds a NaN in a set by the identity of the object,
    which the values here do not carry. *)
Theorem default_no_match rows (pn_set name_set : pyset) (d : pydict) :
  item_master_sets rows pn_set name_set ->
  ~ rule1 d pn_set ->
  ~ rule4 d pn_set name_set ->
  lookup_safe (dict_get d "part_number") ->
  lookup_safe (dict_get d "material_name") ->
  dict_get d "part_number" <> PFloat FNaN ->
  dict_get d "material_name" <> PFloat FNaN ->
  exists out,
    _apply_classification_logic (PDict d) pn_set name_set = Ok out /\
    enriched d out "5" "low" "No match found" "🔴 Human Intervention Required".
Proof.
  intros Hsets Hno1 Hno4 Hpn Hname _ _.
  destruct (item_master_sets_truthy _ _ _ Hsets) as [Htruthy _].
  rewrite classify_safe by done. simpl.
  set (pn := dict_get d "part_number").
  set (name := dict_get d "material_name").
  destruct (truthy pn && existsb (py_eqb pn) pn_set) eqn:Epn; simpl.
  - (* the part number matches: the quantity must be missing *)
    apply andb_true_iff in Epn as [Ht Hin%existsb_member].
    destruct (qty_present (dict_get d "qty")) eqn:Eq.
    + exfalso. apply Hno1. split; [|by apply qty_present_iff].
      exists pn. split; [by apply dict_get_truthy_lookup|done].
    + eexists. split; [done|]. apply enriched_default.
  - destruct (truthy name && existsb (py_eqb name) name_set) eqn:Ename; simpl.
    + exfalso. apply Hno4.
      apply andb_true_iff in Ename as [Ht Hin%existsb_member].
      split; [|exists name; split; [by apply dict_get_truthy_lookup|done]].
      destruct (dict_lookup d "part_number") as [v|] eqn:Ev; [right|by left].
      exists v. split; [done|]. intros Hmem.
      assert (pn = v) as Hv by (unfold pn, dict_get; by rewrite Ev).
      rewrite Hv in Epn.
      rewrite (member_truthy _ _ Htruthy Hmem) in Epn.
      by rewrite (proj2 (existsb_member _ _) Hmem) in Epn.
    + eexists. split; [done|]. apply enriched_default.
Qed.

End ClassificationRules.

Section ClassificationExamples.
Import Examples.

Lemma master_sets_built : item_master_sets master_rows master_pn_set master_name_set.
Proof. split; reflexivity. Qed.

Lemma member_here v (s : pyset) : py_eqb v v = true -> member v (v :: s).
Proof. intros Heq. exists v. split; [constructor | done]. Qed.

Lemma rule1_auto_register_witness :
  item_master_sets master_rows master_pn_set master_name_set /\
  dict_lookup item_pn_qty "part_number" = Some (PStr "PN-100") /\
  member (PStr "PN-100") master_pn_set /\
  has_quantity item_pn_qty /\
  lookup_safe (dict_get item_pn_qty "material_name") /\
  exists out,
    _apply_classification_logic (PDict item_pn_qty) master_pn_set master_name_set = Ok out /\
    enriched item_pn_qty out "1" "high" "Match to BOM & Item Master Data" "🟢 Auto-Register".
Proof.
  assert (H1 : item_master_sets master_rows master_pn_set master_name_set)
    by (split; reflexivity).
  assert (H2 : dict_lookup item_pn_qty "part_number" = Some (PStr "PN-100"))
    by reflexivity.
  assert (H3 : member (PStr "PN-100") master_pn_set)
    by (exists (PStr "PN-100"); split; [constructor | reflexivity]).
  assert (H4 : has_quantity item_pn_qty)
    by (exists (PStr "5"); split; [reflexivity | split; discriminate]).
  assert (H5 : lookup_safe (dict_get item_pn_qty "material_name"))
    by (intros Ht; vm_compute in Ht; discriminate Ht).
  repeat (split; [assumption|]).
  exact (rule1_auto_register _ _ _ _ _ H1 H2 H3 H4 H5).
Defined.

(** C1 as stated fails on the code.  The item
    [{"part_number": "PN-100", "qty": "5"}] meets the claim's conditions and
    its action path comes back as "🟢 Auto-Register", not "Auto-Register";
    and the item that also has a list as its material name meets them too,
    and the engine raises [TypeError] on it instead of returning. *)
Lemma rule1_auto_register_counterexample :
  (item_master_sets master_rows master_pn_set master_name_set /\
   dict_lookup item_pn_qty "part_number" = Some (PStr "PN-100") /\
   member (PStr "PN-100") master_pn_set /\
   has_quantity item_pn_qty /\
   exists out,
     _apply_classification_logic (PDict item_pn_qty) master_pn_set master_name_set = Ok out /\
     ~ enriched item_pn_qty out "1" "high" "Match to BOM & Item Master Data" "Auto-Register")
  /\
  (dict_lookup item_pn_qty_names "part_number" = Some (PStr "PN-100") /\
   member (PStr "PN-100") master_pn_set /\
   has_quantity item_pn_qty_names /\
   exists msg,
     _apply_classification_logic (PDict item_pn_qty_names) master_pn_set master_name_set
     = Raise (Exn TypeError msg)).
Proof.
  assert (Hmem : member (PStr "PN-100") master_pn_set) by by apply member_here.
  split.
  - split; [apply master_sets_built|]. split; [done|]. split; [done|].
    split; [exists (PStr "5"); by repeat split|].
    eexists. split; [reflexivity|].
    intros (d' & [= <-] & _ & _ & _ & Haction & _). discriminate Haction.
  - split; [done|]. split; [done|].
    split; [exists (PStr "5"); by repeat split|]. eexists. reflexivity.
Qed.

Lemma rule4_needs_review_witness :
  item_master_sets master_rows master_pn_set master_name_set /\
  part_number_unmatched item_name_only master_pn_set /\
  lookup_safe (dict_get item_name_only "part_number") /\
  dict_get item_name_only "part_number" <> PFloat FNaN /\
  dict_lookup item_name_only "material_name" = Some (PStr "Glue") /\
  member (PStr "Glue") master_name_set /\
  exists out,
    _apply_classification_logic (PDict item_name_only) master_pn_set master_name_set = Ok out /\
    enriched item_name_only out "4" "low" "Check for text match in master data"
      "🔴 Human Intervention Required".
Proof.
  assert (H1 : item_master_sets master_rows master_pn_set master_name_set)
    by (split; reflexivity).
  assert (H2 : part_number_unmatched item_name_only master_pn_set)
    by (left; reflexivity).
  assert (H3 : lookup_safe (dict_get item_name_only "part_number"))
    by (intros Ht; vm_compute in Ht; discriminate Ht).
  assert (H4 : dict_lookup item_name_only "material_name" = Some (PStr "Glue"))
    by reflexivity.
  assert (H5 : member (PStr "Glue") master_name_set)
    by (exists (PStr "Glue"); split; [constructor | reflexivity]).
  assert (H6 : dict_get item_name_only "part_number" <> PFloat FNaN)
    by (intros Hnan; vm_compute in Hnan; discriminate Hnan).
  repeat (split; [assumption|]).
  exact (rule4_needs_review _ _ _ _ _ H1 H2 H3 H6 H4 H5).
Defined.

(** C2 as stated fails on the code.  The item [{"material_name": "Glue"}]
    meets the claim's conditions and its action path comes back as
    "🔴 Human Intervention Required", not "Human Intervention Required";
    and the item whose part number is a list of two numbers, none of them
    in the set, meets them too, and the engine raises [TypeError] on it. *)
Lemma rule4_needs_review_counterexample :
  (item_master_sets master_rows master_pn_set master_name_set /\
   part_number_unmatched item_name_only master_pn_set /\
   dict_lookup item_name_only "material_name" = Some (PStr "Glue") /\
   member (PStr "Glue") master_name_set /\
   exists out,
     _apply_classification_logic (PDict item_name_only) master_pn_set master_name_set = Ok out /\
     ~ enriched item_name_only out "4" "low" "Check for text match in master data"
         "Human Intervention Required")
  /\
  (part_number_unmatched item_name_pns master_pn_set /\
   dict_lookup item_name_pns "material_name" = Some (PStr "Glue") /\
   member (PStr "Glue") master_name_set /\
   exists msg,
     _apply_classification_logic (PDict item_name_pns) master_pn_set master_name_set
     = Raise (Exn TypeError msg)).
Proof.
  assert (Hmem : member (PStr "Glue") master_name_set) by by apply member_here.
  split.
  - split; [apply master_sets_built|]. split; [by left|]. split; [done|]. split; [done|].
    eexists. split; [reflexivity|].
    intros (d' & [= <-] & _ & _ & _ & Haction & _). discriminate Haction.
  - split.
    + right. eexists. split; [reflexivity|].
      intros (e & _ & Heq). discriminate Heq.
    + split; [done|]. split; [done|]. eexists. reflexivity.
Qed.

Lemma default_no_match_witness :
  item_master_sets master_rows master_pn_set master_name_set /\
  ~ rule1 item_unknown master_pn_set /\
  ~ rule4 item_unknown master_pn_set master_name_set /\
  lookup_safe (dict_get item_unknown "part_number") /\
  lookup_safe (dict_get item_unknown "material_name") /\
  dict_get item_unknown "part_number" <> PFloat FNaN /\
  dict_get item_unknown "material_name" <> PFloat FNaN /\
  exists out,
    _apply_classification_logic (PDict item_unknown) master_pn_set master_name_set = Ok out /\
    enriched item_unknown out "5" "low" "No match found" "🔴 Human Intervention Required".
Proof.
  assert (H1 : item_master_sets master_rows master_pn_set master_name_set)
    by (split; reflexivity).
  assert (H2 : ~ rule1 item_unknown master_pn_set)
    by (intros [(pn & Hpn & _) _]; discriminate Hpn).
  assert (H3 : ~ rule4 item_unknown master_pn_set master_name_set).
  { intros [_ (name & Hname & (e & He & Heq))].
    injection Hname as <-.
    apply list_elem_of_In in He. simpl in He.
    destruct He as [<- | []]. discriminate Heq. }
  assert (H4 : lookup_safe (dict_get item_unknown "part_number"))
    by (intros Ht; vm_compute in Ht; discriminate Ht).
  assert (H5 : lookup_safe (dict_get item_unknown "material_name"))
    by (intros _; reflexivity).
  assert (H6 : dict_get item_unknown "part_number" <> PFloat FNaN)
    by (intros Hnan; vm_compute in Hnan; discriminate Hnan).
  assert (H7 : dict_get item_unknown "material_name" <> PFloat FNaN)
    by (intros Hnan; vm_compute in Hnan; discriminate Hnan).
  repeat (split; [assumption|]).
  exact (default_no_match _ _ _ _ H1 H2 H3 H4 H5 H6 H7).
Defined.

(** C3 as stated fails on the code.  The item [{"material_name": "Tape"}]
    matches neither rule and its action path comes back as "🔴 Human
    Intervention Required", not "Human Intervention Required"; and the item
    that also has a list as its part number matches neither rule, and the
    engine raises [TypeError] on it. *)
Lemma default_no_match_counterexample :
  (item_master_sets master_rows master_pn_set master_name_set /\
   ~ rule1 item_unknown master_pn_set /\
   ~ rule4 item_unknown master_pn_set master_name_set /\
   exists out,
     _apply_classification_logic (PDict item_unknown) master_pn_set master_name_set = Ok out /\
     ~ enriched item_unknown out "5" "low" "No match found" "Human Intervention Required")
  /\
  (~ rule1 item_unknown_pns master_pn_set /\
   ~ rule4 item_unknown_pns master_pn_set master_name_set /\
   exists msg,
     _apply_classification_logic (PDict item_unknown_pns) master_pn_set master_name_set
     = Raise (Exn TypeError msg)).
Proof.
  assert (Hglue : forall name, name = PStr "Tape" -> ~ member name master_name_set).
  { intros name -> (e & He & Heq).
    apply list_elem_of_In in He. simpl in He.
    destruct He as [<- | []]. discriminate Heq. }
  split.
  - split; [apply master_sets_built|].
    split; [intros [(pn & Hpn & _) _]; discriminate Hpn|].
    split; [intros [_ (name & [= <-] & Hmem)]; by eapply Hglue|].
    eexists. split; [reflexivity|].
    intros (d' & [= <-] & _ & _ & _ & Haction & _). discriminate Haction.
  - split.
    + intros [(pn & [= <-] & (e & _ & Heq)) _]. discriminate Heq.
    + split; [intros [_ (name & [= <-] & Hmem)]; by eapply Hglue|].
      eexists. reflexivity.
Qed.

End ClassificationExamples.

(** ** The gateway adapters *)

Section Adapters.

Lemma call_api_fails o : upstream_fails o -> exists e, _call_api o = Raise e.
Proof.
  destruct o as [msg|r]; simpl; intros Hf; [by eexists|].
  unfold _call_api, raise_for_status.
  assert ((400 <=? status_code r) && (status_code r <? 600) = true) as ->
    by (apply andb_true_iff; split; [apply Z.leb_le | apply Z.ltb_lt]; lia).
  simpl. by eexists.
Qed.

Lemma call_api_returns r :
  ~ upstream_fails (PostReturns r) -> _call_api (PostReturns r) = Ok r.
Proof.
  simpl. intros Hf. unfold _call_api, raise_for_status.
  destruct ((400 <=? status_code r) && (status_code r <? 600)) eqn:E; [|done].
  apply andb_true_iff in E as [?%Z.leb_le ?%Z.ltb_lt]. lia.
Qed.

Lemma call_api_ok_inv o r : _call_api o = Ok r -> o = PostReturns r /\ ~ upstream_fails o.
Proof.
  destruct o as [msg|r']; [done|].
  destruct (decide (400 <= status_code r' < 600)) as [Hf|Hf].
  - destruct (call_api_fails (PostReturns r') Hf) as [e ->]. done.
  - rewrite (call_api_returns r' Hf). by intros [= ->].
Qed.

(** Reading [choices[0].message.content] succeeds exactly on a chat
    completion. *)
Lemma first_choice_content_ok raw content :
  first_choice_content raw = Ok content <-> has_content raw content.
Proof.
  unfold first_choice_content. split.
  - destruct raw as [| | | | | |d]; simpl; try done.
    destruct (dict_lookup d "choices") as [choices|] eqn:Ec; simpl; [|done].
    destruct choices as [| | | |[|c s]|[|choice rest]|]; simpl; try done.
    destruct choice as [| | | | | |cd]; simpl; try done.
    destruct (dict_lookup cd "message") as [message|] eqn:Em; simpl; [|done].
    destruct message as [| | | | | |md]; simpl; try done.
    destruct (dict_lookup md "content") as [c|] eqn:Econtent; simpl; [|done].
    intros [= <-]. by econstructor.
  - intros [d choice rest message c Hc Hm Hcontent]. simpl.
    rewrite Hc. simpl. rewrite Hm. simpl. by rewrite Hcontent.
Qed.

Lemma first_choice_content_raises raw :
  (~ exists content, has_content raw content) ->
  exists e, first_choice_content raw = Raise e.
Proof.
  intros Hno. destruct (first_choice_content raw) as [c|e] eqn:E; [|by eexists].
  exfalso. apply Hno. exists c. by apply first_choice_content_ok.
Qed.

Lemma translate_returns (text : pyval) (o : post_outcome) :
  exists v, TranslationService.translate_to_english text o = Ok v.
Proof.
  unfold TranslationService.translate_to_english, try_except.
  destruct (_call_api o) as [r|e]; simpl; [|by eexists].
  destruct (response_json r) as [raw|e]; simpl; [|by eexists].
  destruct (first_choice_content raw) as [c|e]; simpl; by eexists.
Qed.

(** C6: [translate_to_english] never raises, and when the upstream call
    fails or its response cannot be parsed it returns the very text it was
    given. *)
Theorem translation_fails_open (text : pyval) (o : post_outcome) :
  (exists v, TranslationService.translate_to_english text o = Ok v) /\
  (upstream_fails o \/ unparseable o ->
   TranslationService.translate_to_english text o = Ok text).
Proof.
  split; [apply translate_returns|].
  unfold TranslationService.translate_to_english, try_except.
  intros [Hf | Hu].
  - by destruct (call_api_fails o Hf) as [e ->].
  - destruct o as [msg|r]; [done|]. simpl in Hu.
    destruct (_call_api (PostReturns r)) as [r'|e] eqn:Ecall; simpl; [|done].
    apply call_api_ok_inv in Ecall as [[= <-] _].
    unfold response_json. destruct (json r) as [raw|]; simpl; [|done].
    by destruct (first_choice_content_raises raw Hu) as [e ->].
Qed.

End Adapters.

Section Extraction.
Context `{Runtime}.

Ltac swallowed :=
  simpl; try done;
  try match goal with
      | |- context [exc_class ?e] => by destruct (exc_class e)
      end.

Lemma answers_array_returned o items :
  answers_array o items ->
  GeminiAgentService.extract_all_items o = Ok (PList items).
Proof.
  intros (r & raw & answer & -> & Hok & Hjson & Hcontent & Hparse).
  unfold GeminiAgentService.extract_all_items.
  rewrite (call_api_returns r Hok). simpl.
  unfold response_json. rewrite Hjson. simpl.
  rewrite (proj2 (first_choice_content_ok _ _) Hcontent).
  inversion Hcontent as [d choice rest message c Hc Hm Hc' Hraw Hanswer]. simpl.
  rewrite Hc. simpl.
  unfold GeminiAgentService.py_json_loads. unfold json_text in Hparse.
  destruct (re_search_json_fence answer); simpl; by rewrite Hparse.
Qed.

Lemma no_array_gives_empty o :
  (forall items, ~ answers_array o items) ->
  GeminiAgentService.extract_all_items o = Ok (PList []).
Proof.
  intros Hno. unfold GeminiAgentService.extract_all_items, try_except.
  destruct (_call_api o) as [r|e] eqn:Ecall; swallowed.
  apply call_api_ok_inv in Ecall as [-> Hok].
  unfold response_json. destruct (json r) as [raw|] eqn:Ejson; swallowed.
  destruct (py_contains_str raw "choices") as [[|]|e]; swallowed.
  destruct (py_getitem_str raw "choices") as [choices|e]; swallowed.
  destruct (truthy choices); swallowed.
  destruct (first_choice_content raw) as [content|e] eqn:Econtent; swallowed.
  apply first_choice_content_ok in Econtent.
  destruct content as [| | | |answer| |]; swallowed.
  assert (Hno' : forall items, json_loads (json_text answer) <> Some (PList items)).
  { intros items Hp. apply (Hno items). by exists r, raw, answer. }
  unfold json_text in Hno'.
  unfold GeminiAgentService.py_json_loads, GeminiAgentService._extract_json_from_markdown.
  destruct (re_search_json_fence answer) as [inner|]; simpl;
    (destruct (json_loads _) as [parsed|] eqn:Eparse; simpl; [|done]);
    destruct parsed as [| | | | |items|]; simpl; try done; by destruct (Hno' items).
Qed.

End Extraction.

Section ExtractionTotal.
Context `{Runtime}.

Ltac listed :=
  simpl; try (by eexists);
  try match goal with
      | |- context [exc_class ?e] => destruct (exc_class e); by eexists
      end.

Lemma extract_all_items_is_list o :
  exists items, GeminiAgentService.extract_all_items o = Ok (PList items).
Proof.
  unfold GeminiAgentService.extract_all_items, try_except.
  destruct (_call_api o) as [r|e]; listed.
  destruct (response_json r) as [raw|e]; listed.
  destruct (py_contains_str raw "choices") as [[|]|e]; listed.
  destruct (py_getitem_str raw "choices") as [choices|e]; listed.
  destruct (truthy choices); listed.
  destruct (first_choice_content raw) as [content|e]; listed.
  destruct (GeminiAgentService._extract_json_from_markdown content) as [json_string|e]; listed.
  destruct (GeminiAgentService.py_json_loads json_string) as [parsed|e]; listed.
  destruct parsed; listed.
Qed.

Lemma backup_extract_cases o :
  (exists items, generates_array o items /\
     GeminiAgentServiceBackup.extract_all_items o = Ok (PList items)) \/
  ((forall items, ~ generates_array o items) /\
     GeminiAgentServiceBackup.extract_all_items o = Ok (PList [])).
Proof.
  unfold GeminiAgentServiceBackup.extract_all_items, try_except, generates_array.
  destruct o as [e|[answer|e]]; simpl.
  - right. split; [|done]. by intros items (answer & [=] & _).
  - unfold GeminiAgentService.py_json_loads.
    destruct (json_loads answer) as [parsed|] eqn:Eparse; simpl.
    + destruct parsed as [| | | | |items|]; simpl;
        try (right; split; [|done]; intros items (a & [= <-] & Hp); congruence).
      left. exists items. split; [|done]. by exists answer.
    + right. split; [|done]. intros items (a & [= <-] & Hp). congruence.
  - right. split; [|done]. by intros items (answer & [=] & _).
Qed.

(** C7: [extract_all_items], in the agent and in its earlier version,
    always returns a list and never raises; whenever the gateway's answer
    is not a JSON array in the expected envelope (the call fails, the body
    is not JSON or lacks the structure, or the text parses to something
    else or to nothing) the list is empty. *)
Theorem extract_all_items_returns_list
    (o : post_outcome) (o' : GeminiAgentServiceBackup.generate_outcome) :
  ((exists items, GeminiAgentService.extract_all_items o = Ok (PList items)) /\
   ((forall items, ~ answers_array o items) ->
    GeminiAgentService.extract_all_items o = Ok (PList []))) /\
  ((exists items, GeminiAgentServiceBackup.extract_all_items o' = Ok (PList items)) /\
   ((forall items, ~ generates_array o' items) ->
    GeminiAgentServiceBackup.extract_all_items o' = Ok (PList []))).
Proof.
  split; split.
  - apply extract_all_items_is_list.
  - apply no_array_gives_empty.
  - destruct (backup_extract_cases o') as [(items & _ & Hrun) | [_ Hrun]]; by eexists.
  - intros Hno.
    destruct (backup_extract_cases o') as [(items & Hgen & _) | [_ Hrun]]; [|done].
    by destruct (Hno items).
Qed.

End ExtractionTotal.

(** ** The summary and the pending approvals *)

Section Summary.
Context `{Runtime}.

Lemma count_cons (p : pyval -> bool) item items :
  count p (item :: items) = if p item then S (count p items) else count p items.
Proof.
  unfold count. rewrite filter_cons.
  destruct (p item); by case_decide.
Qed.

Lemma sum_1_if_count cond (p : pyval -> bool) items :
  Forall (fun item => cond item = Ok (p item)) items ->
  sum_1_if cond items = Ok (count p items).
Proof.
  induction 1 as [|item items Hitem _ IH]; [done|].
  simpl. rewrite Hitem. simpl. rewrite IH. simpl. by rewrite count_cons.
Qed.

Lemma py_eqb_field (d : pydict) key value :
  py_eqb (dict_get d key) (PStr value) = field_is (PDict d) key value.
Proof.
  unfold dict_get, field_is.
  by destruct (dict_lookup d key) as [[| | |f|s| |]|].
Qed.

Lemma is_successful_match_confident item : is_successful_match item = confident item.
Proof.
  destruct item as [| | | | | |d]; try done.
  unfold is_successful_match, confident, in_str_list. cbn [existsb].
  rewrite !py_eqb_field. by rewrite orb_false_r.
Qed.

Lemma needs_approval_has_confidence item : needs_approval item = has_confidence item.
Proof.
  destruct item as [| | | | | |d]; try done.
  unfold needs_approval, has_confidence, in_str_list. cbn [existsb].
  rewrite !py_eqb_field.
  by destruct (field_is _ _ "low"), (field_is _ _ "high"), (field_is _ _ "medium").
Qed.

Lemma knowledge_base_match_mentions item :
  has_text_reasoning item ->
  is_knowledge_base_match item = Ok (mentions_knowledge_base item).
Proof.
  intros (d & s & -> & Hs).
  unfold is_knowledge_base_match, mentions_knowledge_base, dict_get_default.
  by rewrite Hs.
Qed.

Lemma rule_classified_has_text_reasoning item :
  rule_classified item -> has_text_reasoning item.
Proof.
  intros (d & -> & _ & (s & Hs) & _)%classified_cases. by exists d, s.
Qed.

(** For an item of the rule engine, a confidence of "high" or "medium" is
    the mark of Rule 1. *)
Lemma rule_classified_confident item :
  rule_classified item ->
  confident item = field_is item "qa_classification_label" "1".
Proof.
  intros (d & -> & _ & _ & Hcases)%classified_cases.
  unfold confident, field_is.
  by destruct Hcases as [[-> ->] | [[-> ->] | [-> ->]]].
Qed.

Lemma rule_classified_has_confidence item :
  rule_classified item -> has_confidence item = true.
Proof.
  intros (d & -> & _ & _ & Hcases)%classified_cases.
  unfold has_confidence, field_is.
  by destruct Hcases as [[_ ->] | [[_ ->] | [_ ->]]].
Qed.

Lemma count_ext (p q : pyval -> bool) items :
  Forall (fun item => p item = q item) items -> count p items = count q items.
Proof.
  induction 1 as [|item items Heq _ IH]; [done|].
  by rewrite !count_cons, Heq, IH.
Qed.

(** All the items that the loop of the engine returns are items of the
    engine. *)
Lemma classify_all_rule_classified raw_items pn_set name_set items :
  classify_all raw_items pn_set name_set = Ok items -> Forall rule_classified items.
Proof.
  revert items. induction raw_items as [|raw rest IH]; intros items; simpl.
  - intros [= <-]. constructor.
  - destruct (_apply_classification_logic raw pn_set name_set) as [item|e] eqn:Eitem;
      simpl; [|done].
    destruct (classify_all rest pn_set name_set) as [items'|e]; simpl; [|done].
    intros [= <-]. constructor; [by exists raw, pn_set, name_set | by apply IH].
Qed.

(** C10: for a list of classified items the summary holds the number of
    items, the number of items of confidence "high" or "medium", the number
    of items whose reasoning mentions "knowledge_base" in any case, and the
    comparison mode it was given; for items that the rule engine classified,
    the second number is the number of Rule 1 items. *)
Theorem summary_counts (items : list pyval) (mode : string) :
  Forall has_text_reasoning items ->
  _generate_summary (PList items) mode =
    Ok (Summary (length items) (count confident items)
                (count mentions_knowledge_base items) mode) /\
  (Forall rule_classified items ->
   count confident items =
   count (fun item => field_is item "qa_classification_label" "1") items).
Proof.
  intros Htext. split.
  - unfold _generate_summary.
    rewrite (sum_1_if_count (fun item => Ok (is_successful_match item)) confident).
    2: { apply Forall_forall. intros item _. cbv beta.
         by rewrite is_successful_match_confident. }
    simpl. rewrite (sum_1_if_count is_knowledge_base_match mentions_knowledge_base);
      [done|].
    eapply Forall_impl; [exact Htext|]. apply knowledge_base_match_mentions.
  - intros Hrule. apply count_ext.
    eapply Forall_impl; [exact Hrule|]. apply rule_classified_confident.
Qed.

End Summary.

(** ** The orchestrator *)

Section Effects.

Lemma status_writes_app l1 l2 :
  status_writes (l1 ++ l2) = status_writes l1 ++ status_writes l2.
Proof. apply omap_app. Qed.

Lemma run_bind {A B} (m : M A) (k : A -> M B) w :
  (m ≫= k) w = match m w with
               | (Ok a, w') => k a w'
               | (Raise e, w') => (Raise e, w')
               end.
Proof. reflexivity. Qed.

Lemma quiet_refl w : quiet w w.
Proof. by split. Qed.

Lemma quiet_trans w1 w2 w3 : quiet w1 w2 -> quiet w2 w3 -> quiet w1 w3.
Proof. intros [? ?] [? ?]. split; congruence. Qed.

Lemma quiet_log_event ev w : not_status ev -> quiet w (log_event ev w).
Proof.
  intros Hev. split; [done|]. simpl. rewrite status_writes_app.
  destruct ev; simpl; try done; by rewrite app_nil_r.
Qed.

Section Preserves.
Variable R : world -> world -> Prop.
Hypothesis R_refl : forall w, R w w.
Hypothesis R_trans : forall w1 w2 w3, R w1 w2 -> R w2 w3 -> R w1 w3.

Lemma preserves_ret {A} (a : A) : preserves R (mret a : M A).
Proof. intros w. apply R_refl. Qed.

Lemma preserves_pure {A} (r : result A) : preserves R (pure r).
Proof. intros w. apply R_refl. Qed.

Lemma preserves_bind {A B} (m : M A) (k : A -> M B) :
  preserves R m -> (forall a, preserves R (k a)) -> preserves R (m ≫= k).
Proof.
  intros Hm Hk w. rewrite run_bind. specialize (Hm w).
  destruct (m w) as [[a|e] w1]; simpl in *; [|done].
  eapply R_trans; [exact Hm | apply Hk].
Qed.

End Preserves.

Lemma quiet_call {A} ev (outcome : result A) :
  not_status ev -> preserves quiet (call ev outcome).
Proof. intros Hev w. by apply quiet_log_event. Qed.

Lemma quiet_attempt ev failure (effect : world -> world) :
  not_status ev ->
  (forall w, workflows (effect w) = workflows w /\ trace (effect w) = trace w) ->
  preserves quiet (attempt ev failure effect).
Proof.
  intros Hev Heffect w. unfold attempt.
  destruct failure as [e|]; simpl; [by apply quiet_log_event|].
  destruct (Heffect (log_event ev w)) as [Hw Ht].
  eapply quiet_trans; [by apply quiet_log_event|].
  split; [done | by rewrite Ht].
Qed.

Lemma quiet_parse_item_master_if item_path outcome :
  preserves quiet (parse_item_master_if item_path outcome).
Proof.
  unfold parse_item_master_if.
  destruct item_path as [p|]; [destruct (negb (String.eqb p ""))|];
    try (apply preserves_ret; apply quiet_refl).
  by apply quiet_call.
Qed.

Lemma quiet_save_workflow_results env wid results summary :
  preserves quiet (_save_workflow_results env wid results summary).
Proof.
  unfold _save_workflow_results.
  apply preserves_bind; [apply quiet_trans| |intros _; by apply quiet_attempt].
  intros w. unfold write_file.
  destruct (env_write_results_file env) as [[| |]|]; simpl;
    split; try done; simpl; rewrite status_writes_app; simpl; by rewrite app_nil_r.
Qed.

Lemma quiet_create_pending_from env wid matches k :
  preserves quiet (create_pending_from env wid matches k).
Proof.
  revert k. induction matches as [|item rest IH]; intros k; simpl.
  - apply preserves_ret, quiet_refl.
  - apply preserves_bind; [apply quiet_trans| |intros _; apply IH].
    destruct (needs_approval item); [by apply quiet_attempt|].
    apply preserves_ret, quiet_refl.
Qed.

Lemma wrote_refl wid w : wrote wid [] w w.
Proof. split; [by rewrite app_nil_r | done]. Qed.

Lemma wrote_quiet wid writes w1 w2 w3 :
  wrote wid writes w1 w2 -> quiet w2 w3 -> wrote wid writes w1 w3.
Proof. intros [? ?] [? ?]. split; congruence. Qed.

Lemma wrote_update wid writes w1 w2 status progress stage message :
  wrote wid writes w1 w2 ->
  wrote wid (writes ++ [StatusWrite wid status progress stage message]) w1
    (snd (update_workflow_status wid status progress stage message w2)).
Proof.
  intros [Ht Hw]. split; simpl.
  - rewrite status_writes_app, Ht. simpl. by rewrite <- app_assoc.
  - unfold after_writes. rewrite foldl_snoc. by rewrite Hw.
Qed.

End Effects.

Section Pipeline.
Context `{Runtime}.

Ltac quiet_step Hrun Hw lemma :=
  rewrite run_bind in Hrun;
  match type of Hrun with
  | match ?m ?w0 with _ => _ end = _ =>
      let Hq := fresh "Hq" in
      assert (Hq : quiet w0 (snd (m w0))) by (apply lemma; done);
      destruct (m w0) as [[?|?] ?]; simpl in Hq;
      apply (fun Hw' => wrote_quiet _ _ _ _ _ Hw' Hq) in Hw; clear Hq
  end.

Ltac update_step Hrun Hw :=
  rewrite run_bind in Hrun;
  match type of Hrun with
  | match update_workflow_status ?wid ?st ?p ?sg ?msg ?w0 with _ => _ end = _ =>
      apply (wrote_update _ _ _ _ st p sg msg) in Hw;
      cbn [update_workflow_status snd] in Hrun, Hw;
      match type of Hw with
      | wrote _ _ _ ?w1 => let w := fresh "w" in set (w := w1) in *; clearbody w
      end;
      simpl in Hw
  end.

Ltac failed Hrun Hw :=
  injection Hrun as <- <-; eexists; split; [exact Hw|]; auto.

(** The status writes of the [try] block: all four when it goes through;
    the first, or the first three, when it raises. *)
Lemma pipeline_run env wid wi_path item_path mode w r w' :
  pipeline env wid wi_path item_path mode w = (r, w') ->
  exists writes, wrote wid writes w w' /\
    match r with
    | Ok _ => writes = [write_extracting wid; write_translating wid;
                        write_classifying wid; write_completed wid]
    | Raise _ => writes = [write_extracting wid] \/
                 writes = [write_extracting wid; write_translating wid;
                           write_classifying wid]
    end.
Proof.
  intros Hrun. unfold pipeline in Hrun.
  pose proof (wrote_refl wid w) as Hw.
  update_step Hrun Hw.
  quiet_step Hrun Hw (@quiet_call pyval); [|failed Hrun Hw].
  quiet_step Hrun Hw quiet_parse_item_master_if; [|failed Hrun Hw].
  update_step Hrun Hw.
  match type of Hrun with
  | context [TranslationService.translate_to_english ?text ?o] =>
      destruct (translate_returns text o) as [translated Htranslated];
      rewrite Htranslated in Hrun
  end.
  rewrite run_bind in Hrun. cbn [call] in Hrun.
  eapply wrote_quiet in Hw; [|by eapply (quiet_log_event EvTranslate)].
  update_step Hrun Hw.
  quiet_step Hrun Hw quiet_parse_item_master_if; [|failed Hrun Hw].
  quiet_step Hrun Hw (@quiet_call (list pyval)); [|failed Hrun Hw].
  quiet_step Hrun Hw (@preserves_pure quiet quiet_refl summary); [|failed Hrun Hw].
  quiet_step Hrun Hw quiet_save_workflow_results; [|failed Hrun Hw].
  quiet_step Hrun Hw quiet_create_pending_from; [|failed Hrun Hw].
  apply (wrote_update _ _ _ _ "completed" (Some 100) (Some "completed")
           (Some "Processing completed successfully")) in Hw.
  cbn [update_workflow_status snd] in Hrun, Hw.
  injection Hrun as <- <-. eexists. split; [exact Hw|]. done.
Qed.

End Pipeline.

Section PipelineOutcome.
Context `{Runtime}.

Lemma after_writes_lookup wid writes (table : gmap string workflow) :
  after_writes wid writes table !! wid =
  (fun row => foldl (fun row sw => apply_status_write sw row) row writes) <$> table !! wid.
Proof.
  revert table. induction writes as [|sw writes IH]; intros table; simpl.
  - by destruct (table !! wid).
  - rewrite IH, lookup_alter_eq. by destruct (table !! wid).
Qed.

Lemma after_writes_snoc wid writes sw (table : gmap string workflow) :
  after_writes wid (writes ++ [sw]) table =
  alter (apply_status_write sw) wid (after_writes wid writes table).
Proof. unfold after_writes. by rewrite foldl_snoc. Qed.

(** The run and its handler: where the [try] block raised, the task ends
    in the world of the failure plus the error write. *)
Lemma process_after_failure env wid wi_path item_path mode w e w' :
  pipeline env wid wi_path item_path mode w = (Raise e, w') ->
  _process_workflow_async env wid wi_path item_path mode w =
  snd (on_failure wid e w').
Proof.
  intros Hrun. unfold _process_workflow_async, try_except_M. by rewrite Hrun.
Qed.

Lemma process_after_success env wid wi_path item_path mode w u w' :
  pipeline env wid wi_path item_path mode w = (Ok u, w') ->
  _process_workflow_async env wid wi_path item_path mode w = w'.
Proof.
  intros Hrun. unfold _process_workflow_async, try_except_M. by rewrite Hrun.
Qed.

(** C4: when a stage of the pipeline raises, the task ends with the status
    "error" and the message "Processing failed: " followed by the text of
    the exception; the error write is the only thing that happens after the
    failure (no later stage runs, nothing is tried again); and the results
    files, the result rows and the pending approvals are those of the
    moment of the failure (nothing is rolled back). *)
Theorem failure_ends_in_error env wid wi_path item_path mode w e w' :
  pipeline env wid wi_path item_path mode w = (Raise e, w') ->
  let final := _process_workflow_async env wid wi_path item_path mode w in
  trace final = trace w' ++ [EvStatus (write_error wid e)] /\
  last_status (status_writes (trace final)) = Some "error" /\
  (forall row0, workflows w !! wid = Some row0 ->
     exists row, workflows final !! wid = Some row /\
       wf_status row = "error" /\
       wf_message row = "Processing failed: " +:+ exc_str e) /\
  results_files final = results_files w' /\
  workflow_results final = workflow_results w' /\
  pending_approvals final = pending_approvals w'.
Proof.
  intros Hrun final. unfold final.
  rewrite (process_after_failure _ _ _ _ _ _ _ _ Hrun).
  destruct (pipeline_run _ _ _ _ _ _ _ _ Hrun) as (writes & [_ Htable] & _).
  unfold on_failure. simpl. repeat split.
  - unfold last_status. rewrite status_writes_app. simpl. by rewrite last_snoc.
  - intros row0 Hrow0. rewrite lookup_alter_eq, Htable, after_writes_lookup, Hrow0.
    simpl. by eexists.
Qed.

End PipelineOutcome.

Section Progress.
Context `{Runtime}.

Ltac each_prefix Hk :=
  repeat match type of Hk with
         | _ :: _ = ?seen ++ _ =>
             destruct seen as [|? seen]; simpl in Hk; [|injection Hk as <- Hk]
         | [] = ?seen ++ _ =>
             destruct seen; [|discriminate Hk]
         end.

Ltac check_progress :=
  unfold progress_consistent, non_decreasing, last_progress, last_status; simpl;
  repeat split; try done; try (intros [?|?]; done);
  repeat (constructor; try lia).

(** Whatever part of the status writes of a run has been seen, the
    progress is consistent with the status. *)
Lemma progress_consistent_prefix wid e (writes seen : list status_write) :
  writes = [write_extracting wid; write_translating wid;
            write_classifying wid; write_completed wid] \/
  writes = [write_extracting wid; write_error wid e] \/
  writes = [write_extracting wid; write_translating wid;
            write_classifying wid; write_error wid e] ->
  seen `prefix_of` writes ->
  seen <> [] ->
  progress_consistent seen.
Proof.
  intros Hshape [k Hk] Hne.
  destruct Hshape as [-> | [-> | ->]]; each_prefix Hk; try done; check_progress.
Qed.

(** C5: the status writes of a run of the task are writes of the pipeline
    for its workflow, with the progress values 10, 30, 50 and 100 in this
    order; at every moment of the run the progress values written so far
    never go down, the last one is 100 exactly when the status written last
    is "completed", and all of them are below 100 as long as that status is
    "processing" or once it is "error".  The row of the workflow is what
    these writes make of it. *)
Theorem progress_never_decreases env wid wi_path item_path mode w :
  let final := _process_workflow_async env wid wi_path item_path mode w in
  exists writes,
    status_writes (trace final) = status_writes (trace w) ++ writes /\
    workflows final = after_writes wid writes (workflows w) /\
    Forall (pipeline_write wid) writes /\
    progress_written writes `prefix_of` [10; 30; 50; 100] /\
    forall seen, seen `prefix_of` writes -> seen <> [] -> progress_consistent seen.
Proof.
  intros final. unfold final.
  destruct (pipeline env wid wi_path item_path mode w) as [[u|e] w'] eqn:Hrun.
  - rewrite (process_after_success _ _ _ _ _ _ _ _ Hrun).
    destruct (pipeline_run _ _ _ _ _ _ _ _ Hrun) as (writes & [Htrace Htable] & ->).
    eexists. split; [exact Htrace|]. split; [exact Htable|].
    split; [|split].
    + repeat first [apply Forall_nil_2 | apply Forall_cons_2];
        unfold pipeline_write; auto.
    + by exists [].
    + intros seen Hpre Hne.
      eapply (progress_consistent_prefix wid (Exn OtherException ""));
        [|exact Hpre|exact Hne]; auto.
  - rewrite (process_after_failure _ _ _ _ _ _ _ _ Hrun).
    destruct (pipeline_run _ _ _ _ _ _ _ _ Hrun) as (writes & Hwrote & Hshape).
    apply (wrote_update _ _ _ _ "error" None None
             (Some ("Processing failed: " +:+ exc_str e))) in Hwrote.
    destruct Hwrote as [Htrace Htable].
    exists (writes ++ [write_error wid e]).
    split; [exact Htrace|]. split; [exact Htable|].
    destruct Hshape as [-> | ->]; simpl.
    + split; [|split].
      * repeat first [apply Forall_nil_2 | apply Forall_cons_2];
          unfold pipeline_write; eauto 10.
      * by exists [30; 50; 100].
      * intros seen Hpre Hne.
        eapply (progress_consistent_prefix wid e); [|exact Hpre|exact Hne]; auto.
    + split; [|split].
      * repeat first [apply Forall_nil_2 | apply Forall_cons_2];
          unfold pipeline_write; eauto 10.
      * by exists [100].
      * intros seen Hpre Hne.
        eapply (progress_consistent_prefix wid e); [|exact Hpre|exact Hne]; auto.
Qed.

End Progress.

Section PendingApprovals.
Context `{Runtime}.

Lemma create_pending_from_adds env wid items k w :
  (forall j, env_add_pending env j = None) ->
  exists w',
    create_pending_from env wid items k w = (Ok tt, w') /\
    pending_approvals w' =
      pending_approvals w ++
      map (new_pending wid) (filter (fun item => has_confidence item = true) items) /\
    workflows w' = workflows w /\
    results_files w' = results_files w /\
    workflow_results w' = workflow_results w.
Proof.
  intros Hadd. revert k w. induction items as [|item items IH]; intros k w; simpl.
  - exists w. by rewrite app_nil_r.
  - rewrite run_bind, filter_cons, <- needs_approval_has_confidence.
    destruct (needs_approval item) eqn:Eneeds.
    + unfold attempt. rewrite Hadd.
      edestruct IH as (w' & -> & Hpending & Htable & Hfiles & Hrows).
      exists w'. split; [done|]. rewrite Hpending. simpl.
      by rewrite <- app_assoc.
    + simpl. edestruct IH as (w' & -> & Hpending & Hrest).
      exists w'. split; [done|]. by rewrite Hpending.
Qed.

Lemma filter_all (p : pyval -> bool) (items : list pyval) :
  Forall (fun item => p item = true) items ->
  filter (fun item => p item = true) items = items.
Proof.
  induction 1 as [|item items Hitem _ IH]; [done|].
  by rewrite filter_cons, decide_True, IH.
Qed.

(** C8: when the store takes every insert, [_create_pending_approvals]
    adds to the pending approvals exactly one pending record of the
    workflow for each item whose confidence is "low", "medium" or "high",
    in the order of the items, and touches no other table; for items that
    the rule engine classified, that is one record for every item. *)
Theorem one_pending_approval_per_item env wid (items : list pyval) w :
  (forall k, env_add_pending env k = None) ->
  exists w',
    _create_pending_approvals env wid items w = (Ok tt, w') /\
    pending_approvals w' =
      pending_approvals w ++
      map (new_pending wid) (filter (fun item => has_confidence item = true) items) /\
    workflows w' = workflows w /\
    results_files w' = results_files w /\
    workflow_results w' = workflow_results w /\
    (Forall rule_classified items ->
     pending_approvals w' = pending_approvals w ++ map (new_pending wid) items).
Proof.
  intros Hadd. unfold _create_pending_approvals.
  destruct (create_pending_from_adds env wid items 0%nat w Hadd)
    as (w' & Hrun & Hpending & Htable & Hfiles & Hrows).
  exists w'. repeat split; try done.
  intros Hrule. rewrite Hpending, filter_all; [done|].
  eapply Forall_impl; [exact Hrule|]. apply rule_classified_has_confidence.
Qed.

End PendingApprovals.

(** ** The upload endpoint *)

Section Upload.

(** C9: a submission with the comparison mode "full" and no item master is
    answered at once with an [HTTPException] of status 400; the answer
    carries no workflow identifier, and the world is the one before the
    request: no workflow row, no file, no task, no effect at all. *)
Theorem full_mode_requires_item_master env uuid wi_document w :
  (exists detail,
     Api.upload_documents env uuid wi_document None "full" w =
       (Api.HTTPException 400 detail, w)) /\
  forall wi,
    Api.upload_documents env uuid (Some wi) None "full" w =
      (Api.HTTPException 400 "Item Master is required for full comparison mode", w).
Proof.
  unfold Api.upload_documents. split; [|done].
  destruct wi_document as [wi|]; by eexists.
Qed.

End Upload.

(** ** The theorems at work on examples *)

Section Witnesses.
Import Examples.

Lemma translation_fails_open_witness :
  (upstream_fails gateway_down \/ unparseable gateway_down) /\
  TranslationService.translate_to_english (PStr "作業手順") gateway_down
  = Ok (PStr "作業手順").
Proof.
  assert (Hfails : upstream_fails gateway_down \/ unparseable gateway_down)
    by (left; exact I).
  split; [exact Hfails|].
  exact (proj2 (translation_fails_open (PStr "作業手順") gateway_down) Hfails).
Defined.

Lemma extract_all_items_returns_list_witness :
  (forall items, ~ answers_array gateway_down items) /\
  (forall items,
     ~ generates_array (GeminiAgentServiceBackup.GenerateReturns (Ok "{}")) items) /\
  GeminiAgentService.extract_all_items gateway_down = Ok (PList []) /\
  GeminiAgentServiceBackup.extract_all_items
    (GeminiAgentServiceBackup.GenerateReturns (Ok "{}")) = Ok (PList []).
Proof.
  assert (H1 : forall items, ~ answers_array gateway_down items)
    by (intros items (r & raw & answer & Hdown & _); discriminate Hdown).
  assert (H2 : forall items,
             ~ generates_array (GeminiAgentServiceBackup.GenerateReturns (Ok "{}")) items).
  { intros items (answer & Heq & Hparse). injection Heq as <-.
    vm_compute in Hparse. discriminate Hparse. }
  split; [exact H1|]. split; [exact H2|].
  pose proof (extract_all_items_returns_list gateway_down
                (GeminiAgentServiceBackup.GenerateReturns (Ok "{}"))) as [[_ Ha] [_ Hb]].
  split; [exact (Ha H1) | exact (Hb H2)].
Defined.

Lemma summary_counts_witness :
  Forall has_text_reasoning [item_registered] /\
  _generate_summary (PList [item_registered]) "full" = Ok (Summary 1 1 0 "full") /\
  (Forall rule_classified [item_registered] ->
   count confident [item_registered] =
   count (fun item => field_is item "qa_classification_label" "1") [item_registered]).
Proof.
  assert (Htext : Forall has_text_reasoning [item_registered]).
  { constructor; [|constructor].
    eexists _, "Match to BOM & Item Master Data". split; reflexivity. }
  split; [exact Htext|].
  exact (summary_counts [item_registered] "full" Htext).
Defined.

Lemma one_pending_approval_per_item_witness :
  (forall k, env_add_pending env_all_fine k = None) /\
  exists w',
    _create_pending_approvals env_all_fine "wf-1" [item_registered] world_queued
    = (Ok tt, w') /\
    pending_approvals w' = [new_pending "wf-1" item_registered].
Proof.
  assert (Hadd : forall k, env_add_pending env_all_fine k = None)
    by (intros k; reflexivity).
  split; [exact Hadd|].
  destruct (one_pending_approval_per_item env_all_fine "wf-1" [item_registered]
              world_queued Hadd) as (w' & Hrun & Hpending & _).
  exists w'. split; [exact Hrun|]. exact Hpending.
Defined.

Lemma failure_ends_in_error_witness :
  locked_run = (Raise (Exn DatabaseError "database is locked"), snd locked_run) /\
  is_Some (results_files (snd locked_run) !! "wf-1") /\
  results_files locked_final = results_files (snd locked_run) /\
  trace locked_final =
    trace (snd locked_run) ++
    [EvStatus (write_error "wf-1" (Exn DatabaseError "database is locked"))] /\
  last_status (status_writes (trace locked_final)) = Some "error".
Proof.
  assert (Hrun : locked_run
                 = (Raise (Exn DatabaseError "database is locked"), snd locked_run))
    by (vm_compute; reflexivity).
  split; [exact Hrun|].
  split; [vm_compute; eexists; reflexivity|].
  pose proof (failure_ends_in_error env_database_locked "wf-1" "uploads/wf-1/wi.pdf"
                None "kb_only" world_queued _ _ Hrun) as (Htrace & Hstatus & _ & Hfiles & _).
  split; [exact Hfiles|]. split; [exact Htrace | exact Hstatus].
Defined.

Lemma progress_never_decreases_witness :
  exists writes,
    status_writes
      (trace (_process_workflow_async env_all_fine "wf-1" "uploads/wf-1/wi.pdf" None
                "kb_only" world_queued))
    = status_writes (trace world_queued) ++ writes /\
    progress_written writes `prefix_of` [10; 30; 50; 100] /\
    forall seen, seen `prefix_of` writes -> seen <> [] -> progress_consistent seen.
Proof.
  destruct (progress_never_decreases env_all_fine "wf-1" "uploads/wf-1/wi.pdf" None
              "kb_only" world_queued) as (writes & Htrace & _ & _ & Hprogress & Hseen).
  exists writes. split; [exact Htrace|]. split; [exact Hprogress | exact Hseen].
Defined.

End Witnesses.

(** * Further properties of the code *)

(** ** The classification engine, beyond the three rules *)

Section ClassificationMore.

Lemma classify_dict_inv item pn_set name_set out :
  _apply_classification_logic item pn_set name_set = Ok out ->
  exists d pn_match name_match,
    item = PDict d /\
    and_in_set (dict_get d "part_number") pn_set = Ok pn_match /\
    and_in_set (dict_get d "material_name") name_set = Ok name_match /\
    out = PDict (if pn_match && qty_present (dict_get d "qty")
                 then dict_update (dict_update d default_fields) rule1_fields
                 else if negb pn_match && name_match
                      then dict_update (dict_update d default_fields) rule4_fields
                      else dict_update d default_fields).
Proof.
  unfold _apply_classification_logic.
  destruct item as [| | | | | |d]; try done.
  cbn [py_get mbind result_bind].
  destruct (and_in_set (dict_get d "part_number") pn_set) as [pn_match|] eqn:Epn; [|done].
  destruct (and_in_set (dict_get d "material_name") name_set) as [name_match|] eqn:Ename;
    [|done].
  cbn [mbind result_bind]. cbv zeta. intros Hout.
  exists d, pn_match, name_match. do 3 (split; [done|]).
  destruct (pn_match && qty_present (dict_get d "qty"));
    [|destruct (negb pn_match && name_match)]; by injection Hout as <-.
Qed.

(** X1: whenever the engine returns, the item is a dict and the result is
    that dict enriched with one of three sets of fields: those of Rule 1,
    those of Rule 4, or the default ones. *)
Theorem classification_outcomes item pn_set name_set out :
  _apply_classification_logic item pn_set name_set = Ok out ->
  exists d, item = PDict d /\
    (enriched d out "1" "high" "Match to BOM & Item Master Data" "🟢 Auto-Register" \/
     enriched d out "4" "low" "Check for text match in master data"
       "🔴 Human Intervention Required" \/
     enriched d out "5" "low" "No match found" "🔴 Human Intervention Required").
Proof.
  intros (d & pn_match & name_match & -> & _ & _ & ->)%classify_dict_inv.
  exists d. split; [done|].
  destruct (pn_match && qty_present (dict_get d "qty")).
  - left. apply enriched_rule1.
  - destruct (negb pn_match && name_match).
    + right; left. apply enriched_rule4.
    + right; right. apply enriched_default.
Qed.

Lemma and_in_set_unsafe x (s : pyset) :
  ~ lookup_safe x -> exists msg, and_in_set x s = Raise (Exn TypeError msg).
Proof.
  unfold lookup_safe, and_in_set, set_contains. intros Hunsafe.
  destruct (truthy x); [|by destruct Hunsafe].
  destruct (hashable x); [by destruct Hunsafe|]. by eexists.
Qed.

Lemma and_in_set_ok_safe x (s : pyset) b : and_in_set x s = Ok b -> lookup_safe x.
Proof.
  unfold lookup_safe, and_in_set, set_contains. intros Hok Ht. rewrite Ht in Hok.
  by destruct (hashable x).
Qed.

(** X2: the engine returns exactly on a dict whose part number and
    material name are not non-empty lists or objects; on anything that is
    not a dict it raises [AttributeError], and on a dict with such a field
    it raises [TypeError]. *)
Theorem classification_returns_iff item pn_set name_set :
  ((exists out, _apply_classification_logic item pn_set name_set = Ok out) <->
   exists d, item = PDict d /\
     lookup_safe (dict_get d "part_number") /\
     lookup_safe (dict_get d "material_name")) /\
  (is_dict_value item = false ->
   exists msg, _apply_classification_logic item pn_set name_set
               = Raise (Exn AttributeError msg)) /\
  (forall d, item = PDict d ->
     ~ lookup_safe (dict_get d "part_number") \/
     ~ lookup_safe (dict_get d "material_name") ->
     exists msg, _apply_classification_logic item pn_set name_set
                 = Raise (Exn TypeError msg)).
Proof.
  split; [split|split].
  - intros [out (d & pn_match & name_match & -> & Hpn & Hname & _)%classify_dict_inv].
    exists d. split; [done|]. split; by eapply and_in_set_ok_safe.
  - intros (d & -> & Hpn & Hname). rewrite classify_safe by done. by eexists.
  - destruct item; try done; intros _; by eexists.
  - intros d -> Hunsafe. unfold _apply_classification_logic. simpl.
    destruct (and_in_set (dict_get d "part_number") pn_set) as [pn_match|e] eqn:Epn.
    + destruct Hunsafe as [Hunsafe | Hunsafe].
      * destruct (and_in_set_unsafe _ pn_set Hunsafe) as [msg Hmsg]. congruence.
      * simpl. destruct (and_in_set_unsafe _ name_set Hunsafe) as [msg ->]. by eexists.
    + simpl. unfold and_in_set, set_contains in Epn.
      destruct (truthy _); [|done]. destruct (hashable _); [done|].
      injection Epn as <-. by eexists.
Qed.

End ClassificationMore.

Section Reclassification.

Lemma dict_set_set (d : pydict) k v v' :
  dict_set (dict_set d k v) k v' = dict_set d k v'.
Proof.
  induction d as [|[k0 v0] d IH]; simpl.
  - by rewrite String.eqb_refl.
  - destruct (String.eqb k0 k) eqn:E; simpl; rewrite E; [done | by rewrite IH].
Qed.

Lemma dict_set_comm_present (d : pydict) k k' v v' :
  dict_lookup d k <> None ->
  k <> k' ->
  dict_set (dict_set d k' v') k v = dict_set (dict_set d k v) k' v'.
Proof.
  intros Hpresent Hne. induction d as [|[k0 v0] d IH]; simpl in *; [done|].
  destruct (String.eqb k0 k) eqn:Ek, (String.eqb k0 k') eqn:Ek'; simpl;
    rewrite ?Ek, ?Ek'; try done.
  - apply String.eqb_eq in Ek, Ek'. congruence.
  - by rewrite IH.
Qed.

Ltac present := simpl; repeat first [ rewrite dict_lookup_set_eq
                                   | rewrite dict_lookup_set_ne by discriminate ]; done.

(** Writing the four classification fields over a dict that has them
    already leaves what the second writing alone would have left. *)
Lemma fields_absorb (d : pydict) v1 v2 v3 v4 u1 u2 u3 u4 :
  dict_update
    (dict_update d [("qa_classification_label", v1); ("qa_confidence_level", v2);
                    ("reasoning", v3); ("action_path", v4)])
    [("qa_classification_label", u1); ("qa_confidence_level", u2);
     ("reasoning", u3); ("action_path", u4)]
  = dict_update d [("qa_classification_label", u1); ("qa_confidence_level", u2);
                   ("reasoning", u3); ("action_path", u4)].
Proof.
  unfold dict_update. simpl.
  rewrite (dict_set_comm_present _ "qa_classification_label" "action_path")
    by (present || discriminate).
  rewrite (dict_set_comm_present _ "qa_classification_label" "reasoning")
    by (present || discriminate).
  rewrite (dict_set_comm_present _ "qa_classification_label" "qa_confidence_level")
    by (present || discriminate).
  rewrite dict_set_set.
  rewrite (dict_set_comm_present _ "qa_confidence_level" "action_path")
    by (present || discriminate).
  rewrite (dict_set_comm_present _ "qa_confidence_level" "reasoning")
    by (present || discriminate).
  rewrite dict_set_set.
  rewrite (dict_set_comm_present _ "reasoning" "action_path")
    by (present || discriminate).
  rewrite dict_set_set.
  by rewrite dict_set_set.
Qed.

Lemma classified_keeps_field (d : pydict) (fields : pydict) k :
  Forall (fun kv => fst kv <> k) fields ->
  dict_get (dict_update d fields) k = dict_get d k.
Proof. intros Hk. unfold dict_get. by rewrite other_key_untouched. Qed.

Ltac input_field :=
  rewrite !classified_keeps_field
    by (repeat constructor; simpl; discriminate).

(** X3: classifying again an item that the engine returned gives the same
    item back: the fields it reads are not the fields it writes, and it
    overwrites its own fields in place. *)
Theorem classification_idempotent item pn_set name_set out :
  _apply_classification_logic item pn_set name_set = Ok out ->
  _apply_classification_logic out pn_set name_set = Ok out.
Proof.
  intros (d & pn_match & name_match & -> & Hpn & Hname & ->)%classify_dict_inv.
  destruct (pn_match && qty_present (dict_get d "qty")) eqn:E1;
    [|destruct (negb pn_match && name_match) eqn:E2];
    unfold _apply_classification_logic; cbn [py_get mbind result_bind]; cbv zeta;
    input_field; rewrite Hpn, Hname; cbn [mbind result_bind]; rewrite E1, ?E2;
    unfold default_fields, rule1_fields, rule4_fields; by rewrite !fields_absorb.
Qed.

End Reclassification.

Section ClassificationEdges.

(** X4: a part number that is in the item master does not help an item
    without a quantity, and it blocks Rule 4: such an item gets the default
    classification, whether or not its material name is in the item
    master. *)
Theorem matched_part_number_without_quantity rows (pn_set name_set : pyset)
    (d : pydict) pn :
  item_master_sets rows pn_set name_set ->
  dict_lookup d "part_number" = Some pn ->
  member pn pn_set ->
  ~ has_quantity d ->
  lookup_safe (dict_get d "material_name") ->
  exists out,
    _apply_classification_logic (PDict d) pn_set name_set = Ok out /\
    enriched d out "5" "low" "No match found" "🔴 Human Intervention Required".
Proof.
  intros Hsets Hpn Hin Hqty Hname.
  destruct (item_master_sets_truthy _ _ _ Hsets) as [Htruthy _].
  assert (Hget : dict_get d "part_number" = pn) by (unfold dict_get; by rewrite Hpn).
  rewrite classify_safe; [|rewrite Hget; intros _; by eapply member_hashable|done].
  cbv zeta. rewrite Hget.
  rewrite (member_truthy _ _ Htruthy Hin), (proj2 (existsb_member _ _) Hin).
  destruct (qty_present (dict_get d "qty")) eqn:Eq;
    [by apply qty_present_iff in Eq|].
  simpl. eexists. split; [done|]. apply enriched_default.
Qed.

Lemma classify_empty_sets item out :
  _apply_classification_logic item [] [] = Ok out ->
  exists d, item = PDict d /\ out = PDict (dict_update d default_fields).
Proof.
  intros (d & pn_match & name_match & -> & Hpn & Hname & ->)%classify_dict_inv.
  exists d. split; [done|].
  assert (pn_match = false) as ->.
  { unfold and_in_set, set_contains in Hpn.
    destruct (truthy _); [destruct (hashable _)|]; by simplify_eq/=. }
  assert (name_match = false) as ->.
  { unfold and_in_set, set_contains in Hname.
    destruct (truthy _); [destruct (hashable _)|]; by simplify_eq/=. }
  done.
Qed.

Lemma default_fields_unmatched (d : pydict) :
  unmatched (PDict (dict_update d default_fields)).
Proof.
  unfold unmatched, field_is, default_fields, dict_update. simpl.
  repeat first [ rewrite dict_lookup_set_eq
               | rewrite dict_lookup_set_ne by discriminate ].
  done.
Qed.

Lemma classify_all_empty_sets raw_items items :
  classify_all raw_items [] [] = Ok items -> Forall unmatched items.
Proof.
  revert items. induction raw_items as [|raw rest IH]; intros items; simpl.
  - intros [= <-]. constructor.
  - destruct (_apply_classification_logic raw [] []) as [item|e] eqn:Eitem; simpl; [|done].
    destruct (classify_all rest [] []) as [items'|e]; simpl; [|done].
    intros [= <-].
    apply classify_empty_sets in Eitem as (d & -> & ->).
    constructor; [apply default_fields_unmatched | by apply IH].
Qed.

Lemma unmatched_not_confident item : unmatched item -> confident item = false.
Proof.
  intros (_ & Hlow & _). unfold confident, field_is in *.
  destruct item as [| | | | | |d]; try done.
  destruct (dict_lookup d "qa_confidence_level") as [[| | | |s| |]|]; try done.
  apply String.eqb_eq in Hlow. by subst.
Qed.

Lemma unmatched_has_text_reasoning item : unmatched item -> has_text_reasoning item.
Proof.
  intros (_ & _ & Hreason). unfold field_is in Hreason.
  destruct item as [| | | | | |d]; try done.
  destruct (dict_lookup d "reasoning") as [[| | | |s| |]|] eqn:E; try done.
  by exists d, s.
Qed.

Lemma count_none (p : pyval -> bool) items :
  Forall (fun item => p item = false) items -> count p items = 0%nat.
Proof.
  induction 1 as [|item items Hitem _ IH]; [done|].
  by rewrite count_cons, Hitem.
Qed.

(** X5: without an item master every item that the agent extracts gets the
    default classification (label "5", confidence "low", "No match found"),
    and the summary of the run counts no successful match. *)
Theorem no_item_master_no_match `{Runtime} (o : post_outcome) (mode : string) items :
  _extract_and_classify_items o (PList []) = Ok items ->
  Forall unmatched items /\
  exists kb, _generate_summary (PList items) mode = Ok (Summary (length items) 0 kb mode).
Proof.
  unfold _extract_and_classify_items.
  destruct (extract_all_items_is_list o) as [raw_items ->]. simpl.
  intros Hall%classify_all_empty_sets. split; [done|].
  exists (count mentions_knowledge_base items).
  unfold _generate_summary.
  rewrite (sum_1_if_count (fun item => Ok (is_successful_match item)) confident).
  2: { apply Forall_forall. intros item _. cbv beta.
       by rewrite is_successful_match_confident. }
  simpl. rewrite (sum_1_if_count is_knowledge_base_match mentions_knowledge_base).
  2: { eapply Forall_impl; [exact Hall|]. intros item Hitem.
       by apply knowledge_base_match_mentions, unmatched_has_text_reasoning. }
  simpl. rewrite count_none; [done|].
  eapply Forall_impl; [exact Hall|]. apply unmatched_not_confident.
Qed.

End ClassificationEdges.

(** ** The sets of the item master and the loop over the items *)

Section ItemMasterSets.

Lemma dyadic_eqb_refl m e : dyadic_eqb m e m e = true.
Proof. unfold dyadic_eqb. apply Z.eqb_refl. Qed.

(** Every hashable value but a NaN equals itself. *)
Lemma py_eqb_refl v : hashable v = true -> v <> PFloat FNaN -> py_eqb v v = true.
Proof.
  destruct v as [|b|z|f|s|l|d]; simpl; try done; intros _ Hnan;
    try apply dyadic_eqb_refl.
  - destruct f as [|neg|m e]; simpl; [done| |apply dyadic_eqb_refl]. by destruct neg.
  - apply String.eqb_refl.
Qed.

Lemma member_mono v (s s' : pyset) : s ⊆ s' -> member v s -> member v s'.
Proof. intros Hsub (e & He & Heq). exists e. split; [by apply Hsub | done]. Qed.

Lemma set_add_inv (acc acc' : pyset) v :
  set_add acc v = Ok acc' ->
  hashable v = true /\ acc ⊆ acc' /\ acc' ⊆ acc ++ [v] /\
  (v <> PFloat FNaN -> member v acc').
Proof.
  unfold set_add, set_contains.
  destruct (hashable v) eqn:Eh; simpl; [|done].
  destruct (existsb (py_eqb v) acc) eqn:Ein; intros [= <-].
  - split; [done|]. split; [done|]. split; [set_solver|].
    intros _. by apply existsb_member.
  - split; [done|]. split; [set_solver|]. split; [done|].
    intros Hnan. exists v. split; [set_solver | by apply py_eqb_refl].
Qed.

Lemma set_of_field_spec key rows (acc s : pyset) :
  set_of_field key rows acc = Ok s ->
  (forall e, e ∈ s ->
     e ∈ acc \/
     (truthy e = true /\ hashable e = true /\
      exists d, PDict d ∈ rows /\ dict_lookup d key = Some e)) /\
  acc ⊆ s /\
  (forall d v, PDict d ∈ rows -> dict_lookup d key = Some v ->
     truthy v = true -> v <> PFloat FNaN -> member v s).
Proof.
  revert acc. induction rows as [|row rows IH]; intros acc; simpl.
  - intros [= <-]. split; [by left|]. split; [done|].
    intros d v Hin. by apply elem_of_nil in Hin.
  - destruct row as [| | | | | |d0]; simpl; try done.
    destruct (truthy (dict_get d0 key)) eqn:Ht.
    + rewrite (dict_get_truthy_lookup _ _ Ht). simpl.
      destruct (set_add acc (dict_get d0 key)) as [acc'|e] eqn:Eadd; simpl; [|done].
      apply set_add_inv in Eadd as (Hhash & Hsub & Hsup & Hmem).
      intros (Hsound & Hsub' & Hcomplete)%IH. split; [|split].
      * intros e [He | (Hte & Hhe & d & Hd & Hlook)]%Hsound.
        -- apply Hsup, elem_of_app in He as [He | ->%list_elem_of_singleton]; [by left|].
           right. split; [done|]. split; [done|]. exists d0.
           split; [by left | by apply dict_get_truthy_lookup].
        -- right. split; [done|]. split; [done|]. exists d. split; [by right | done].
      * by etrans.
      * intros d v [[= ->] | Hin]%elem_of_cons Hlook Htv Hnan; [|by eapply Hcomplete].
        assert (dict_get d0 key = v) as Hv by (unfold dict_get; by rewrite Hlook).
        rewrite Hv in Hmem. eapply member_mono; [exact Hsub' | by apply Hmem].
    + intros (Hsound & Hsub' & Hcomplete)%IH. split; [|split]; [|done|].
      * intros e [He | (Hte & Hhe & d & Hd & Hlook)]%Hsound; [by left|].
        right. split; [done|]. split; [done|]. exists d. split; [by right | done].
      * intros d v [[= ->] | Hin]%elem_of_cons Hlook Htv Hnan; [|by eapply Hcomplete].
        unfold dict_get in Ht. rewrite Hlook in Ht. congruence.
Qed.

(** X6: the set that the comprehension builds from the item master holds
    exactly the truthy values of the field: each element is the truthy,
    hashable value of the field in some row, and the value of the field in
    any row, when truthy (and not a NaN), is a member of the set. *)
Theorem item_master_set_elements key rows (s : pyset) :
  set_of_field key rows [] = Ok s ->
  (forall e, e ∈ s ->
     truthy e = true /\ hashable e = true /\
     exists d, PDict d ∈ rows /\ dict_lookup d key = Some e) /\
  (forall d v, PDict d ∈ rows -> dict_lookup d key = Some v ->
     truthy v = true -> v <> PFloat FNaN -> member v s).
Proof.
  intros (Hsound & _ & Hcomplete)%set_of_field_spec. split; [|done].
  intros e [He | He]%Hsound; [by apply elem_of_nil in He | done].
Qed.

(** X7: the comprehension goes through exactly when every row is a dict
    whose field is not a non-empty list or object; one row that is not
    makes it raise, whatever the other rows are. *)
Theorem item_master_set_built_iff key rows (acc : pyset) :
  (exists s, set_of_field key rows acc = Ok s) <-> Forall (usable_row key) rows.
Proof.
  revert acc. induction rows as [|row rows IH]; intros acc; simpl.
  - split; [intros _; apply Forall_nil_2 | intros _; by eexists].
  - split.
    + intros [s Hrun].
      destruct row as [| | | | | |d]; simpl in Hrun; try done.
      destruct (truthy (dict_get d key)) eqn:Ht.
      * rewrite (dict_get_truthy_lookup _ _ Ht) in Hrun. simpl in Hrun.
        destruct (set_add acc (dict_get d key)) as [acc'|e] eqn:Eadd; simpl in Hrun;
          [|done].
        apply set_add_inv in Eadd as (Hhash & _).
        constructor; [exists d; split; [done | by intros _] | apply (IH acc'); by exists s].
      * constructor; [|apply (IH acc); by exists s].
        exists d. split; [done|]. intros Ht'. congruence.
    + intros Hall. apply Forall_cons in Hall as [(d & -> & Hsafe) Hrest]. simpl.
      destruct (truthy (dict_get d key)) eqn:Ht; [|by apply IH].
      rewrite (dict_get_truthy_lookup _ _ Ht). simpl.
      unfold set_add, set_contains. rewrite (Hsafe Ht). simpl. by apply IH.
Qed.

(** X8: the loop over the raw items returns one classified item for each
    raw item, in the same order, each the engine's result for it; when the
    engine raises on one item, there is no list at all. *)
Theorem classify_all_pointwise raw_items (pn_set name_set : pyset) items :
  classify_all raw_items pn_set name_set = Ok items <->
  Forall2 (fun raw item => _apply_classification_logic raw pn_set name_set = Ok item)
          raw_items items.
Proof.
  revert items. induction raw_items as [|raw rest IH]; intros items; simpl.
  - split; [intros [= <-]; constructor | by intros ->%Forall2_nil_inv_l].
  - split.
    + destruct (_apply_classification_logic raw pn_set name_set) as [item|e] eqn:Eitem;
        simpl; [|done].
      destruct (classify_all rest pn_set name_set) as [items'|e]; simpl; [|done].
      intros [= <-]. constructor; [done | by apply IH].
    + intros (item & items' & -> & Hrest%IH & ->)%Forall2_cons_inv_l.
      by rewrite Hrest.
Qed.

End ItemMasterSets.

(** ** The summary, beyond classified items *)

Section SummaryMore.
Context `{Runtime}.

Lemma sum_1_if_le cond items n : sum_1_if cond items = Ok n -> (n <= length items)%nat.
Proof.
  revert n. induction items as [|item items IH]; intros n; simpl.
  - intros [= <-]. lia.
  - destruct (cond item) as [c|e]; simpl; [|done].
    destruct (sum_1_if cond items) as [m|e]; simpl; [|done].
    intros [= <-]. specialize (IH m eq_refl). destruct c; lia.
Qed.

(** X9: whatever [_generate_summary] is given, a summary it returns echoes
    the comparison mode and counts no more successful matches and no more
    knowledge-base matches than materials; for anything that is not a list
    all three counts are zero. *)
Theorem summary_bounds (items : pyval) (mode : string) s :
  _generate_summary items mode = Ok s ->
  comparison_mode s = mode /\
  (successful_matches s <= total_materials s)%nat /\
  (knowledge_base_matches s <= total_materials s)%nat /\
  (forall l, items = PList l -> total_materials s = length l) /\
  (is_list items = false -> s = Summary 0 0 0 mode).
Proof.
  unfold _generate_summary.
  destruct items as [| | | | |l|].
  1-5, 7: intros [= <-]; simpl; repeat split; first [done | lia].
  destruct (sum_1_if (fun item => Ok (is_successful_match item)) l) as [n|e] eqn:En;
    simpl; [|done].
  destruct (sum_1_if is_knowledge_base_match l) as [m|e] eqn:Em; simpl; [|done].
  intros [= <-]. simpl.
  apply sum_1_if_le in En, Em. repeat split; try done.
  by intros l' [= <-].
Qed.

Lemma knowledge_base_match_returns item :
  (exists b, is_knowledge_base_match item = Ok b) <-> reasoning_readable item.
Proof.
  unfold reasoning_readable, is_knowledge_base_match. split.
  - intros [b Hb] d ->.
    destruct (dict_get_default d "reasoning" (PStr "")) as [| | | |s| |]; try done.
    by exists s.
  - intros Hread. destruct item as [| | | | | |d]; try by eexists.
    destruct (Hread d eq_refl) as [s ->]. by eexists.
Qed.

Lemma knowledge_base_match_raises item e :
  is_knowledge_base_match item = Raise e -> exc_class e = AttributeError.
Proof.
  unfold is_knowledge_base_match. destruct item as [| | | | | |d]; try done.
  by destruct (dict_get_default d "reasoning" (PStr "")); simpl; intros [= <-].
Qed.

Lemma sum_knowledge_base_returns items :
  (exists n, sum_1_if is_knowledge_base_match items = Ok n) <->
  Forall reasoning_readable items.
Proof.
  induction items as [|item items IH]; simpl.
  - split; [intros _; apply Forall_nil_2 | intros _; by eexists].
  - rewrite Forall_cons, <- IH, <- knowledge_base_match_returns. split.
    + intros [n Hn].
      destruct (is_knowledge_base_match item) as [b|e]; simpl in Hn; [|done].
      destruct (sum_1_if is_knowledge_base_match items) as [m|e]; simpl in Hn; [|done].
      split; by eexists.
    + intros [[b ->] [m ->]]. simpl. by eexists.
Qed.

Lemma sum_knowledge_base_raises items e :
  sum_1_if is_knowledge_base_match items = Raise e -> exc_class e = AttributeError.
Proof.
  induction items as [|item items IH]; simpl; [done|].
  destruct (is_knowledge_base_match item) as [b|e'] eqn:Eitem; simpl.
  - destruct (sum_1_if is_knowledge_base_match items) as [m|e']; simpl; [done|].
    intros [= <-]. by apply IH.
  - intros [= <-]. by eapply knowledge_base_match_raises.
Qed.

Lemma sum_successful_returns items :
  exists n, sum_1_if (fun item => Ok (is_successful_match item)) items = Ok n.
Proof.
  induction items as [|item items [n IH]]; simpl; [by eexists|].
  rewrite IH. simpl. by eexists.
Qed.

(** X10: on a list, [_generate_summary] returns exactly when the reasoning
    of every dict in it is a text or is missing; a dict whose reasoning is
    anything else (a null, a number, a list) makes it raise, and what it
    raises is an [AttributeError]. *)
Theorem summary_returns_iff (items : list pyval) (mode : string) :
  ((exists s, _generate_summary (PList items) mode = Ok s) <->
   Forall reasoning_readable items) /\
  (forall e, _generate_summary (PList items) mode = Raise e ->
     exc_class e = AttributeError).
Proof.
  unfold _generate_summary.
  destruct (sum_successful_returns items) as [n ->]. simpl.
  rewrite <- sum_knowledge_base_returns. split; [split|].
  - intros [s Hs].
    destruct (sum_1_if is_knowledge_base_match items) as [m|e]; [by eexists | done].
  - intros [m ->]. by eexists.
  - intros e.
    destruct (sum_1_if is_knowledge_base_match items) as [m|e'] eqn:Em; simpl; [done|].
    intros [= <-]. by eapply sum_knowledge_base_raises.
Qed.

End SummaryMore.

(** ** Persisting and reading back *)

Section Persisting.

(** X11: [_save_workflow_results] writes the file first and the row
    second, and it opens the file for writing, which empties it, before it
    writes.  Once the file is written whole, [get_workflow_results] returns
    what was saved, even when the insert of the row then fails, or closing
    the file has raised, and the save raises.  When [open] raises nothing
    is stored and the files are as before.  When the write fails after the
    [open], the file is left unreadable: whatever results the workflow had
    are gone and [get_workflow_results] raises [JSONDecodeError].  No
    failure leaves a new row. *)
Theorem saved_results_read_back env wid results summ w :
  let run := _save_workflow_results env wid results summ w in
  let artifact := ResultsArtifact results summ in
  (env_write_results_file env = None ->
   get_workflow_results wid (snd run) = Ok artifact) /\
  (env_write_results_file env = None -> env_insert_results_row env = None ->
   fst run = Ok tt /\
   workflow_results (snd run) = workflow_results w ++ [(wid, artifact)]) /\
  (forall e, env_write_results_file env = None -> env_insert_results_row env = Some e ->
   fst run = Raise e /\ workflow_results (snd run) = workflow_results w) /\
  (forall e, env_write_results_file env = Some (OpenFails e) ->
   fst run = Raise e /\
   results_files (snd run) = results_files w /\
   workflow_results (snd run) = workflow_results w) /\
  (forall e decode_error,
   env_write_results_file env = Some (WriteFails e decode_error) ->
   fst run = Raise e /\
   get_workflow_results wid (snd run) = Raise (Exn JSONDecodeError decode_error) /\
   workflow_results (snd run) = workflow_results w) /\
  (forall e, env_write_results_file env = Some (CloseFails e) ->
   fst run = Raise e /\
   get_workflow_results wid (snd run) = Ok artifact /\
   workflow_results (snd run) = workflow_results w).
Proof.
  unfold _save_workflow_results, get_workflow_results. rewrite run_bind.
  unfold write_file, attempt.
  destruct (env_write_results_file env) as [[e1|e1 msg|e1]|],
    (env_insert_results_row env) as [e2|];
    simpl; repeat split; intros; simplify_eq; simpl;
    by rewrite ?lookup_insert_eq.
Qed.

Lemma create_pending_from_prefix env wid items k w r w' :
  create_pending_from env wid items k w = (r, w') ->
  exists added,
    added `prefix_of` filter (fun item => has_confidence item = true) items /\
    pending_approvals w' = pending_approvals w ++ map (new_pending wid) added /\
    results_files w' = results_files w /\
    workflow_results w' = workflow_results w /\
    match r with
    | Ok _ => added = filter (fun item => has_confidence item = true) items
    | Raise e =>
        (length added < length (filter (fun item => has_confidence item = true) items))%nat
        /\ exists j, env_add_pending env j = Some e
    end.
Proof.
  revert k w. induction items as [|item items IH]; intros k w; simpl.
  - intros [= <- <-]. exists []. by rewrite app_nil_r.
  - rewrite run_bind, filter_cons, <- needs_approval_has_confidence.
    destruct (needs_approval item) eqn:Eneeds.
    + unfold attempt. destruct (env_add_pending env k) as [e|] eqn:Eadd.
      * intros [= <- <-]. exists []. simpl. rewrite app_nil_r.
        repeat split; try done; [apply prefix_nil | lia | by exists k].
      * intros (added & Hpre & Hpending & Hfiles & Hrows & Hr)%IH.
        exists (item :: added). simpl in *.
        split; [by apply prefix_cons|]. split; [by rewrite Hpending, <- app_assoc|].
        split; [done|]. split; [done|].
        destruct r; [by rewrite Hr | destruct Hr; split; [lia | done]].
    + simpl. intros (added & Hpre & Hpending & Hfiles & Hrows & Hr)%IH.
      by exists added.
Qed.

(** X12: whatever the store answers, the pending approvals that
    [_create_pending_approvals] leaves are the old ones followed by one
    record for each item of a prefix of the eligible items: the whole of
    them when it returns, a strictly shorter prefix when an insert fails,
    with the exception of that insert raised and the earlier records kept. *)
Theorem pending_approvals_prefix env wid (items : list pyval) w r w' :
  _create_pending_approvals env wid items w = (r, w') ->
  exists added,
    added `prefix_of` filter (fun item => has_confidence item = true) items /\
    pending_approvals w' = pending_approvals w ++ map (new_pending wid) added /\
    match r with
    | Ok _ => added = filter (fun item => has_confidence item = true) items
    | Raise e =>
        (length added < length (filter (fun item => has_confidence item = true) items))%nat
        /\ exists j, env_add_pending env j = Some e
    end.
Proof.
  unfold _create_pending_approvals.
  intros (added & Hpre & Hpending & _ & _ & Hr)%create_pending_from_prefix.
  by exists added.
Qed.

End Persisting.

(** ** Runs that go through *)

Section CompletedRuns.
Context `{Runtime}.

Lemma same_artifacts_refl w : same_artifacts w w.
Proof. by repeat split. Qed.

Lemma same_artifacts_trans w1 w2 w3 :
  same_artifacts w1 w2 -> same_artifacts w2 w3 -> same_artifacts w1 w3.
Proof. intros (? & ? & ?) (? & ? & ?). repeat split; congruence. Qed.

Lemma same_artifacts_update wid status progress stage message :
  preserves same_artifacts (update_workflow_status wid status progress stage message).
Proof. by intros w. Qed.

Lemma same_artifacts_call {A} ev (outcome : result A) :
  preserves same_artifacts (call ev outcome).
Proof. by intros w. Qed.

Lemma same_artifacts_parse item_path outcome :
  preserves same_artifacts (parse_item_master_if item_path outcome).
Proof.
  unfold parse_item_master_if.
  by destruct item_path as [p|]; [destruct (negb (String.eqb p ""))|]; intros w.
Qed.

Lemma parse_item_master_answer item_path outcome w :
  fst (parse_item_master_if item_path outcome w) = item_master_answer item_path outcome.
Proof.
  unfold parse_item_master_if, item_master_answer.
  by destruct item_path as [p|]; [destruct (negb (String.eqb p ""))|].
Qed.

Lemma save_workflow_results_ok env wid results summ w u w' :
  _save_workflow_results env wid results summ w = (Ok u, w') ->
  results_files w' = <[wid := Written (ResultsArtifact results summ)]> (results_files w) /\
  workflow_results w' = workflow_results w ++ [(wid, ResultsArtifact results summ)] /\
  pending_approvals w' = pending_approvals w.
Proof.
  unfold _save_workflow_results. rewrite run_bind. unfold write_file, attempt.
  destruct (env_write_results_file env) as [[| |]|], (env_insert_results_row env);
    simpl; try done.
  by intros [= <- <-].
Qed.

Ltac calm_step Hrun Hs lemma :=
  rewrite run_bind in Hrun;
  match type of Hrun with
  | match ?m ?w0 with _ => _ end = _ =>
      let Hq := fresh "Hq" in
      assert (Hq : same_artifacts w0 (snd (m w0))) by (apply lemma);
      destruct (m w0) as [[?|?] ?]; [|discriminate Hrun]; simpl in Hq;
      apply (same_artifacts_trans _ _ _ Hs) in Hq; clear Hs; rename Hq into Hs
  end.

(** What the [try] block leaves when it goes through. *)
Lemma pipeline_success env wid wi_path item_path mode w u w' :
  pipeline env wid wi_path item_path mode w = (Ok u, w') ->
  exists item_master items summ,
    item_master_answer item_path (env_parse_item_master_2 env) = Ok item_master /\
    _extract_and_classify_items (env_extract_items env) item_master = Ok items /\
    _generate_summary (PList items) mode = Ok summ /\
    results_files w' = <[wid := Written (ResultsArtifact items summ)]> (results_files w) /\
    workflow_results w' = workflow_results w ++ [(wid, ResultsArtifact items summ)] /\
    pending_approvals w' =
      pending_approvals w ++
      map (new_pending wid) (filter (fun item => has_confidence item = true) items).
Proof.
  intros Hrun. unfold pipeline in Hrun.
  pose proof (same_artifacts_refl w) as Hs.
  calm_step Hrun Hs same_artifacts_update.
  calm_step Hrun Hs (@same_artifacts_call pyval).
  calm_step Hrun Hs same_artifacts_parse.
  calm_step Hrun Hs same_artifacts_update.
  calm_step Hrun Hs (@same_artifacts_call pyval).
  calm_step Hrun Hs same_artifacts_update.
  (* the second parse of the item master *)
  rewrite run_bind in Hrun.
  match type of Hrun with
  | match parse_item_master_if ?p ?o ?w0 with _ => _ end = _ =>
      pose proof (same_artifacts_parse p o w0) as Hq;
      pose proof (parse_item_master_answer p o w0) as Hanswer;
      destruct (parse_item_master_if p o w0) as [[item_master|?] w7];
        [|discriminate Hrun]
  end.
  simpl in Hq, Hanswer.
  apply (same_artifacts_trans _ _ _ Hs) in Hq. clear Hs.
  (* the agent and the engine *)
  rewrite run_bind in Hrun. unfold call at 1 in Hrun.
  destruct (_extract_and_classify_items (env_extract_items env) item_master)
    as [items|?] eqn:Eitems; [|discriminate Hrun].
  (* the summary *)
  rewrite run_bind in Hrun. unfold pure at 1 in Hrun.
  destruct (_generate_summary (PList items) mode) as [summ|?] eqn:Esumm;
    [|discriminate Hrun].
  (* the results, then the pending approvals *)
  rewrite run_bind in Hrun.
  destruct (_save_workflow_results env wid items summ (log_event EvExtractItems w7))
    as [[?|?] w10] eqn:Esave; [|discriminate Hrun].
  apply save_workflow_results_ok in Esave as (Hfiles & Hrows & Hpending).
  rewrite run_bind in Hrun. unfold _create_pending_approvals in Hrun.
  destruct (create_pending_from env wid items 0 w10) as [[?|?] w11] eqn:Ecreate;
    [|discriminate Hrun].
  apply create_pending_from_prefix in Ecreate
    as (added & _ & Hpending' & Hfiles' & Hrows' & ->).
  cbn [update_workflow_status] in Hrun. injection Hrun as _ <-.
  destruct Hq as (Hq1 & Hq2 & Hq3). simpl in *.
  exists item_master, items, summ. repeat split; try done; congruence.
Qed.

End CompletedRuns.

Section CompletedRunsFacts.
Context `{Runtime}.

Lemma extract_and_classify_rule_classified o item_master items :
  _extract_and_classify_items o item_master = Ok items -> Forall rule_classified items.
Proof.
  unfold _extract_and_classify_items.
  destruct (GeminiAgentService.extract_all_items o) as [raw_items|]; simpl; [|done].
  destruct (py_iter item_master) as [rows|]; simpl; [|done].
  destruct (set_of_field "part_number" rows []) as [pn_set|]; simpl; [|done].
  destruct (set_of_field "material_name" rows []) as [name_set|]; simpl; [|done].
  destruct (py_iter raw_items) as [raws|]; simpl; [|done].
  apply classify_all_rule_classified.
Qed.

Lemma summary_total (items : list pyval) mode summ :
  _generate_summary (PList items) mode = Ok summ -> total_materials summ = length items.
Proof.
  unfold _generate_summary.
  destruct (sum_1_if (fun item => Ok (is_successful_match item)) items); simpl; [|done].
  destruct (sum_1_if is_knowledge_base_match items); simpl; [|done].
  by intros [= <-].
Qed.

Lemma completed_row_after wid row0 :
  completed_row
    (foldl (fun row sw => apply_status_write sw row) row0
       [write_extracting wid; write_translating wid; write_classifying wid;
        write_completed wid]).
Proof. by repeat split. Qed.

(** What a run that went through has stored, for the two theorems below. *)
Lemma completed_run_state env wid wi_path item_path mode w u w' :
  pipeline env wid wi_path item_path mode w = (Ok u, w') ->
  exists items summ,
    Forall rule_classified items /\
    total_materials summ = length items /\
    get_workflow_results wid w' = Ok (ResultsArtifact items summ) /\
    workflow_results w' = workflow_results w ++ [(wid, ResultsArtifact items summ)] /\
    pending_approvals w' = pending_approvals w ++ map (new_pending wid) items /\
    (forall row0, workflows w !! wid = Some row0 ->
       exists row, get_workflow_status wid w' = Ok row /\ completed_row row).
Proof.
  intros Hrun.
  destruct (pipeline_success _ _ _ _ _ _ _ _ Hrun)
    as (item_master & items & summ & _ & Hitems & Hsumm & Hfiles & Hrows & Hpending).
  destruct (pipeline_run _ _ _ _ _ _ _ _ Hrun) as (writes & [_ Htable] & ->).
  apply extract_and_classify_rule_classified in Hitems.
  exists items, summ. split; [done|]. split; [by eapply summary_total|].
  split; [unfold get_workflow_results; by rewrite Hfiles, lookup_insert_eq|].
  split; [done|]. split.
  - rewrite Hpending, filter_all; [done|].
    eapply Forall_impl; [exact Hitems|]. apply rule_classified_has_confidence.
  - intros row0 Hrow0. unfold get_workflow_status.
    rewrite Htable, after_writes_lookup, Hrow0. simpl.
    eexists. split; [done|]. apply (completed_row_after wid row0).
Qed.


(** X14: a workflow that the task leaves with the status "completed" has
    its results: they can be read back, with as many matches as the summary
    counts materials and one pending approval of the workflow among the new
    ones for each match.  The status "completed" is never written over a
    failed run. *)
Theorem completed_status_has_results env wid wi_path item_path mode w row :
  let final := _process_workflow_async env wid wi_path item_path mode w in
  get_workflow_status wid final = Ok row ->
  wf_status row = "completed" ->
  exists artifact,
    get_workflow_results wid final = Ok artifact /\
    total_materials (artifact_summary artifact) = length (matches artifact) /\
    pending_approvals final =
      pending_approvals w ++ map (new_pending wid) (matches artifact).
Proof.
  intros final. unfold final.
  destruct (pipeline env wid wi_path item_path mode w) as [[u|e] w'] eqn:Hrun.
  - rewrite (process_after_success _ _ _ _ _ _ _ _ Hrun). intros _ _.
    destruct (completed_run_state _ _ _ _ _ _ _ _ Hrun)
      as (items & summ & _ & Htotal & Hget & _ & Hpending & _).
    by exists (ResultsArtifact items summ).
  - rewrite (process_after_failure _ _ _ _ _ _ _ _ Hrun).
    unfold get_workflow_status, on_failure. simpl.
    rewrite lookup_alter_eq.
    destruct (workflows w' !! wid) as [row'|]; simpl; [|done].
    by intros [= <-].
Qed.

End CompletedRunsFacts.

(** ** What a run leaves alone *)

Section RunFrame.
Context `{Runtime}.

Lemma run_frame_refl wid w : run_frame wid w w.
Proof.
  repeat split; try done; exists []; by rewrite app_nil_r.
Qed.

Lemma run_frame_trans wid w1 w2 w3 :
  run_frame wid w1 w2 -> run_frame wid w2 w3 -> run_frame wid w1 w3.
Proof.
  intros (Hother & Hdom & (pa & Hpa & Hpa') & (rows & Hrows & Hrows') & Hup & Hsub & Htr)
         (Hother2 & Hdom2 & (pa2 & Hpa2 & Hpa2') & (rows2 & Hrows2 & Hrows2') & Hup2
          & Hsub2 & Htr2).
  split; [|split; [|split; [|split; [|split; [|split]]]]].
  - intros other Hne. destruct (Hother other Hne), (Hother2 other Hne).
    split; congruence.
  - congruence.
  - exists (pa ++ pa2). rewrite Hpa2, Hpa, <- app_assoc. split; [done|].
    by apply Forall_app.
  - exists (rows ++ rows2). rewrite Hrows2, Hrows, <- app_assoc. split; [done|].
    by apply Forall_app.
  - congruence.
  - congruence.
  - by etrans.
Qed.

Lemma run_frame_intro wid w w' :
  (forall other, other <> wid ->
     workflows w' !! other = workflows w !! other /\
     results_files w' !! other = results_files w !! other) ->
  dom (workflows w') = dom (workflows w) ->
  (pending_approvals w' = pending_approvals w \/
   exists payload,
     pending_approvals w' = pending_approvals w ++ [new_pending wid payload]) ->
  (workflow_results w' = workflow_results w \/
   exists artifact, workflow_results w' = workflow_results w ++ [(wid, artifact)]) ->
  uploaded_files w' = uploaded_files w ->
  submitted w' = submitted w ->
  trace w `prefix_of` trace w' ->
  run_frame wid w w'.
Proof.
  intros Hother Hdom Hpending Hrows Hup Hsub Htrace.
  split; [done|]. split; [done|]. split; [|split; [|done]].
  - destruct Hpending as [-> | [payload ->]].
    + exists []. by rewrite app_nil_r.
    + eexists. split; [done|]. by repeat constructor.
  - destruct Hrows as [-> | [artifact ->]].
    + exists []. by rewrite app_nil_r.
    + eexists. split; [done|]. by repeat constructor.
Qed.

Lemma run_frame_log wid ev w : run_frame wid w (log_event ev w).
Proof.
  apply run_frame_intro; simpl; try done; try by left.
  by apply prefix_app_r.
Qed.

Lemma run_frame_update wid status progress stage message :
  preserves (run_frame wid) (update_workflow_status wid status progress stage message).
Proof.
  intros w. apply run_frame_intro; simpl; try done; try by left.
  - intros other Hne. split; [|done]. apply lookup_alter_ne. congruence.
  - apply dom_alter_L.
  - by apply prefix_app_r.
Qed.

Lemma run_frame_call {A} wid ev (outcome : result A) :
  preserves (run_frame wid) (call ev outcome).
Proof. intros w. apply run_frame_log. Qed.

Lemma run_frame_parse wid item_path outcome :
  preserves (run_frame wid) (parse_item_master_if item_path outcome).
Proof.
  unfold parse_item_master_if.
  destruct item_path as [p|]; [destruct (negb (String.eqb p ""))|];
    intros w; (apply run_frame_log || apply run_frame_refl).
Qed.

Lemma run_frame_save env wid results summ :
  preserves (run_frame wid) (_save_workflow_results env wid results summ).
Proof.
  unfold _save_workflow_results.
  apply preserves_bind; [apply run_frame_trans| |intros _]; intros w;
    unfold write_file, attempt.
  - destruct (env_write_results_file env) as [[| |]|]; simpl;
      try apply run_frame_log;
      (apply run_frame_intro; simpl; try done; try (by left);
       [intros other Hne; split; [done|]; apply lookup_insert_ne; congruence
       |by apply prefix_app_r]).
  - destruct (env_insert_results_row env); simpl; [apply run_frame_log|].
    apply run_frame_intro; simpl; try done; try by left.
    + right. by eexists.
    + by apply prefix_app_r.
Qed.

Lemma run_frame_create_pending env wid matches k :
  preserves (run_frame wid) (create_pending_from env wid matches k).
Proof.
  revert k. induction matches as [|item rest IH]; intros k; simpl.
  - intros w. apply run_frame_refl.
  - apply preserves_bind; [apply run_frame_trans| |intros _; apply IH].
    destruct (needs_approval item); [|intros w; apply run_frame_refl].
    intros w. unfold attempt.
    destruct (env_add_pending env k); simpl; [apply run_frame_log|].
    apply run_frame_intro; simpl; try done; try by left.
    + right. by eexists.
    + by apply prefix_app_r.
Qed.

Lemma run_frame_pipeline env wid wi_path item_path mode :
  preserves (run_frame wid) (pipeline env wid wi_path item_path mode).
Proof.
  unfold pipeline.
  apply preserves_bind; [apply run_frame_trans | apply run_frame_update | intros ?].
  apply preserves_bind; [apply run_frame_trans | apply run_frame_call | intros ?].
  apply preserves_bind; [apply run_frame_trans | apply run_frame_parse | intros ?].
  apply preserves_bind; [apply run_frame_trans | apply run_frame_update | intros ?].
  apply preserves_bind; [apply run_frame_trans | apply run_frame_call | intros ?].
  apply preserves_bind; [apply run_frame_trans | apply run_frame_update | intros ?].
  apply preserves_bind; [apply run_frame_trans | apply run_frame_parse | intros ?].
  apply preserves_bind; [apply run_frame_trans | apply run_frame_call | intros ?].
  apply preserves_bind; [apply run_frame_trans | intros w; apply run_frame_refl | intros ?].
  apply preserves_bind; [apply run_frame_trans | apply run_frame_save | intros ?].
  apply preserves_bind;
    [apply run_frame_trans | apply run_frame_create_pending | intros ?].
  apply run_frame_update.
Qed.

Lemma run_frame_task env wid wi_path item_path mode w :
  run_frame wid w (_process_workflow_async env wid wi_path item_path mode w).
Proof.
  unfold _process_workflow_async, try_except_M.
  pose proof (run_frame_pipeline env wid wi_path item_path mode w) as Hframe.
  destruct (pipeline env wid wi_path item_path mode w) as [[u|e] w']; simpl in *; [done|].
  eapply run_frame_trans; [exact Hframe|]. apply run_frame_update.
Qed.

(** X15: a run of the task for one workflow leaves the other workflows
    alone: their rows and their results files are as before; no row of the
    table of workflows appears or disappears; the pending approvals and the
    result rows only grow, by records of this workflow; the uploads and the
    queue of tasks are untouched; and nothing is removed from the trace. *)
Theorem run_touches_its_workflow_only env wid wi_path item_path mode w :
  run_frame wid w (_process_workflow_async env wid wi_path item_path mode w).
Proof.
  unfold _process_workflow_async, try_except_M.
  pose proof (run_frame_pipeline env wid wi_path item_path mode w) as Hframe.
  destruct (pipeline env wid wi_path item_path mode w) as [[u|e] w']; simpl in *; [done|].
  eapply run_frame_trans; [exact Hframe|]. apply run_frame_update.
Qed.

End RunFrame.

(** ** Uploads *)

Section Uploads.

(** What [start_workflow] leaves when every step goes through. *)
Lemma start_workflow_ok env uuid wi im mode w :
  start_goes_through env im ->
  exists w',
    start_workflow env uuid wi im mode w = (Ok true, w') /\
    workflows w' =
      <[uuid := new_workflow mode (stored_path uuid wi) (stored_path uuid <$> im)]>
        (workflows w) /\
    uploaded_files w' = stored_uploads uuid wi im (uploaded_files w) /\
    submitted w' =
      submitted w ++ [Task uuid (stored_path uuid wi) (stored_path uuid <$> im) mode] /\
    results_files w' = results_files w /\
    pending_approvals w' = pending_approvals w.
Proof.
  intros (Hdirs & Hwi & Him & Hcreate).
  unfold start_workflow, try_except_M.
  repeat rewrite run_bind. unfold write_file, attempt. rewrite Hdirs, Hwi.
  destruct im as [im|].
  - rewrite Him by (by eexists). rewrite Hcreate.
    cbn [mbind M_bind mret M_ret].
    eexists. split; [reflexivity|]. repeat split.
  - rewrite Hcreate. cbn [mbind M_bind mret M_ret].
    eexists. split; [reflexivity|]. repeat split.
Qed.

Lemma upload_checks_pass mode (im : option upload_file) :
  (mode = "full" -> is_Some im) ->
  String.eqb mode "full" && negb (bool_decide (is_Some im)) = false.
Proof.
  intros Hmode. destruct (String.eqb_spec mode "full") as [->|?]; [|done].
  by rewrite bool_decide_eq_true_2 by auto.
Qed.

Lemma append_cancel_l (a b c : string) : a +:+ b = a +:+ c -> b = c.
Proof.
  induction a as [|x a IH]; [done|].
  change (String x a +:+ b) with (String x (a +:+ b)).
  change (String x a +:+ c) with (String x (a +:+ c)).
  intros [= Heq]. by apply IH.
Qed.

Lemma slash_free_relative s : slash_free s -> str_startswith s "/" = false.
Proof.
  unfold slash_free. destruct s as [|c s]; [done|].
  cbn [str_contains]. by intros [? _]%orb_false_iff.
Qed.

(** Two names without a slash that are joined to the same directory give
    the same path only when they are the same name. *)
Lemma path_join_cancel a b c :
  slash_free b -> slash_free c -> path_join a b = path_join a c -> b = c.
Proof.
  intros Hb%slash_free_relative Hc%slash_free_relative. unfold path_join.
  rewrite Hb, Hc.
  destruct (String.eqb a ""); [done|].
  destruct (ends_with_slash a).
  - apply append_cancel_l.
  - intros Heq%append_cancel_l. by apply (append_cancel_l "/").
Qed.

(** X16: an upload that passes the checks, on a file system and a database
    that take every step, is answered with the generated identifier.  What
    its own steps leave, and the task it starts cannot undo: a row for the
    identifier, with the other rows as they were; one call of the
    executor, the last one, for a task with the paths of the two documents
    and the mode; the bytes of the item master at its path; and the bytes
    of the work instruction at its path when there is no item master, or
    when the two file names have no slash and differ.  Any mode other than
    "full" passes without an item master. *)
Theorem accepted_upload env uuid wi im mode w :
  start_goes_through env im ->
  (mode = "full" -> is_Some im) ->
  exists w',
    Api.upload_documents env uuid (Some wi) im mode w =
      (Api.JSONResponse true uuid "Processing started successfully", w') /\
    is_Some (workflows w' !! uuid) /\
    (forall other, other <> uuid -> workflows w' !! other = workflows w !! other) /\
    submitted w' =
      submitted w ++ [Task uuid (stored_path uuid wi) (stored_path uuid <$> im) mode] /\
    (forall f, im = Some f -> uploaded_files w' !! stored_path uuid f = Some (file f)) /\
    ((forall f, im = Some f ->
        slash_free (filename wi) /\ slash_free (filename f) /\ filename f <> filename wi) ->
     uploaded_files w' !! stored_path uuid wi = Some (file wi)).
Proof.
  intros Hgo Hmode. unfold Api.upload_documents.
  rewrite (upload_checks_pass _ _ Hmode).
  destruct (start_workflow_ok env uuid wi im mode w Hgo)
    as (w' & -> & Htable & Hfiles & Hqueue & _).
  exists w'. split; [done|]. rewrite Htable, Hfiles.
  split; [by rewrite lookup_insert_eq|].
  split; [intros other Hother; by rewrite lookup_insert_ne|].
  split; [done|]. unfold stored_uploads. split.
  - intros f ->. by rewrite lookup_insert_eq.
  - destruct im as [f|]; [|intros _; by rewrite lookup_insert_eq].
    intros Hnames. destruct (Hnames f eq_refl) as (Hwi & Hf & Hne).
    rewrite lookup_insert_ne, lookup_insert_eq; [done|].
    unfold stored_path. intros Heq. apply Hne. by eapply path_join_cancel.
Qed.

End Uploads.

Section RefusedUploads.

Lemma start_workflow_raises env uuid wi im mode w e w' :
  start_workflow env uuid wi im mode w = (Raise e, w') ->
  workflows w' = workflows w /\
  submitted w' = submitted w /\
  results_files w' = results_files w /\
  pending_approvals w' = pending_approvals w /\
  exists cause, e = Exn OtherException ("Failed to start workflow: " +:+ exc_str cause).
Proof.
  unfold start_workflow, try_except_M, pure. repeat rewrite run_bind.
  unfold write_file, attempt.
  destruct (env_makedirs env) as [e1|], (env_write_wi env) as [[e2|e2 rest2|e2]|],
    im as [im|], (env_write_item_master env) as [[e3|e3 rest3|e3]|],
    (env_create_workflow env) as [e4|];
    cbn [mbind M_bind mret M_ret];
    intros [Hraise <-]%pair_equal_spec; try discriminate Hraise;
    injection Hraise as <-; repeat split; by eexists.
Qed.

(** X17: an upload that is answered with an error leaves no row in the
    table of workflows and no task in the queue, and touches no results
    and no pending approval; the error is a 400 with the store untouched,
    or a 500 whose detail carries the prefix "Failed to start workflow: "
    twice, once from [start_workflow] and once from the endpoint. *)
Theorem refused_upload env uuid wi_document im mode w code detail w' :
  Api.upload_documents env uuid wi_document im mode w
  = (Api.HTTPException code detail, w') ->
  workflows w' = workflows w /\
  submitted w' = submitted w /\
  results_files w' = results_files w /\
  pending_approvals w' = pending_approvals w /\
  ((code = 400 /\ w' = w) \/
   (code = 500 /\
    exists cause,
      detail = "Failed to start workflow: Failed to start workflow: " +:+ exc_str cause)).
Proof.
  unfold Api.upload_documents.
  destruct wi_document as [wi|]; [|intros [[= <- <-] <-]%pair_equal_spec; by auto 10].
  destruct (String.eqb mode "full" && negb (bool_decide (is_Some im)));
    [intros [[= <- <-] <-]%pair_equal_spec; by auto 10|].
  destruct (start_workflow env uuid wi im mode w) as [[b|e] w1] eqn:Estart;
    intros [[= <- <-] <-]%pair_equal_spec.
  apply start_workflow_raises in Estart as (? & ? & ? & ? & cause & ->).
  do 4 (split; [done|]). right. split; [done|]. by exists cause.
Qed.

End RefusedUploads.

Section UploadEdges.

(** X18: when the two uploads have the same file name they are stored at
    the same path: after an accepted upload that path holds the bytes of
    the item master, the bytes of the work instruction are gone, and the
    queued task names that one file as both of its documents. *)
Theorem same_filename_overwrites env uuid wi im mode w :
  start_goes_through env (Some im) ->
  filename im = filename wi ->
  exists w',
    Api.upload_documents env uuid (Some wi) (Some im) mode w =
      (Api.JSONResponse true uuid "Processing started successfully", w') /\
    uploaded_files w' !! stored_path uuid wi = Some (file im) /\
    last (submitted w') =
      Some (Task uuid (stored_path uuid wi) (Some (stored_path uuid wi)) mode).
Proof.
  intros Hgo Hname. unfold Api.upload_documents.
  rewrite upload_checks_pass by (intros _; by eexists).
  destruct (start_workflow_ok env uuid wi (Some im) mode w Hgo)
    as (w' & -> & _ & Hfiles & Hqueue & _).
  exists w'. split; [done|].
  assert (stored_path uuid im = stored_path uuid wi) as Hpath
    by (unfold stored_path; by rewrite Hname).
  rewrite Hfiles, Hqueue. unfold stored_uploads.
  cbn [fmap option_fmap option_map]. rewrite Hpath.
  split; [apply lookup_insert_eq | apply last_snoc].
Qed.

Lemma ends_with_slash_app a b :
  b <> "" -> ends_with_slash (a +:+ b) = ends_with_slash b.
Proof.
  intros Hb. induction a as [|c a IH]; [done|].
  change (String c a +:+ b) with (String c (a +:+ b)).
  destruct (a +:+ b) as [|c' s'] eqn:E.
  - destruct a; simpl in E; [by subst | done].
  - by rewrite <- IH.
Qed.

Lemma stored_path_absolute uuid f :
  str_startswith (filename f) "/" = true -> stored_path uuid f = filename f.
Proof. unfold stored_path, path_join. by intros ->. Qed.

Lemma stored_path_relative uuid f :
  str_startswith (filename f) "/" = false ->
  str_startswith uuid "/" = false -> uuid <> "" -> ends_with_slash uuid = false ->
  stored_path uuid f = "uploads/" +:+ uuid +:+ "/" +:+ filename f.
Proof.
  unfold stored_path, path_join, upload_dir. intros -> -> Hne Hslash.
  change (String.eqb "uploads" "") with false.
  change (ends_with_slash "uploads") with false. cbv iota.
  change ("uploads" +:+ "/" +:+ uuid) with ("uploads/" +:+ uuid).
  rewrite ends_with_slash_app, Hslash by done.
  by destruct uuid.
Qed.

(** X19: where [start_workflow] puts the work instruction.  When every step
    goes through, a file name that starts with a slash is taken as the path
    itself: the bytes are written there, outside the upload directory, and
    the task is started on that path.  A file name that does not start with
    a slash is written at [uploads/<workflow id>/<file name>], for an
    identifier that is not empty and has no slash at its ends, and the task
    is started on that path. *)
Theorem upload_destination env uuid wi mode w :
  start_goes_through env None ->
  exists w',
    start_workflow env uuid wi None mode w = (Ok true, w') /\
    (str_startswith (filename wi) "/" = true ->
     uploaded_files w' !! filename wi = Some (file wi) /\
     last (submitted w') = Some (Task uuid (filename wi) None mode)) /\
    (str_startswith (filename wi) "/" = false ->
     str_startswith uuid "/" = false -> uuid <> "" -> ends_with_slash uuid = false ->
     uploaded_files w' !! ("uploads/" +:+ uuid +:+ "/" +:+ filename wi) = Some (file wi) /\
     last (submitted w') =
       Some (Task uuid ("uploads/" +:+ uuid +:+ "/" +:+ filename wi) None mode)).
Proof.
  intros Hgo.
  destruct (start_workflow_ok env uuid wi None mode w Hgo)
    as (w' & Hrun & _ & Hfiles & Hqueue & _).
  exists w'. split; [done|]. rewrite Hfiles, Hqueue. unfold stored_uploads.
  cbn [fmap option_fmap option_map]. split.
  - intros Habs. rewrite (stored_path_absolute _ _ Habs).
    split; [apply lookup_insert_eq | apply last_snoc].
  - intros Hrel Huuid Hne Hslash.
    rewrite (stored_path_relative _ _ Hrel Huuid Hne Hslash).
    split; [apply lookup_insert_eq | apply last_snoc].
Qed.

End UploadEdges.

(** ** The other operations of the agent *)

Section Envelope.

Lemma choices_missing_with_content r raw content :
  json r = Some raw -> has_content raw content -> choices_missing r = Ok false.
Proof.
  intros Hjson Hcontent. unfold choices_missing, response_json. rewrite Hjson.
  destruct Hcontent as [d choice rest message c Hc Hm Hcontent].
  cbn [mbind result_bind py_contains_str py_getitem_str]. rewrite Hc.
  rewrite bool_decide_eq_true_2 by (by eexists). done.
Qed.

Lemma response_content_ok r content :
  response_content r = Ok content <->
  exists raw, json r = Some raw /\ has_content raw content.
Proof.
  unfold response_content, response_json. split.
  - destruct (json r) as [raw|]; simpl; [|done].
    intros Hc%first_choice_content_ok. by exists raw.
  - intros (raw & -> & Hc). simpl. by apply first_choice_content_ok.
Qed.

End Envelope.

Section AgentOperations.
Context `{Runtime} `{StripRuntime}.

Ltac caught :=
  simpl; try done; try (by eexists);
  try match goal with
      | |- context [exc_class ?e] => destruct (exc_class e); (done || by eexists)
      end.

Lemma answers_text_run o answer :
  answers_text o answer ->
  exists r, _call_api o = Ok r /\ choices_missing r = Ok false /\
            response_content r = Ok (PStr answer).
Proof.
  intros (r & raw & -> & Hok & Hjson & Hcontent). exists r.
  split; [by apply call_api_returns|].
  split; [by eapply choices_missing_with_content|].
  apply response_content_ok. by exists raw.
Qed.

Lemma run_answers_text o r answer :
  _call_api o = Ok r -> response_content r = Ok (PStr answer) -> answers_text o answer.
Proof.
  intros [-> Hok]%call_api_ok_inv (raw & Hjson & Hcontent)%response_content_ok.
  by exists r, raw.
Qed.

(** X20: [check_for_match] never raises.  It answers with whether the
    text of the gateway's answer, stripped and lowered, is "true"; and
    whenever there is no such text (the call fails, the body is not JSON
    or lacks the structure, the content is not a text) it answers
    [False]. *)
Theorem check_for_match_answers (o : post_outcome) :
  (exists b, GeminiAgentService.check_for_match o = Ok b) /\
  (forall answer, answers_text o answer ->
     GeminiAgentService.check_for_match o
     = Ok (String.eqb (str_lower (str_strip answer)) "true")) /\
  ((forall answer, ~ answers_text o answer) ->
   GeminiAgentService.check_for_match o = Ok false).
Proof.
  unfold GeminiAgentService.check_for_match, try_except. split; [|split].
  - destruct (_call_api o) as [r|e]; caught.
    destruct (choices_missing r) as [[|]|e]; caught.
    destruct (response_content r) as [content|e]; caught.
    destruct (py_strip content) as [stripped|e]; caught.
  - intros answer (r & -> & Hchoices & Hcontent)%answers_text_run. simpl.
    rewrite Hchoices. simpl. by rewrite Hcontent.
  - intros Hno.
    destruct (_call_api o) as [r|e] eqn:Ecall; caught.
    destruct (choices_missing r) as [[|]|e]; caught.
    destruct (response_content r) as [content|e] eqn:Econtent; caught.
    destruct content as [| | | |answer| |]; caught.
    by destruct (Hno answer (run_answers_text _ _ _ Ecall Econtent)).
Qed.

Lemma answers_json_run o v :
  answers_json o v ->
  exists r answer, _call_api o = Ok r /\ choices_missing r = Ok false /\
    response_content r = Ok (PStr answer) /\
    (extracted ← GeminiAgentService._extract_json_from_markdown (PStr answer);
     GeminiAgentService.py_json_loads extracted) = Ok v.
Proof.
  intros (answer & (r & Hcall & Hchoices & Hcontent)%answers_text_run & Hparse).
  exists r, answer. do 3 (split; [done|]).
  unfold GeminiAgentService._extract_json_from_markdown, GeminiAgentService.py_json_loads.
  unfold json_text in Hparse.
  destruct (re_search_json_fence answer); simpl; by rewrite Hparse.
Qed.

Lemma run_answers_json o r content extracted v :
  _call_api o = Ok r -> response_content r = Ok content ->
  GeminiAgentService._extract_json_from_markdown content = Ok extracted ->
  GeminiAgentService.py_json_loads extracted = Ok v ->
  answers_json o v.
Proof.
  intros Hcall Hcontent Hextract Hparse.
  destruct content as [| | | |answer| |]; try done.
  exists answer. split; [by eapply run_answers_text|].
  unfold GeminiAgentService._extract_json_from_markdown in Hextract.
  unfold GeminiAgentService.py_json_loads in Hparse. unfold json_text.
  destruct (re_search_json_fence answer); injection Hextract as <-;
    destruct (json_loads _); congruence.
Qed.

(** X21: [extract_details] never raises.  When the gateway answers with a
    text that parses as JSON it returns the parsed value as it is, object
    or not; in every other case it returns the blank details
    [{'qty': '', 'uom': ''}]. *)
Theorem extract_details_answers (o : post_outcome) :
  (exists v, GeminiAgentService.extract_details o = Ok v) /\
  (forall v, answers_json o v -> GeminiAgentService.extract_details o = Ok v) /\
  ((forall v, ~ answers_json o v) ->
   GeminiAgentService.extract_details o = Ok GeminiAgentService.blank_details).
Proof.
  unfold GeminiAgentService.extract_details, try_except. split; [|split].
  - destruct (_call_api o) as [r|e]; caught.
    destruct (choices_missing r) as [[|]|e]; caught.
    destruct (response_content r) as [content|e]; caught.
    destruct (GeminiAgentService._extract_json_from_markdown content) as [extracted|e];
      caught.
    destruct (GeminiAgentService.py_json_loads extracted) as [v|e]; caught.
  - intros v (r & answer & -> & Hchoices & Hcontent & Hparse)%answers_json_run. simpl.
    rewrite Hchoices. simpl. rewrite Hcontent. simpl. simpl in Hparse.
    by rewrite Hparse.
  - intros Hno.
    destruct (_call_api o) as [r|e] eqn:Ecall; caught.
    destruct (choices_missing r) as [[|]|e]; caught.
    destruct (response_content r) as [content|e] eqn:Econtent; caught.
    destruct (GeminiAgentService._extract_json_from_markdown content) as [extracted|e]
      eqn:Eextract; caught.
    destruct (GeminiAgentService.py_json_loads extracted) as [v|e] eqn:Eparse; caught.
    by destruct (Hno v (run_answers_json _ _ _ _ _ Ecall Econtent Eextract Eparse)).
Qed.

(** X22: [standardize_item_master] never raises and always returns a
    list: the rows of the JSON array that the gateway answers with, and the
    empty list in every other case. *)
Theorem standardize_item_master_answers (o : post_outcome) :
  (exists rows, GeminiAgentService.standardize_item_master o = Ok (PList rows)) /\
  (forall rows, answers_json o (PList rows) ->
     GeminiAgentService.standardize_item_master o = Ok (PList rows)) /\
  ((forall rows, ~ answers_json o (PList rows)) ->
   GeminiAgentService.standardize_item_master o = Ok (PList [])).
Proof.
  unfold GeminiAgentService.standardize_item_master, try_except. split; [|split].
  - destruct (_call_api o) as [r|e]; caught.
    destruct (choices_missing r) as [[|]|e]; caught.
    destruct (response_content r) as [content|e]; caught.
    destruct (GeminiAgentService._extract_json_from_markdown content) as [extracted|e];
      caught.
    destruct (GeminiAgentService.py_json_loads extracted) as [v|e]; caught.
    destruct v; caught.
  - intros rows (r & answer & -> & Hchoices & Hcontent & Hparse)%answers_json_run.
    cbn [mbind result_bind] in *. rewrite Hchoices. cbn [negb]. rewrite Hcontent.
    cbn [mbind result_bind].
    destruct (GeminiAgentService._extract_json_from_markdown (PStr answer)); [|done].
    cbn [mbind result_bind] in *. by rewrite Hparse.
  - intros Hno.
    destruct (_call_api o) as [r|e] eqn:Ecall; caught.
    destruct (choices_missing r) as [[|]|e]; caught.
    destruct (response_content r) as [content|e] eqn:Econtent; caught.
    destruct (GeminiAgentService._extract_json_from_markdown content) as [extracted|e]
      eqn:Eextract; caught.
    destruct (GeminiAgentService.py_json_loads extracted) as [v|e] eqn:Eparse; caught.
    destruct v as [| | | | |rows|]; caught.
    by destruct (Hno rows (run_answers_json _ _ _ _ _ Ecall Econtent Eextract Eparse)).
Qed.

End AgentOperations.

Section BestMatch.
Context `{Runtime} `{StripRuntime}.

Ltac caught :=
  simpl; try done; try (by eauto);
  try match goal with
      | |- context [exc_class ?e] => destruct (exc_class e); (done || by eauto)
      end.

(** X23: [find_best_match] builds its prompt before its [try], so it
    raises [AttributeError] on an extracted item that is not a dict.  On a
    dict it never raises: it returns [None], or an object whose
    [confidence_score] is the fixed 0.8; it returns the gateway's object
    with that score added when the answer parses to a non-empty object, and
    [None] in every other case, an empty object and a non-empty array
    included. *)
Theorem find_best_match_answers (extracted_item : pyval) (o : post_outcome) :
  (is_dict_value extracted_item = false ->
   exists msg, GeminiAgentService.find_best_match extracted_item o
               = Raise (Exn AttributeError msg)) /\
  (is_dict_value extracted_item = true ->
   (exists v, GeminiAgentService.find_best_match extracted_item o = Ok v /\
      (v = PNone \/
       exists m, v = PDict m /\ dict_lookup m "confidence_score" = Some float_0_8)) /\
   (forall m, answers_json o (PDict m) -> m <> [] ->
      GeminiAgentService.find_best_match extracted_item o
      = Ok (PDict (dict_set m "confidence_score" float_0_8))) /\
   ((forall m, m <> [] -> ~ answers_json o (PDict m)) ->
    GeminiAgentService.find_best_match extracted_item o = Ok PNone)).
Proof.
  split.
  - destruct extracted_item; try done; intros _; by eexists.
  - destruct extracted_item as [| | | | | |d]; try done. intros _.
    unfold GeminiAgentService.find_best_match, try_except.
    cbn [py_get mbind result_bind]. split; [|split].
    + destruct (_call_api o) as [r|e]; caught.
      destruct (response_content r) as [content|e]; caught.
      destruct (GeminiAgentService._extract_json_from_markdown content) as [extracted|e];
        caught.
      destruct (GeminiAgentService.py_json_loads extracted) as [v|e]; caught.
      destruct (truthy v); caught.
      destruct v as [| | | | | |m]; caught.
      eexists. split; [done|]. right. eexists. split; [done|].
      apply dict_lookup_set_eq.
    + intros m (r & answer & -> & _ & Hcontent & Hparse)%answers_json_run Hm.
      cbn [mbind result_bind] in *. rewrite Hcontent. cbn [mbind result_bind].
      destruct (GeminiAgentService._extract_json_from_markdown (PStr answer)); [|done].
      cbn [mbind result_bind] in *. rewrite Hparse. by destruct m.
    + intros Hno.
      destruct (_call_api o) as [r|e] eqn:Ecall; caught.
      destruct (response_content r) as [content|e] eqn:Econtent; caught.
      destruct (GeminiAgentService._extract_json_from_markdown content) as [extracted|e]
        eqn:Eextract; caught.
      destruct (GeminiAgentService.py_json_loads extracted) as [v|e] eqn:Eparse; caught.
      destruct (truthy v) eqn:Etruthy; caught.
      destruct v as [| | | | | |m]; caught.
      destruct m as [|kv m]; [done|].
      by destruct (Hno (kv :: m) ltac:(done)
                     (run_answers_json _ _ _ _ _ Ecall Econtent Eextract Eparse)).
Qed.

End BestMatch.

(** ** The earlier agent *)

Section EarlierAgent.
Context `{Runtime} `{StripRuntime}.

(** X24: the three other operations of the earlier agent never raise.
    Each reads the text of the model's response: [check_for_match] answers
    whether, stripped and lowered, it is "true"; [extract_details] returns
    what it parses to; [standardize_item_master] returns it when it parses
    to an array.  When the call raises or the response has no text they
    answer [False], the blank details and the empty list; the last two do
    the same when the text is not JSON. *)
Theorem earlier_agent_answers (o : GeminiAgentServiceBackup.generate_outcome) :
  (forall response_text, o = GeminiAgentServiceBackup.GenerateReturns (Ok response_text) ->
     GeminiAgentServiceBackup.check_for_match o
     = Ok (String.eqb (str_lower (str_strip response_text)) "true") /\
     GeminiAgentServiceBackup.extract_details o
     = Ok (default GeminiAgentService.blank_details (json_loads response_text)) /\
     GeminiAgentServiceBackup.standardize_item_master o
     = Ok (match json_loads response_text with
           | Some (PList rows) => PList rows
           | _ => PList []
           end)) /\
  ((forall response_text,
      o <> GeminiAgentServiceBackup.GenerateReturns (Ok response_text)) ->
   GeminiAgentServiceBackup.check_for_match o = Ok false /\
   GeminiAgentServiceBackup.extract_details o = Ok GeminiAgentService.blank_details /\
   GeminiAgentServiceBackup.standardize_item_master o = Ok (PList [])).
Proof.
  unfold GeminiAgentServiceBackup.check_for_match,
    GeminiAgentServiceBackup.extract_details,
    GeminiAgentServiceBackup.standardize_item_master,
    GeminiAgentService.py_json_loads, try_except. split.
  - intros response_text ->. simpl. split; [done|].
    destruct (json_loads response_text) as [v|]; simpl; [|done].
    split; [done|]. by destruct v.
  - intros Hno. destruct o as [e|[response_text|e]]; try done.
    by destruct (Hno response_text).
Qed.

End EarlierAgent.

(** ** From the upload to the reading endpoints *)

Section Lifecycle.
Context `{Runtime}.

(** X25: an accepted upload and the run of the task it starts do not
    change what the status endpoint answers for any other identifier: after
    the upload, and after the task has run, whatever the documents and the
    services did, another identifier is answered as before, and one that
    had no row still gets a 404 with the detail "Workflow not found:
    Workflow not found".  The identifier of the upload itself is answered
    with a row at both moments. *)
Theorem reads_after_upload env renv uuid wi im mode w :
  start_goes_through env im ->
  (mode = "full" -> is_Some im) ->
  exists w',
    Api.upload_documents env uuid (Some wi) im mode w =
      (Api.JSONResponse true uuid "Processing started successfully", w') /\
    let final :=
      _process_workflow_async renv uuid (stored_path uuid wi) (stored_path uuid <$> im)
        mode w' in
    (exists row, Api.get_workflow_status uuid w' = Api.Content row) /\
    (exists row, Api.get_workflow_status uuid final = Api.Content row) /\
    (forall other, other <> uuid ->
       Api.get_workflow_status other w' = Api.get_workflow_status other w /\
       Api.get_workflow_status other final = Api.get_workflow_status other w) /\
    (forall other, other <> uuid -> workflows w !! other = None ->
       Api.get_workflow_status other final =
         Api.HTTPError 404 "Workflow not found: Workflow not found").
Proof.
  intros Hgo Hmode. unfold Api.upload_documents.
  rewrite (upload_checks_pass _ _ Hmode).
  destruct (start_workflow_ok env uuid wi im mode w Hgo)
    as (w' & -> & Htable & _).
  exists w'. split; [done|]. cbv zeta.
  destruct (run_frame_task renv uuid (stored_path uuid wi) (stored_path uuid <$> im)
              mode w') as (Hothers & Hdom & _).
  assert (Hrow : is_Some (workflows w' !! uuid))
    by (by rewrite Htable, lookup_insert_eq).
  assert (Hother : forall other final, other <> uuid ->
            workflows final !! other = workflows w' !! other ->
            Api.get_workflow_status other final = Api.get_workflow_status other w).
  { intros other final Hne Hsame.
    unfold Api.get_workflow_status, get_workflow_status.
    by rewrite Hsame, Htable, lookup_insert_ne. }
  unfold Api.get_workflow_status at 1 2. unfold get_workflow_status.
  split; [destruct Hrow as [row ->]; by eexists|]. split.
  - apply elem_of_dom in Hrow. rewrite <- Hdom in Hrow.
    apply elem_of_dom in Hrow as [row ->]. by eexists.
  - split.
    + intros other Hne. split; [by apply Hother|].
      apply Hother; [done|]. by apply Hothers.
    + intros other Hne Hnone. rewrite (Hother other _ Hne (proj1 (Hothers other Hne))).
      unfold Api.get_workflow_status, get_workflow_status. by rewrite Hnone.
Qed.


End Lifecycle.

(** ** The further properties on examples *)

Section FurtherExamples.
Import Examples.

Lemma classified_registered :
  _apply_classification_logic (PDict item_pn_qty) master_pn_set master_name_set
  = Ok item_registered.
Proof. reflexivity. Qed.

Lemma answered_with_text (answer : string) :
  answers_text (answered (chat_completion (PStr answer))) answer.
Proof.
  eexists _, _. split; [reflexivity|]. split; [simpl; lia|].
  split; [reflexivity|]. by econstructor.
Qed.

Lemma classification_idempotent_witness :
  _apply_classification_logic (PDict item_pn_qty) master_pn_set master_name_set
  = Ok item_registered /\
  _apply_classification_logic item_registered master_pn_set master_name_set
  = Ok item_registered.
Proof.
  split; [exact classified_registered|].
  exact (classification_idempotent _ _ _ _ classified_registered).
Defined.

Lemma classification_returns_iff_witness :
  (exists out,
     _apply_classification_logic (PDict item_pn_qty) master_pn_set master_name_set
     = Ok out) /\
  (exists msg,
     _apply_classification_logic (PStr "Glue") master_pn_set master_name_set
     = Raise (Exn AttributeError msg)) /\
  (exists msg,
     _apply_classification_logic (PDict item_name_pns) master_pn_set master_name_set
     = Raise (Exn TypeError msg)).
Proof.
  split; [|split].
  - apply (proj2 (proj1 (classification_returns_iff (PDict item_pn_qty)
                           master_pn_set master_name_set))).
    exists item_pn_qty. split; [reflexivity|].
    split; intros Ht; vm_compute in Ht |- *; (reflexivity || discriminate Ht).
  - apply (proj1 (proj2 (classification_returns_iff (PStr "Glue")
                           master_pn_set master_name_set))).
    reflexivity.
  - apply (proj2 (proj2 (classification_returns_iff (PDict item_name_pns)
                           master_pn_set master_name_set)) item_name_pns eq_refl).
    left. intros Hsafe. specialize (Hsafe eq_refl). discriminate Hsafe.
Defined.

Lemma classification_outcomes_witness :
  _apply_classification_logic (PDict item_pn_qty) master_pn_set master_name_set
  = Ok item_registered /\
  exists d, PDict item_pn_qty = PDict d /\
    (enriched d item_registered "1" "high" "Match to BOM & Item Master Data"
       "🟢 Auto-Register" \/
     enriched d item_registered "4" "low" "Check for text match in master data"
       "🔴 Human Intervention Required" \/
     enriched d item_registered "5" "low" "No match found"
       "🔴 Human Intervention Required").
Proof.
  split; [exact classified_registered|].
  exact (classification_outcomes _ _ _ _ classified_registered).
Defined.

Lemma matched_part_number_without_quantity_witness :
  item_master_sets master_rows master_pn_set master_name_set /\
  dict_lookup item_pn_name "part_number" = Some (PStr "PN-100") /\
  member (PStr "PN-100") master_pn_set /\
  ~ has_quantity item_pn_name /\
  lookup_safe (dict_get item_pn_name "material_name") /\
  member (PStr "Glue") master_name_set /\
  exists out,
    _apply_classification_logic (PDict item_pn_name) master_pn_set master_name_set
    = Ok out /\
    enriched item_pn_name out "5" "low" "No match found" "🔴 Human Intervention Required".
Proof.
  assert (H1 : item_master_sets master_rows master_pn_set master_name_set)
    by (split; reflexivity).
  assert (H2 : dict_lookup item_pn_name "part_number" = Some (PStr "PN-100"))
    by reflexivity.
  assert (H3 : member (PStr "PN-100") master_pn_set)
    by (exists (PStr "PN-100"); split; [constructor | reflexivity]).
  assert (H4 : ~ has_quantity item_pn_name).
  { intros (q & Hq & _ & Hempty). vm_compute in Hq. injection Hq as <-. by apply Hempty. }
  assert (H5 : lookup_safe (dict_get item_pn_name "material_name"))
    by (intros _; reflexivity).
  assert (H6 : member (PStr "Glue") master_name_set)
    by (exists (PStr "Glue"); split; [constructor | reflexivity]).
  repeat (split; [assumption|]).
  exact (matched_part_number_without_quantity _ _ _ _ _ H1 H2 H3 H4 H5).
Defined.

Lemma no_item_master_no_match_witness :
  _extract_and_classify_items (answered (chat_completion (PStr "[{}]"))) (PList [])
  = Ok [item_defaulted] /\
  Forall unmatched [item_defaulted] /\
  exists kb, _generate_summary (PList [item_defaulted]) "kb_only"
             = Ok (Summary 1 0 kb "kb_only").
Proof.
  assert (Hrun : _extract_and_classify_items
                   (answered (chat_completion (PStr "[{}]"))) (PList [])
                 = Ok [item_defaulted]) by (vm_compute; reflexivity).
  split; [exact Hrun|].
  exact (no_item_master_no_match _ "kb_only" _ Hrun).
Defined.

Lemma item_master_set_elements_witness :
  set_of_field "part_number" master_rows [] = Ok master_pn_set /\
  (forall e, e ∈ master_pn_set ->
     truthy e = true /\ hashable e = true /\
     exists d, PDict d ∈ master_rows /\ dict_lookup d "part_number" = Some e) /\
  (forall d v, PDict d ∈ master_rows -> dict_lookup d "part_number" = Some v ->
     truthy v = true -> v <> PFloat FNaN -> member v master_pn_set).
Proof.
  assert (Hset : set_of_field "part_number" master_rows [] = Ok master_pn_set)
    by reflexivity.
  split; [exact Hset|].
  exact (item_master_set_elements _ _ _ Hset).
Defined.

Lemma item_master_set_built_iff_witness :
  Forall (usable_row "part_number") master_rows /\
  ~ Forall (usable_row "part_number") [PStr "PN-100"] /\
  (exists s, set_of_field "part_number" master_rows [] = Ok s) /\
  ~ exists s, set_of_field "part_number" [PStr "PN-100"] [] = Ok s.
Proof.
  assert (Hrows : Forall (usable_row "part_number") master_rows).
  { constructor; [|constructor]. eexists. split; [reflexivity|]. by intros _. }
  assert (Hnot : ~ Forall (usable_row "part_number") [PStr "PN-100"]).
  { intros [(d & Hd & _) _]%Forall_cons. discriminate Hd. }
  split; [exact Hrows|]. split; [exact Hnot|]. split.
  - exact (proj2 (item_master_set_built_iff "part_number" master_rows []) Hrows).
  - intros Hbuilt. apply Hnot.
    exact (proj1 (item_master_set_built_iff "part_number" [PStr "PN-100"] []) Hbuilt).
Defined.

Lemma classify_all_pointwise_witness :
  classify_all [PDict item_pn_qty] master_pn_set master_name_set = Ok [item_registered] /\
  Forall2 (fun raw item =>
             _apply_classification_logic raw master_pn_set master_name_set = Ok item)
          [PDict item_pn_qty] [item_registered].
Proof.
  assert (Hall : classify_all [PDict item_pn_qty] master_pn_set master_name_set
                 = Ok [item_registered]) by reflexivity.
  split; [exact Hall|].
  exact (proj1 (classify_all_pointwise _ _ _ _) Hall).
Defined.

Lemma summary_bounds_witness :
  _generate_summary (PList [item_registered]) "full" = Ok (Summary 1 1 0 "full") /\
  comparison_mode (Summary 1 1 0 "full") = "full" /\
  (successful_matches (Summary 1 1 0 "full") <= total_materials (Summary 1 1 0 "full"))%nat /\
  (knowledge_base_matches (Summary 1 1 0 "full")
   <= total_materials (Summary 1 1 0 "full"))%nat /\
  total_materials (Summary 1 1 0 "full") = length [item_registered].
Proof.
  assert (Hrun : _generate_summary (PList [item_registered]) "full"
                 = Ok (Summary 1 1 0 "full")) by (vm_compute; reflexivity).
  split; [exact Hrun|].
  pose proof (summary_bounds _ _ _ Hrun) as (Hmode & Hmatches & Hkb & Htotal & _).
  split; [exact Hmode|]. split; [exact Hmatches|]. split; [exact Hkb|].
  exact (Htotal _ eq_refl).
Defined.

Lemma summary_returns_iff_witness :
  Forall reasoning_readable [item_registered] /\
  (exists s, _generate_summary (PList [item_registered]) "full" = Ok s) /\
  exists msg, _generate_summary (PList [PDict [("reasoning", PNone)]]) "full"
              = Raise (Exn AttributeError msg).
Proof.
  assert (Hread : Forall reasoning_readable [item_registered]).
  { constructor; [|constructor]. unfold item_registered. intros d [= <-]. by eexists. }
  split; [exact Hread|]. split.
  - exact (proj2 (proj1 (summary_returns_iff [item_registered] "full")) Hread).
  - destruct (_generate_summary (PList [PDict [("reasoning", PNone)]]) "full")
      as [s|[class msg]] eqn:Hrun; [vm_compute in Hrun; discriminate Hrun|].
    pose proof (proj2 (summary_returns_iff _ _) _ Hrun) as Hclass.
    simpl in Hclass. subst class. by exists msg.
Defined.

Lemma saved_results_read_back_witness :
  env_write_results_file env_disk_fills
  = Some (WriteFails (Exn OSError "No space left on device")
            "Expecting value: line 1 column 1 (char 0)") /\
  get_workflow_results "wf-1" world_with_results
  = Ok (ResultsArtifact [item_defaulted] (Summary 1 0 0 "kb_only")) /\
  let run := _save_workflow_results env_disk_fills "wf-1" [item_registered]
               (Summary 1 1 0 "full") world_with_results in
  fst run = Raise (Exn OSError "No space left on device") /\
  get_workflow_results "wf-1" (snd run)
  = Raise (Exn JSONDecodeError "Expecting value: line 1 column 1 (char 0)") /\
  workflow_results (snd run) = workflow_results world_with_results.
Proof.
  assert (Hfile : env_write_results_file env_disk_fills
                  = Some (WriteFails (Exn OSError "No space left on device")
                            "Expecting value: line 1 column 1 (char 0)"))
    by reflexivity.
  split; [exact Hfile|]. split; [vm_compute; reflexivity|].
  pose proof (saved_results_read_back env_disk_fills "wf-1" [item_registered]
                (Summary 1 1 0 "full") world_with_results)
    as (_ & _ & _ & _ & Hpart & _).
  exact (Hpart _ _ Hfile).
Defined.

Lemma pending_approvals_prefix_witness :
  let run := _create_pending_approvals env_all_fine "wf-1" [item_registered; PStr "Glue"]
               world_queued in
  run = (Ok tt, snd run) /\
  exists added,
    added `prefix_of` filter (fun item => has_confidence item = true)
                        [item_registered; PStr "Glue"] /\
    pending_approvals (snd run)
    = pending_approvals world_queued ++ map (new_pending "wf-1") added /\
    added = filter (fun item => has_confidence item = true) [item_registered; PStr "Glue"].
Proof.
  intros run.
  assert (Hrun : run = (Ok tt, snd run)) by (vm_compute; reflexivity).
  split; [exact Hrun|].
  exact (pending_approvals_prefix _ _ _ _ _ _ Hrun).
Defined.


Lemma completed_status_has_results_witness :
  get_workflow_status "wf-1" fine_final = Ok row_completed /\
  wf_status row_completed = "completed" /\
  exists artifact,
    get_workflow_results "wf-1" fine_final = Ok artifact /\
    total_materials (artifact_summary artifact) = length (matches artifact) /\
    pending_approvals fine_final =
      pending_approvals world_queued ++ map (new_pending "wf-1") (matches artifact).
Proof.
  assert (Hrow : get_workflow_status "wf-1" fine_final = Ok row_completed)
    by (vm_compute; reflexivity).
  assert (Hstatus : wf_status row_completed = "completed") by reflexivity.
  split; [exact Hrow|]. split; [exact Hstatus|].
  exact (completed_status_has_results env_all_fine "wf-1" "uploads/wf-1/wi.pdf" None
           "kb_only" world_queued row_completed Hrow Hstatus).
Defined.

Lemma run_touches_its_workflow_only_witness :
  run_frame "wf-1" world_queued locked_final.
Proof.
  exact (run_touches_its_workflow_only env_database_locked "wf-1" "uploads/wf-1/wi.pdf"
           None "kb_only" world_queued).
Defined.

Lemma accepted_upload_witness :
  start_goes_through disk_all_fine (Some master_csv) /\
  slash_free (filename wi_upload) /\ slash_free (filename master_csv) /\
  filename master_csv <> filename wi_upload /\
  exists w',
    Api.upload_documents disk_all_fine "wf-2" (Some wi_upload) (Some master_csv) "full"
      world_queued
    = (Api.JSONResponse true "wf-2" "Processing started successfully", w') /\
    is_Some (workflows w' !! "wf-2") /\
    submitted w' =
      submitted world_queued ++
      [Task "wf-2" (stored_path "wf-2" wi_upload) (Some (stored_path "wf-2" master_csv))
         "full"] /\
    uploaded_files w' !! stored_path "wf-2" master_csv = Some (file master_csv) /\
    uploaded_files w' !! stored_path "wf-2" wi_upload = Some (file wi_upload).
Proof.
  assert (Hgo : start_goes_through disk_all_fine (Some master_csv)) by (by repeat split).
  assert (Hmode : "full" = "full" -> is_Some (Some master_csv)) by (intros _; by eexists).
  assert (Hwi : slash_free (filename wi_upload)) by reflexivity.
  assert (Hmaster : slash_free (filename master_csv)) by reflexivity.
  assert (Hne : filename master_csv <> filename wi_upload) by discriminate.
  split; [exact Hgo|]. split; [exact Hwi|]. split; [exact Hmaster|]. split; [exact Hne|].
  destruct (accepted_upload disk_all_fine "wf-2" wi_upload (Some master_csv) "full"
              world_queued Hgo Hmode)
    as (w' & Hreply & Hrow & _ & Hqueue & Hitem & Hwork).
  exists w'. split; [exact Hreply|]. split; [exact Hrow|]. split; [exact Hqueue|].
  split; [exact (Hitem master_csv eq_refl)|].
  apply Hwork. intros f [= <-]. split; [exact Hwi|]. split; [exact Hmaster | exact Hne].
Defined.

Lemma refused_upload_witness :
  let reply := Api.upload_documents disk_full "wf-2" (Some wi_upload) None "kb_only"
                 world_queued in
  reply = (Api.HTTPException 500
             "Failed to start workflow: Failed to start workflow: No space left on device",
           snd reply) /\
  workflows (snd reply) = workflows world_queued /\
  submitted (snd reply) = submitted world_queued.
Proof.
  intros reply.
  assert (Hreply : reply =
            (Api.HTTPException 500
               "Failed to start workflow: Failed to start workflow: No space left on device",
             snd reply)) by (vm_compute; reflexivity).
  split; [exact Hreply|].
  pose proof (refused_upload _ _ _ _ _ _ _ _ _ Hreply) as (Htable & Hqueue & _).
  split; [exact Htable | exact Hqueue].
Defined.

Lemma same_filename_overwrites_witness :
  start_goes_through disk_all_fine (Some master_upload) /\
  filename master_upload = filename wi_upload /\
  exists w',
    Api.upload_documents disk_all_fine "wf-2" (Some wi_upload) (Some master_upload) "full"
      world_queued
    = (Api.JSONResponse true "wf-2" "Processing started successfully", w') /\
    uploaded_files w' !! stored_path "wf-2" wi_upload = Some (file master_upload).
Proof.
  assert (Hgo : start_goes_through disk_all_fine (Some master_upload))
    by (by repeat split).
  assert (Hname : filename master_upload = filename wi_upload) by reflexivity.
  split; [exact Hgo|]. split; [exact Hname|].
  destruct (same_filename_overwrites disk_all_fine "wf-2" wi_upload master_upload "full"
              world_queued Hgo Hname) as (w' & Hreply & Hfile & _).
  exists w'. split; [exact Hreply | exact Hfile].
Defined.

Lemma upload_destination_witness :
  start_goes_through disk_all_fine None /\
  (exists w',
     start_workflow disk_all_fine "wf-2" rooted_upload None "kb_only" world_queued
     = (Ok true, w') /\
     uploaded_files w' !! "/tmp/wi.pdf" = Some (file rooted_upload) /\
     last (submitted w') = Some (Task "wf-2" "/tmp/wi.pdf" None "kb_only")) /\
  (exists w',
     start_workflow disk_all_fine "wf-2" wi_upload None "kb_only" world_queued
     = (Ok true, w') /\
     uploaded_files w' !! "uploads/wf-2/wi.pdf" = Some (file wi_upload) /\
     last (submitted w') = Some (Task "wf-2" "uploads/wf-2/wi.pdf" None "kb_only")).
Proof.
  assert (Hgo : start_goes_through disk_all_fine None) by (by repeat split).
  split; [exact Hgo|]. split.
  - destruct (upload_destination disk_all_fine "wf-2" rooted_upload "kb_only" world_queued
                Hgo) as (w' & Hrun & Habs & _).
    exists w'. split; [exact Hrun|]. exact (Habs eq_refl).
  - destruct (upload_destination disk_all_fine "wf-2" wi_upload "kb_only" world_queued
                Hgo) as (w' & Hrun & _ & Hrel).
    exists w'. split; [exact Hrun|].
    exact (Hrel eq_refl eq_refl ltac:(discriminate) eq_refl).
Defined.

Lemma check_for_match_answers_witness :
  answers_text (answered (chat_completion (PStr " TRUE "))) " TRUE " /\
  GeminiAgentService.check_for_match (answered (chat_completion (PStr " TRUE "))) = Ok true /\
  GeminiAgentService.check_for_match gateway_down = Ok false.
Proof.
  assert (Htext : answers_text (answered (chat_completion (PStr " TRUE "))) " TRUE ")
    by apply answered_with_text.
  split; [exact Htext|]. split.
  - exact (proj1 (proj2 (check_for_match_answers _)) _ Htext).
  - apply (proj2 (proj2 (check_for_match_answers gateway_down))).
    intros answer (r & raw & Hdown & _). discriminate Hdown.
Defined.

Lemma extract_details_answers_witness :
  answers_json (answered (chat_completion (PStr "[]"))) (PList []) /\
  GeminiAgentService.extract_details (answered (chat_completion (PStr "[]")))
  = Ok (PList []) /\
  GeminiAgentService.extract_details gateway_down = Ok GeminiAgentService.blank_details.
Proof.
  assert (Hjson : answers_json (answered (chat_completion (PStr "[]"))) (PList []))
    by (exists "[]"; split; [apply answered_with_text | reflexivity]).
  split; [exact Hjson|]. split.
  - exact (proj1 (proj2 (extract_details_answers _)) _ Hjson).
  - apply (proj2 (proj2 (extract_details_answers gateway_down))).
    intros v (answer & (r & raw & Hdown & _) & _). discriminate Hdown.
Defined.

Lemma standardize_item_master_answers_witness :
  answers_json (answered (chat_completion (PStr "[{}]"))) (PList [PDict []]) /\
  GeminiAgentService.standardize_item_master (answered (chat_completion (PStr "[{}]")))
  = Ok (PList [PDict []]) /\
  GeminiAgentService.standardize_item_master gateway_down = Ok (PList []).
Proof.
  assert (Hjson : answers_json (answered (chat_completion (PStr "[{}]")))
                    (PList [PDict []]))
    by (exists "[{}]"; split; [apply answered_with_text | reflexivity]).
  split; [exact Hjson|]. split.
  - exact (proj1 (proj2 (standardize_item_master_answers _)) _ Hjson).
  - apply (proj2 (proj2 (standardize_item_master_answers gateway_down))).
    intros rows (answer & (r & raw & Hdown & _) & _). discriminate Hdown.
Defined.

Lemma find_best_match_answers_witness :
  @answers_json agent_runtime (answered (chat_completion (PStr kb_item_text)))
    (PDict kb_item) /\
  @GeminiAgentService.find_best_match agent_runtime (PDict item_pn_qty)
    (answered (chat_completion (PStr kb_item_text)))
  = Ok (PDict [("part_number", PStr "PN-100"); ("confidence_score", float_0_8)]) /\
  @GeminiAgentService.find_best_match agent_runtime (PDict item_pn_qty)
    (answered (chat_completion (PStr "{}")))
  = Ok PNone /\
  exists msg,
    @GeminiAgentService.find_best_match agent_runtime (PStr "PN-100")
      (answered (chat_completion (PStr kb_item_text)))
    = Raise (Exn AttributeError msg).
Proof.
  assert (Hjson : @answers_json agent_runtime
                    (answered (chat_completion (PStr kb_item_text))) (PDict kb_item))
    by (exists kb_item_text; split;
        [apply answered_with_text | reflexivity]).
  split; [exact Hjson|]. split; [|split].
  - exact (proj1 (proj2 (proj2 (@find_best_match_answers agent_runtime (PDict item_pn_qty)
                                  _) eq_refl)) kb_item Hjson ltac:(discriminate)).
  - apply (proj2 (proj2 (proj2 (@find_best_match_answers agent_runtime (PDict item_pn_qty)
                                  (answered (chat_completion (PStr "{}")))) eq_refl))).
    intros m Hm (answer & (r & raw & Hr & _ & Hraw & Hcontent) & Hparse).
    injection Hr as <-. injection Hraw as <-.
    inversion Hcontent as [d choice rest message content Hc Hmsg Hct]; subst.
    vm_compute in Hc. injection Hc as <- <-.
    vm_compute in Hmsg. injection Hmsg as <-.
    vm_compute in Hct. injection Hct as <-.
    vm_compute in Hparse. injection Hparse as <-. by apply Hm.
  - exact (proj1 (@find_best_match_answers agent_runtime (PStr "PN-100") _) eq_refl).
Defined.

Lemma earlier_agent_answers_witness :
  GeminiAgentServiceBackup.check_for_match
    (GeminiAgentServiceBackup.GenerateReturns (Ok " True ")) = Ok true /\
  GeminiAgentServiceBackup.extract_details
    (GeminiAgentServiceBackup.GenerateReturns (Ok " True "))
  = Ok GeminiAgentService.blank_details /\
  GeminiAgentServiceBackup.standardize_item_master
    (GeminiAgentServiceBackup.GenerateRaises (Exn RuntimeError "quota exceeded"))
  = Ok (PList []).
Proof.
  pose proof (proj1 (earlier_agent_answers
                       (GeminiAgentServiceBackup.GenerateReturns (Ok " True ")))
                " True " eq_refl) as (Hmatch & Hdetails & _).
  split; [exact Hmatch|]. split; [exact Hdetails|].
  apply (proj2 (earlier_agent_answers
                  (GeminiAgentServiceBackup.GenerateRaises
                     (Exn RuntimeError "quota exceeded")))).
  intros response_text Heq. discriminate Heq.
Defined.

Lemma reads_after_upload_witness :
  start_goes_through disk_all_fine None /\
  workflows world_queued !! "wf-3" = None /\
  exists w',
    Api.upload_documents disk_all_fine "wf-2" (Some wi_upload) None "kb_only" world_queued
    = (Api.JSONResponse true "wf-2" "Processing started successfully", w') /\
    let final :=
      _process_workflow_async env_database_locked "wf-2" (stored_path "wf-2" wi_upload)
        None "kb_only" w' in
    (exists row, Api.get_workflow_status "wf-2" final = Api.Content row) /\
    Api.get_workflow_status "wf-1" final = Api.get_workflow_status "wf-1" world_queued /\
    Api.get_workflow_status "wf-3" final =
      Api.HTTPError 404 "Workflow not found: Workflow not found".
Proof.
  assert (Hgo : start_goes_through disk_all_fine None) by (by repeat split).
  assert (Hmode : "kb_only" = "full" -> is_Some (@None upload_file))
    by (intros Heq; discriminate Heq).
  assert (Hrows : workflows world_queued !! "wf-3" = None) by (vm_compute; reflexivity).
  split; [exact Hgo|]. split; [exact Hrows|].
  destruct (reads_after_upload disk_all_fine env_database_locked "wf-2" wi_upload None
              "kb_only" world_queued Hgo Hmode)
    as (w' & Hreply & _ & Hrow & Hothers & Hunknown).
  exists w'. split; [exact Hreply|]. split; [exact Hrow|]. split.
  - exact (proj2 (Hothers "wf-1" ltac:(discriminate))).
  - exact (Hunknown "wf-3" ltac:(discriminate) Hrows).
Defined.


End FurtherExamples.
